(** * Excel Editor Pro: document state history

    A shallow embedding of the two state-history managers of the editor,
    with the dialogs and the save functions that use them:

    - [UndoRedo]: [UndoRedoManager] of [UndoRedo_.py] (snapshot stacks);
      [History]: its [UndoRedoHistoryDialog];
    - [AutoSave]: [AutoSaveManager] of [AutoSave_.py] (timestamped version
      files with a retention bound), with [save_file] and [save_as_file]
      of [Editor_.py]; [VersionHistory] and [AutoSaveSettings]: its two
      dialogs.

    Python objects that the code copies and mutates (data frames, the
    format-settings dictionary) live in an explicit object store, so that
    a snapshot and the live document are told apart by identity, and
    [copy()] / [copy.deepcopy] really allocate.  Exceptions are explicit
    results; [try: ... except Exception] is a combinator.  What the user
    answers to a dialog is part of the state.  What the environment
    decides is an argument of the call that asks for it: the local time
    of a save, the metadata the file system gives to a written file, the
    time zone in which [datetime.fromtimestamp] reads a modification
    time. *)

From stdpp Require Import base option list strings pretty gmap sorting.
From Stdlib Require Import ZArith Lia Ascii.

Open Scope Z_scope.
Open Scope string_scope.
Open Scope list_scope.

(** ** The Python runtime fragment used by both managers *)

Module Py.

(** The exceptions that the modelled statements can raise, plus
    [KeyboardInterrupt] as the representative of a [BaseException] that is
    not an [Exception]. *)
Inductive exn : Type :=
  | MemoryError        (* an allocation failed *)
  | AttributeError (attr : string)   (* [None.attr] *)
  | IndexError         (* pop from an empty list *)
  | FileNotFoundError  (* OSError: no such file *)
  | PermissionError    (* OSError: the file cannot be written or removed *)
  | ValueError (msg : string)            (* pandas: no writer for the path *)
  | InvalidFileException (msg : string)  (* openpyxl: not a workbook path *)
  | KeyboardInterrupt.

(** [isinstance(e, Exception)] in Python's built-in hierarchy. *)
Definition is_Exception (e : exn) : bool :=
  match e with
  | KeyboardInterrupt => false
  | _ => true
  end.

(** The outcome of running a statement block from a state: it completes
    with a value, or an exception is in flight.  Either way the state
    carries every mutation performed so far. *)
Inductive result (S A : Type) : Type :=
  | Normal (a : A) (s : S)
  | Raised (e : exn) (s : S).
Arguments Normal {S A} a s.
Arguments Raised {S A} e s.

Definition M (S A : Type) : Type := S -> result S A.

Definition ret {S A} (a : A) : M S A := fun s => Normal a s.

Definition bind {S A B} (m : M S A) (k : A -> M S B) : M S B :=
  fun s =>
    match m s with
    | Normal a s' => k a s'
    | Raised e s' => Raised e s'
    end.

Definition raise {S A} (e : exn) : M S A := fun s => Raised e s.

Definition gets {S A} (f : S -> A) : M S A := fun s => Normal (f s) s.

Definition modify {S} (f : S -> S) : M S unit := fun s => Normal tt (f s).

(** [try: body / except Exception as e: handler e]. *)
Definition try_except {S A} (body : M S A) (handler : exn -> M S A) : M S A :=
  fun s =>
    match body s with
    | Normal a s' => Normal a s'
    | Raised e s' => if is_Exception e then handler e s' else Raised e s'
    end.

(** [try: body / except: pass] (a bare [except] catches everything). *)
Definition try_pass {S} (body : M S unit) : M S unit :=
  fun s =>
    match body s with
    | Normal a s' => Normal a s'
    | Raised _ s' => Normal tt s'
    end.

Definition state_of {S A} (r : result S A) : S :=
  match r with
  | Normal _ s => s
  | Raised _ s => s
  end.

Definition value_of {S A} (r : result S A) : option A :=
  match r with
  | Normal a _ => Some a
  | Raised _ _ => None
  end.

Definition raised {S A} (r : result S A) : option exn :=
  match r with
  | Normal _ _ => None
  | Raised e _ => Some e
  end.

(** [str(e)]. *)
Definition newline : string := String (Ascii.ascii_of_nat 10) EmptyString.

Definition str (e : exn) : string :=
  match e with
  | MemoryError => EmptyString
  | AttributeError attr =>
      "'NoneType' object has no attribute '" +:+ attr +:+ "'"
  | IndexError => "pop from empty list"
  | FileNotFoundError => "No such file or directory"
  | PermissionError => "Permission denied"
  | ValueError msg => msg
  | InvalidFileException msg => msg
  | KeyboardInterrupt => EmptyString
  end.

(** What the user interface was asked to do. *)
Inductive UiEvent : Type :=
  | StatusMessage (msg : string) (ms : Z)   (* statusBar().showMessage *)
  | TableUpdated                            (* update_table() *)
  | WindowTitle (title : string)            (* setWindowTitle *)
  | CriticalBox (title text : string)       (* QMessageBox.critical *)
  | InformationBox (title text : string)    (* QMessageBox.information *)
  | RecentFile (path : string)              (* add_to_recent_files *)
  | Printed (text : string).                (* print *)

(** [list.pop()]: the last element and the list without it. *)
Definition pop_last {A} (l : list A) : option (A * list A) :=
  match rev l with
  | [] => None
  | x :: r => Some (x, rev r)
  end.

(** [l[-n:]] for [n > 0], and the empty list for [n = 0]: the last [n]
    elements. *)
Definition keep_last {A} (n : nat) (l : list A) : list A :=
  drop (length l - n) l.

End Py.

Notation "'let*' x ':=' m 'in' k" := (Py.bind m (fun x => k))
  (at level 10, x name, m at level 100, k at level 200, only parsing).
Notation "'run' m 'in' k" := (Py.bind m (fun _ => k))
  (at level 10, m at level 100, k at level 200, only parsing).

(** ** The table and its formatting, by content *)

Module Table.

(** A cell value of the table. *)
Inductive Cell : Type :=
  | CInt (z : Z)
  | CStr (s : string)
  | CNaN.

(** The content of a [pandas.DataFrame]: ordered column labels and
    ordered rows. *)
Record DataFrame : Type := mkDataFrame {
  columns : list string;
  rows : list (list Cell)
}.

(** The content of the [format_settings] dictionary:
    column name -> (property -> value). *)
Abbreviation FormatSettings := (gmap string (gmap string string)).

#[global] Instance DataFrame_inhabited : Inhabited DataFrame :=
  populate (mkDataFrame [] []).

End Table.

(** ** UndoRedo_.py: the snapshot manager *)

Module UndoRedo.
Import Py Table.

(** *** Data *)

(** An object identity: an index into the object store. *)
Definition loc : Type := nat.

(** The attributes of the editor window ([self.parent]) that the manager
    reads and writes.  [df] and [format_settings] are references. *)
Record Parent : Type := mkParent {
  df : option loc;                       (* None: no document loaded *)
  current_file_path : option string;
  format_settings : loc;
  is_modified : bool
}.

(** The dictionary built by [save_state], [undo] and [redo]. *)
Record State : Type := mkState {
  state_df : loc;                        (* 'df' *)
  state_description : string;            (* 'description' *)
  state_file_path : option string;       (* 'file_path' *)
  state_format_settings : loc            (* 'format_settings' *)
}.

(** [UndoRedoManager]: both stacks are Python lists, index 0 first, so
    the top of a stack is the LAST element. *)
Record Manager : Type := mkManager {
  undo_stack : list State;
  redo_stack : list State;
  max_stack_size : Z;
  current_position : Z
}.

(** The whole state.  [frames] and [dicts] are the object stores;
    [alloc_outcomes] lists the outcomes of the coming allocations, in
    order ([false]: that allocation raises [MemoryError]); once the list
    is used up every allocation succeeds. *)
Record World : Type := mkWorld {
  parent : Parent;
  manager : Manager;
  frames : list DataFrame;
  dicts : list FormatSettings;
  alloc_outcomes : list bool;
  ui : list UiEvent
}.

(** Field updates. *)
Definition upd_parent (f : Parent -> Parent) (w : World) : World :=
  mkWorld (f (parent w)) (manager w) (frames w) (dicts w) (alloc_outcomes w) (ui w).
Definition upd_manager (f : Manager -> Manager) (w : World) : World :=
  mkWorld (parent w) (f (manager w)) (frames w) (dicts w) (alloc_outcomes w) (ui w).
Definition upd_frames (f : list DataFrame -> list DataFrame) (w : World) : World :=
  mkWorld (parent w) (manager w) (f (frames w)) (dicts w) (alloc_outcomes w) (ui w).
Definition upd_dicts (f : list FormatSettings -> list FormatSettings) (w : World) : World :=
  mkWorld (parent w) (manager w) (frames w) (f (dicts w)) (alloc_outcomes w) (ui w).
Definition set_alloc_outcomes (o : list bool) (w : World) : World :=
  mkWorld (parent w) (manager w) (frames w) (dicts w) o (ui w).
Definition emit (e : UiEvent) (w : World) : World :=
  mkWorld (parent w) (manager w) (frames w) (dicts w) (alloc_outcomes w) (ui w ++ [e]).

Definition set_df (o : option loc) (p : Parent) : Parent :=
  mkParent o (current_file_path p) (format_settings p) (is_modified p).
Definition set_current_file_path (o : option string) (p : Parent) : Parent :=
  mkParent (df p) o (format_settings p) (is_modified p).
Definition set_format_settings (l : loc) (p : Parent) : Parent :=
  mkParent (df p) (current_file_path p) l (is_modified p).
Definition set_is_modified (b : bool) (p : Parent) : Parent :=
  mkParent (df p) (current_file_path p) (format_settings p) b.

Definition set_undo_stack (l : list State) (m : Manager) : Manager :=
  mkManager l (redo_stack m) (max_stack_size m) (current_position m).
Definition set_redo_stack (l : list State) (m : Manager) : Manager :=
  mkManager (undo_stack m) l (max_stack_size m) (current_position m).
Definition set_current_position (z : Z) (m : Manager) : Manager :=
  mkManager (undo_stack m) (redo_stack m) (max_stack_size m) z.

(** [UndoRedoManager.__init__]. *)
Definition init_manager : Manager := mkManager [] [] 50 (-1).

(** *** Allocation *)

(** Whether the next allocation succeeds, and the outcomes left after
    it. *)
Definition succeeds (outcomes : list bool) : bool :=
  match head outcomes with
  | Some false => false
  | _ => true
  end.

Definition next_alloc_ok (w : World) : bool := succeeds (alloc_outcomes w).

Definition consume_outcome (w : World) : World :=
  set_alloc_outcomes (tail (alloc_outcomes w)) w.

(** Allocate a new frame object holding [d]; its identity is fresh. *)
Definition alloc_frame (d : DataFrame) : M World loc :=
  fun w =>
    if next_alloc_ok w
    then Normal (length (frames w))
           (upd_frames (fun h => h ++ [d]) (consume_outcome w))
    else Raised MemoryError (consume_outcome w).

Definition alloc_dict (f : FormatSettings) : M World loc :=
  fun w =>
    if next_alloc_ok w
    then Normal (length (dicts w))
           (upd_dicts (fun h => h ++ [f]) (consume_outcome w))
    else Raised MemoryError (consume_outcome w).

(** [x.copy()] on a frame object (pandas copies deeply by default). *)
Definition frame_copy (l : loc) : M World loc :=
  let* d := gets (fun w => frames w !!! l) in alloc_frame d.

(** [copy.deepcopy(x)] on a format-settings dictionary. *)
Definition deepcopy (l : loc) : M World loc :=
  let* f := gets (fun w => dicts w !!! l) in alloc_dict f.

(** [self.parent.df.copy()]: attribute access on [None] raises. *)
Definition parent_df_copy : M World loc :=
  let* o := gets (fun w => df (parent w)) in
  match o with
  | None => raise (AttributeError "copy")
  | Some l => frame_copy l
  end.

(** *** User interface effects *)

Definition showMessage (msg : string) (ms : Z) : M World unit :=
  modify (emit (StatusMessage msg ms)).
Definition update_table : M World unit := modify (emit TableUpdated).
Definition critical (title text : string) : M World unit :=
  modify (emit (CriticalBox title text)).
Definition print (text : string) : M World unit := modify (emit (Printed text)).

(** *** The manager's methods *)

Definition can_undo : M World bool :=
  gets (fun w => bool_decide (0 < length (undo_stack (manager w)))%nat).

Definition can_redo : M World bool :=
  gets (fun w => bool_decide (0 < length (redo_stack (manager w)))%nat).

Definition get_undo_count : M World Z :=
  gets (fun w => Z.of_nat (length (undo_stack (manager w)))).

Definition get_redo_count : M World Z :=
  gets (fun w => Z.of_nat (length (redo_stack (manager w)))).

(** [self.current_position = len(self.undo_stack) - 1]. *)
Definition sync_current_position : M World unit :=
  modify (upd_manager (fun m =>
    set_current_position (Z.of_nat (length (undo_stack m)) - 1) m)).

(** [self.undo_stack.pop(0)]. *)
Definition undo_stack_pop_first : M World State :=
  let* l := gets (fun w => undo_stack (manager w)) in
  match l with
  | [] => raise IndexError
  | x :: t =>
      run modify (upd_manager (set_undo_stack t)) in
      ret x
  end.

(** [self.undo_stack.pop()]. *)
Definition undo_stack_pop : M World State :=
  let* l := gets (fun w => undo_stack (manager w)) in
  match pop_last l with
  | None => raise IndexError
  | Some (x, t) =>
      run modify (upd_manager (set_undo_stack t)) in
      ret x
  end.

(** [self.redo_stack.pop()]. *)
Definition redo_stack_pop : M World State :=
  let* l := gets (fun w => redo_stack (manager w)) in
  match pop_last l with
  | None => raise IndexError
  | Some (x, t) =>
      run modify (upd_manager (set_redo_stack t)) in
      ret x
  end.

(** The dictionary literal [{'df': self.parent.df.copy(), 'description': d,
    'file_path': self.parent.current_file_path,
    'format_settings': copy.deepcopy(self.parent.format_settings)}],
    evaluated left to right. *)
Definition capture (description : string) : M World State :=
  let* d := parent_df_copy in
  let* p := gets (fun w => current_file_path (parent w)) in
  let* fl := gets (fun w => format_settings (parent w)) in
  let* f := deepcopy fl in
  ret (mkState d description p f).

(** The three assignments that install a stored state into the parent. *)
Definition restore (st : State) : M World unit :=
  let* d := frame_copy (state_df st) in
  run modify (upd_parent (set_df (Some d))) in
  run modify (upd_parent (set_current_file_path (state_file_path st))) in
  let* f := deepcopy (state_format_settings st) in
  modify (upd_parent (set_format_settings f)).

(** [UndoRedoManager.save_state]. *)
Definition save_state (description : string) : M World unit :=
  try_except
    (let* o := gets (fun w => df (parent w)) in
     match o with
     | None => ret tt
     | Some _ =>
         let* state := capture description in
         run modify (upd_manager (set_redo_stack [])) in
         run modify (upd_manager (fun m =>
               set_undo_stack (undo_stack m ++ [state]) m)) in
         let* n := gets (fun w => Z.of_nat (length (undo_stack (manager w)))) in
         let* mx := gets (fun w => max_stack_size (manager w)) in
         run (if n >? mx
              then (run undo_stack_pop_first in ret tt)
              else ret tt) in
         sync_current_position
     end)
    (fun e => print ("Error saving undo state: " +:+ str e)).

(** [UndoRedoManager.undo]. *)
Definition undo : M World bool :=
  try_except
    (let* can := can_undo in
     if negb can then
       run showMessage "Nothing to undo" 2000 in
       ret false
     else
       let* current_state := capture "Current State" in
       run modify (upd_manager (fun m =>
             set_redo_stack (redo_stack m ++ [current_state]) m)) in
       let* previous_state := undo_stack_pop in
       run restore previous_state in
       run update_table in
       run modify (upd_parent (set_is_modified true)) in
       run sync_current_position in
       run showMessage ("Undone: " +:+ state_description previous_state) 2000 in
       ret true)
    (fun e =>
       run print ("Error during undo: " +:+ str e) in
       run critical "Undo Error" ("Failed to undo:" +:+ newline +:+ str e) in
       ret false).

(** [UndoRedoManager.redo]. *)
Definition redo : M World bool :=
  try_except
    (let* can := can_redo in
     if negb can then
       run showMessage "Nothing to redo" 2000 in
       ret false
     else
       let* next_state := redo_stack_pop in
       let* current_state := capture "Undo" in
       run modify (upd_manager (fun m =>
             set_undo_stack (undo_stack m ++ [current_state]) m)) in
       run restore next_state in
       run update_table in
       run modify (upd_parent (set_is_modified true)) in
       run sync_current_position in
       run showMessage ("Redone: " +:+ state_description next_state) 2000 in
       ret true)
    (fun e =>
       run print ("Error during redo: " +:+ str e) in
       run critical "Redo Error" ("Failed to redo:" +:+ newline +:+ str e) in
       ret false).

(** [UndoRedoManager.clear]. *)
Definition clear : M World unit :=
  run modify (upd_manager (set_undo_stack [])) in
  run modify (upd_manager (set_redo_stack [])) in
  modify (upd_manager (set_current_position (-1))).


(** *** The host (orchestrator) side

    What the editor does to its own attributes between calls to the
    manager.  The host reaches the live objects only: it never touches an
    object held by a stack entry. *)

Inductive Edit : Type :=
  | EditFrame (d : DataFrame)          (* in place: self.df.iloc[i, j] = v *)
  | AssignDf (o : option DataFrame)    (* self.df = <a new frame>, or None *)
  | EditFormat (f : FormatSettings)    (* in place: self.format_settings[c] = s *)
  | AssignFormat (f : FormatSettings)  (* self.format_settings = <a new dict> *)
  | AssignPath (p : option string)     (* self.current_file_path = p *)
  | AssignModified (b : bool).         (* self.is_modified = b *)

Definition apply_edit (e : Edit) (w : World) : World :=
  match e with
  | EditFrame d =>
      match df (parent w) with
      | Some l => upd_frames (fun h => <[l := d]> h) w
      | None => w
      end
  | AssignDf None => upd_parent (set_df None) w
  | AssignDf (Some d) =>
      upd_parent (set_df (Some (length (frames w))))
        (upd_frames (fun h => h ++ [d]) w)
  | EditFormat f =>
      upd_dicts (fun h => <[format_settings (parent w) := f]> h) w
  | AssignFormat f =>
      upd_parent (set_format_settings (length (dicts w)))
        (upd_dicts (fun h => h ++ [f]) w)
  | AssignPath p => upd_parent (set_current_file_path p) w
  | AssignModified b => upd_parent (set_is_modified b) w
  end.

Definition apply_edits (es : list Edit) (w : World) : World :=
  foldl (fun w e => apply_edit e w) w es.

(** The editor right after [__init__]: no document, an empty
    [format_settings] dictionary, a fresh manager. *)
Definition init_world (outcomes : list bool) : World :=
  mkWorld (mkParent None None 0%nat false) init_manager [] [∅] outcomes [].

(** *** Observations *)

(** The DocumentState by content: table, format settings, bound path. *)
Record Document : Type := mkDocument {
  doc_table : option DataFrame;
  doc_format_settings : FormatSettings;
  doc_file_path : option string
}.

Definition document (w : World) : Document :=
  mkDocument ((fun l => frames w !!! l) <$> df (parent w))
             (dicts w !!! format_settings (parent w))
             (current_file_path (parent w)).

(** What a stack entry holds, by content. *)
Definition state_content (w : World) (st : State) : Document :=
  mkDocument (Some (frames w !!! state_df st))
             (dicts w !!! state_format_settings st)
             (state_file_path st).

(** No allocation will fail. *)
Definition all_succeed (outcomes : list bool) : Prop :=
  Forall (fun b => b = true) outcomes.

Definition memory_suffices (w : World) : Prop :=
  all_succeed (alloc_outcomes w).

(** What stops a run of [n] copies for the document, if anything:
    [None.copy()] raises [AttributeError] when no document is loaded, and a
    copy raises [MemoryError] when one of the next [n] allocations fails. *)
Definition copy_failure (n : nat) (w : World) : option exn :=
  match df (parent w) with
  | None => Some (AttributeError "copy")
  | Some _ =>
      if forallb (fun b => b) (take n (alloc_outcomes w)) then None
      else Some MemoryError
  end.

(** The undo stack after appending [x] and applying the size limit. *)
Definition limited (mx : Z) (l : list State) : list State :=
  if Z.of_nat (length l) >? mx then tail l else l.

(** Every reference points into the store, and no stack entry shares an
    object with the live document. *)
Definition live_valid (w : World) : Prop :=
  (forall l, df (parent w) = Some l -> (l < length (frames w))%nat) /\
  (format_settings (parent w) < length (dicts w))%nat.

Definition state_valid (w : World) (st : State) : Prop :=
  (state_df st < length (frames w))%nat /\
  (state_format_settings st < length (dicts w))%nat.

Definition state_separate (w : World) (st : State) : Prop :=
  df (parent w) <> Some (state_df st) /\
  format_settings (parent w) <> state_format_settings st.

Definition stacked (w : World) : list State :=
  undo_stack (manager w) ++ redo_stack (manager w).

Definition wf (w : World) : Prop :=
  max_stack_size (manager w) = 50 /\
  live_valid w /\
  Forall (state_valid w) (stacked w) /\
  Forall (state_separate w) (stacked w).

(** The spec's MAX_UNDO; [__init__] stores it in [max_stack_size]. *)
Definition MAX_UNDO : nat := 50.

(** Both stacks together never hold more than MAX_UNDO entries. *)
Definition within_bound (w : World) : Prop :=
  (length (undo_stack (manager w)) + length (redo_stack (manager w))
   <= MAX_UNDO)%nat.

(** Consecutive calls [save_state(d1); save_state(d2); ...]. *)
Definition save_states (ds : list string) (w : World) : World :=
  foldl (fun w d => state_of (save_state d w)) w ds.

(** One step of a session: a call to the manager or a host edit. *)
Inductive Action : Type :=
  | DoSaveState (description : string)
  | DoUndo
  | DoRedo
  | DoClear
  | DoEdit (e : Edit).

Definition step (a : Action) (w : World) : World :=
  match a with
  | DoSaveState d => state_of (save_state d w)
  | DoUndo => state_of (undo w)
  | DoRedo => state_of (redo w)
  | DoClear => state_of (clear w)
  | DoEdit e => apply_edit e w
  end.

Definition steps (l : list Action) (w : World) : World :=
  foldl (fun w a => step a w) w l.

(** The worlds a session can reach from a freshly started editor. *)
Definition reachable (w : World) : Prop :=
  exists outcomes l, w = steps l (init_world outcomes).

(** *** Example sessions *)

Definition table_1_2 : DataFrame := mkDataFrame ["A"; "B"] [[CInt 1; CInt 2]].
Definition table_9_2 : DataFrame := mkDataFrame ["A"; "B"] [[CInt 9; CInt 2]].

(** The editor after loading the table [[1, 2]] from "book.csv". *)
Definition loaded_world (outcomes : list bool) : World :=
  steps [DoEdit (AssignDf (Some table_1_2));
         DoEdit (AssignPath (Some "book.csv"))]
    (init_world outcomes).

(** One edit was recorded and undone, then the host dropped the document
    without calling [clear()]: nothing is loaded, the redo stack is not
    empty. *)
Definition unloaded_with_redo : World :=
  steps [DoSaveState "Edit"; DoEdit (EditFrame table_9_2); DoUndo;
         DoEdit (AssignDf None)]
    (loaded_world []).

(** One edit was recorded and undone on the loaded document; the next
    allocation will fail. *)
Definition undone_out_of_memory : World :=
  steps [DoSaveState "Edit"; DoEdit (EditFrame table_9_2); DoUndo]
    (loaded_world [true; true; true; true; true; true; false]).

(** One edit was recorded on the loaded document. *)
Definition one_edit : World :=
  steps [DoSaveState "Edit"; DoEdit (EditFrame table_9_2)] (loaded_world []).

(** One edit was recorded; the two copies of the snapshot of the
    current state will succeed, the copy made to restore will not. *)
Definition restore_out_of_memory : World :=
  steps [DoSaveState "Edit"; DoEdit (EditFrame table_9_2)]
    (loaded_world [true; true; true; true; false]).

(** One edit was recorded; the next allocation will fail. *)
Definition edited_out_of_memory : World :=
  steps [DoSaveState "Edit"; DoEdit (EditFrame table_9_2)]
    (loaded_world [true; true; false]).

(** Fifty-five descriptions, "Edit 0" to "Edit 54". *)
Definition fifty_five_edits : list string :=
  map (fun n => "Edit " +:+ pretty n) (seq 0 55).

End UndoRedo.

(** ** AutoSave_.py: the version store *)

Module AutoSave.
Import Py Table.

(** *** Strings and paths

    [startswith], [endswith] and slices are Python's [str] methods; the
    path functions follow [posixpath]. *)

Definition startswith (s p : string) : bool := String.prefix p s.

Definition endswith (s x : string) : bool :=
  (String.length x <=? String.length s)%nat &&
  String.eqb
    (String.substring (String.length s - String.length x) (String.length x) s) x.

Fixpoint contains (c : ascii) (s : string) : bool :=
  match s with
  | EmptyString => false
  | String a r => Ascii.eqb a c || contains c r
  end.

(** [s.rfind(c)]: the index of the last [c], or -1. *)
Fixpoint rfind_from (c : ascii) (s : string) (i : Z) (found : Z) : Z :=
  match s with
  | EmptyString => found
  | String a r => rfind_from c r (i + 1) (if Ascii.eqb a c then i else found)
  end.

Definition rfind (c : ascii) (s : string) : Z := rfind_from c s 0 (-1).

(** [s[i:]] and [s[:i]] for [0 <= i]. *)
Definition slice_from (i : nat) (s : string) : string :=
  String.substring i (String.length s - i) s.

Definition slice_to (i : nat) (s : string) : string := String.substring 0 i s.

(** [os.path.basename(p)]: [p[p.rfind('/') + 1:]]. *)
Definition basename (p : string) : string :=
  slice_from (Z.to_nat (rfind "/" p + 1)) p.

(** The loop of [genericpath._splitext] that skips leading dots: [n]
    characters from [filenameIndex] on are all dots. *)
Fixpoint only_dots (p : string) (filenameIndex n : nat) : bool :=
  match n with
  | O => true
  | S n' =>
      match String.get filenameIndex p with
      | Some c => Ascii.eqb c "." && only_dots p (S filenameIndex) n'
      | None => false
      end
  end.

(** [os.path.splitext(p)]. *)
Definition splitext (p : string) : string * string :=
  let sepIndex := rfind "/" p in
  let dotIndex := rfind "." p in
  if (dotIndex >? sepIndex)%Z then
    if only_dots p (Z.to_nat (sepIndex + 1)) (Z.to_nat (dotIndex - (sepIndex + 1)))
    then (p, EmptyString)
    else (slice_to (Z.to_nat dotIndex) p, slice_from (Z.to_nat dotIndex) p)
  else (p, EmptyString).

(** [os.path.join(a, b)]. *)
Definition join (a b : string) : string :=
  if startswith b "/" then b
  else if String.eqb a EmptyString || endswith a "/" then a +:+ b
  else a +:+ "/" +:+ b.

(** [x in s] on strings: [x] occurs in [s]. *)
Fixpoint occurs_in (x s : string) : bool :=
  String.prefix x s ||
  match s with
  | EmptyString => false
  | String _ r => occurs_in x r
  end.

(** [s.lower()], on the letters A to Z. *)
Definition lower_char (c : ascii) : ascii :=
  let n := Ascii.nat_of_ascii c in
  if (65 <=? n)%nat && (n <=? 90)%nat then Ascii.ascii_of_nat (n + 32) else c.

Fixpoint lower (s : string) : string :=
  match s with
  | EmptyString => EmptyString
  | String c r => String (lower_char c) (lower r)
  end.

(** *** Time *)

(** What [datetime.now()] returns (local time). *)
Record DateTime : Type := mkDateTime {
  year : Z; month : Z; day : Z;
  hour : Z; minute : Z; second : Z;
  microsecond : Z
}.

Definition valid_datetime (t : DateTime) : Prop :=
  1 <= year t <= 9999 /\ 1 <= month t <= 12 /\ 1 <= day t <= 31 /\
  0 <= hour t <= 23 /\ 0 <= minute t <= 59 /\ 0 <= second t <= 59 /\
  0 <= microsecond t <= 999999.

(** The character of the last decimal digit of [n]. *)
Definition digit (n : Z) : ascii := Ascii.ascii_of_N (Z.to_N (48 + n mod 10)).

(** Zero-padded decimal fields, as [%m], [%d], [%H], [%M], [%S] (two
    digits) and [%Y] (four digits) print them. *)
Definition pad2 (n : Z) : string :=
  String (digit (n / 10)) (String (digit n) EmptyString).

Definition pad4 (n : Z) : string :=
  String (digit (n / 1000)) (String (digit (n / 100)) (pad2 n)).

(** [t.strftime("%Y%m%d_%H%M%S")]. *)
Definition strftime (t : DateTime) : string :=
  pad4 (year t) +:+ pad2 (month t) +:+ pad2 (day t) +:+ "_" +:+
  pad2 (hour t) +:+ pad2 (minute t) +:+ pad2 (second t).

(** The same second of the same local day. *)
Definition same_second (t1 t2 : DateTime) : Prop :=
  year t1 = year t2 /\ month t1 = month t2 /\ day t1 = day t2 /\
  hour t1 = hour t2 /\ minute t1 = minute t2 /\ second t1 = second t2.

(** [a <= b] on [datetime] objects without a time zone: Python compares
    the tuples (year, month, day, hour, minute, second, microsecond). *)
Definition datetime_key (t : DateTime) : list Z :=
  [year t; month t; day t; hour t; minute t; second t; microsecond t].

Fixpoint lex_leb (a b : list Z) : bool :=
  match a, b with
  | [], _ => true
  | _ :: _, [] => false
  | x :: a', y :: b' => (x <? y)%Z || ((x =? y)%Z && lex_leb a' b')
  end.

Definition datetime_leb (a b : DateTime) : bool :=
  lex_leb (datetime_key a) (datetime_key b).

(** [datetime.fromtimestamp(t)]: the local date and time, in the time
    zone of the process, of the instant that the time stamp [t] denotes.
    The conversion belongs to the environment; the code calls it on the
    modification times of files. *)
Definition TimeZone : Type := Z -> DateTime.

(** *** Files *)

(** What a write leaves in a file: which codec call produced it. *)
Inductive Content : Type :=
  | Csv (index : bool) (d : DataFrame)                  (* df.to_csv *)
  | Excel (index : bool) (d : DataFrame)                (* df.to_excel *)
  | ExcelFormatted (index : bool) (d : DataFrame) (f : FormatSettings).

(** The metadata the file system gives to a file being written: its
    modification time and its size in bytes.  [os.path.getmtime] returns a
    Python float; the code compares these time stamps and hands them to
    [datetime.fromtimestamp], so a time stamp is kept as an integer count
    of clock ticks since the epoch (microseconds in the example
    sessions). *)
Record Stat : Type := mkStat { st_mtime : Z; st_size : Z }.

(** A file; a [locked] file can neither be overwritten nor removed. *)
Record File : Type := mkFile {
  mtime : Z;
  size : Z;
  content : Content;
  locked : bool
}.

(** The name under which [p] appears in a listing of directory [d]. *)
Definition child_name (d p : string) : option string :=
  let pre := d +:+ "/" in
  if startswith p pre then
    let name := slice_from (String.length pre) p in
    if contains "/" name || String.eqb name EmptyString then None
    else Some name
  else None.

(** *** State *)

(** The attributes of the editor window that the manager and
    [save_file] use.  The frame is only read at the instant of a write,
    so the parent holds its content. *)
Record Parent : Type := mkParent {
  df : option DataFrame;
  is_modified : bool;
  current_file_path : option string;
  include_index_cb : bool;               (* include_index_cb.isChecked() *)
  format_settings : FormatSettings
}.

(** A value kept by [QSettings]. *)
Inductive QVariant : Type :=
  | QBool (b : bool)
  | QInt (z : Z).

(** [AutoSaveManager]; [timer] is the running period in milliseconds, or
    [None] when the timer is stopped. *)
Record Manager : Type := mkManager {
  enabled : bool;
  interval : Z;
  keep_versions : Z;
  version_dir : string;
  timer : option Z
}.

(** The whole state: the file system maps a path to its file;
    [dialogs] are the answers the user will give to the coming "save as"
    dialogs (the empty string: cancelled); [openpyxl_available] is the
    module constant [OPENPYXL_AVAILABLE] of [Editor_.py]. *)
Record World : Type := mkWorld {
  parent : Parent;
  manager : Manager;
  fs : gmap string File;
  settings : gmap string QVariant;
  dialogs : list string;
  openpyxl_available : bool;
  ui : list UiEvent
}.

Definition upd_parent (f : Parent -> Parent) (w : World) : World :=
  mkWorld (f (parent w)) (manager w) (fs w) (settings w) (dialogs w)
    (openpyxl_available w) (ui w).
Definition upd_manager (f : Manager -> Manager) (w : World) : World :=
  mkWorld (parent w) (f (manager w)) (fs w) (settings w) (dialogs w)
    (openpyxl_available w) (ui w).
Definition upd_fs (f : gmap string File -> gmap string File) (w : World) : World :=
  mkWorld (parent w) (manager w) (f (fs w)) (settings w) (dialogs w)
    (openpyxl_available w) (ui w).
Definition upd_settings (f : gmap string QVariant -> gmap string QVariant)
    (w : World) : World :=
  mkWorld (parent w) (manager w) (fs w) (f (settings w)) (dialogs w)
    (openpyxl_available w) (ui w).
Definition set_dialogs (l : list string) (w : World) : World :=
  mkWorld (parent w) (manager w) (fs w) (settings w) l
    (openpyxl_available w) (ui w).
Definition emit (e : UiEvent) (w : World) : World :=
  mkWorld (parent w) (manager w) (fs w) (settings w) (dialogs w)
    (openpyxl_available w) (ui w ++ [e]).

Definition set_is_modified (b : bool) (p : Parent) : Parent :=
  mkParent (df p) b (current_file_path p) (include_index_cb p)
    (format_settings p).
Definition set_current_file_path (o : option string) (p : Parent) : Parent :=
  mkParent (df p) (is_modified p) o (include_index_cb p) (format_settings p).

(** Truth value of [self.parent.current_file_path]: [None] and the empty
    string are false. *)
Definition truthy (o : option string) : bool :=
  match o with
  | Some s => negb (String.eqb s EmptyString)
  | None => false
  end.

(** *** The operating system *)

(** [os.listdir(d)], in the order in which the map enumerates its paths
    (the order of a directory listing is unspecified). *)
Definition listdir (d : string) : M World (list string) :=
  gets (fun w => omap (fun e => child_name d e.1) (map_to_list (fs w))).

(** [os.path.getmtime(p)] and [os.path.getsize(p)]. *)
Definition getmtime (p : string) : M World Z :=
  let* o := gets (fun w => fs w !! p) in
  match o with
  | Some f => ret (mtime f)
  | None => raise FileNotFoundError
  end.

Definition getsize (p : string) : M World Z :=
  let* o := gets (fun w => fs w !! p) in
  match o with
  | Some f => ret (size f)
  | None => raise FileNotFoundError
  end.

(** [os.remove(p)]. *)
Definition os_remove (p : string) : M World unit :=
  let* o := gets (fun w => fs w !! p) in
  match o with
  | None => raise FileNotFoundError
  | Some f =>
      if locked f then raise PermissionError
      else modify (upd_fs (delete p))
  end.

(** Create or overwrite the file at [p]. *)
Definition write_file (p : string) (c : Content) (st : Stat) : M World unit :=
  if String.eqb p EmptyString then raise FileNotFoundError
  else
    let* o := gets (fun w => fs w !! p) in
    match o with
    | Some f =>
        if locked f then raise PermissionError
        else modify (upd_fs (<[p := mkFile (st_mtime st) (st_size st) c false]>))
    | None =>
        modify (upd_fs (<[p := mkFile (st_mtime st) (st_size st) c false]>))
    end.

(** [self.parent.df.to_csv(path, index=i)]: pandas writes CSV to any
    path. *)
Definition df_to_csv (path : string) (index : bool) (st : Stat) : M World unit :=
  let* o := gets (fun w => df (parent w)) in
  match o with
  | None => raise (AttributeError "to_csv")
  | Some d => write_file path (Csv index d) st
  end.

(** *** pandas and openpyxl: which paths they take

    [DataFrame.to_excel] builds an [ExcelWriter], which looks at the
    extension of the path before it opens the file and raises
    [ValueError] when it does not write that kind of file.  pandas and
    openpyxl are the packages the editor asks for, so openpyxl is the
    engine that pandas finds. *)

(** [os.path.splitext(path)[-1]]. *)
Definition extension (path : string) : string := (splitext path).2.

(** With no [engine] argument, [ExcelWriter.__new__] reads the option
    [io.excel.<ext>.writer] for [ext = os.path.splitext(path)[-1][1:]] and
    raises [ValueError("No engine for filetype: '<ext>'")] when there is
    none; openpyxl is the writer for "xlsx" and "xlsm". *)
Definition default_writer (path : string) : bool :=
  let ext := slice_from 1 (extension path) in
  bool_decide (ext ∈ ["xlsx"; "xlsm"]).

(** With [engine='openpyxl'], [ExcelWriter.check_extension] strips the
    leading dot of the extension and raises [ValueError] unless
    [any(ext in extension for extension in (".xlsx", ".xlsm"))], where
    [in] is the substring test. *)
Definition openpyxl_writer (path : string) : bool :=
  let ext := extension path in
  let ext := if startswith ext "." then slice_from 1 ext else ext in
  occurs_in ext ".xlsx" || occurs_in ext ".xlsm".

(** Whether [to_excel(path, engine=engine)] gets a writer for [path]. *)
Definition excel_writer (engine : option string) (path : string) : bool :=
  match engine with
  | None => default_writer path
  | Some name => String.eqb name "openpyxl" && openpyxl_writer path
  end.

(** The text of the [ValueError]; some versions of pandas print the
    engine of the second message differently. *)
Definition no_writer (engine : option string) (path : string) : string :=
  let ext := slice_from 1 (extension path) in
  match engine with
  | None => "No engine for filetype: '" +:+ ext +:+ "'"
  | Some name =>
      if String.eqb name "openpyxl"
      then "Invalid extension for engine 'openpyxl': '" +:+ ext +:+ "'"
      else "No Excel writer '" +:+ name +:+ "'"
  end.

(** [self.parent.df.to_excel(path, index=i)], with [engine=engine] when
    one is given. *)
Definition df_to_excel (path : string) (index : bool) (engine : option string)
    (st : Stat) : M World unit :=
  let* o := gets (fun w => df (parent w)) in
  match o with
  | None => raise (AttributeError "to_excel")
  | Some d =>
      if excel_writer engine path then write_file path (Excel index d) st
      else raise (ValueError (no_writer engine path))
  end.

(** [openpyxl.load_workbook(path)] refuses a path unless
    [os.path.splitext(path)[-1].lower()] is one of its supported formats
    ([InvalidFileException], whose text is abridged here); then it opens
    the file. *)
Definition workbook_format (path : string) : bool :=
  bool_decide (lower (extension path) ∈ [".xlsx"; ".xlsm"; ".xltx"; ".xltm"]).

Definition load_workbook (path : string) : M World unit :=
  if workbook_format path then
    let* o := gets (fun w => fs w !! path) in
    match o with
    | Some _ => ret tt
    | None => raise FileNotFoundError
    end
  else raise (InvalidFileException
                ("openpyxl does not support " +:+ lower (extension path)
                 +:+ " file format")).

(** *** User interface effects *)

Definition showMessage (msg : string) (ms : Z) : M World unit :=
  modify (emit (StatusMessage msg ms)).
Definition setWindowTitle (t : string) : M World unit :=
  modify (emit (WindowTitle t)).
Definition critical (title text : string) : M World unit :=
  modify (emit (CriticalBox title text)).
Definition information (title text : string) : M World unit :=
  modify (emit (InformationBox title text)).
Definition print (text : string) : M World unit := modify (emit (Printed text)).

(** *** Editor_.py: saving the bound file *)

(** [bool(self.format_settings) and OPENPYXL_AVAILABLE]. *)
Definition wants_formatting (w : World) : bool :=
  negb (bool_decide (format_settings (parent w) = ∅)) && openpyxl_available w.

(** The branch of [save_file] and [save_as_file] that writes the frame
    to [path]; with format settings the workbook is written, loaded
    again, formatted and saved. *)
Definition write_document (path : string) (include_index : bool) (st : Stat)
    : M World unit :=
  if endswith path ".csv" then df_to_csv path include_index st
  else
    let* formatted := gets wants_formatting in
    if formatted then
      run df_to_excel path include_index (Some "openpyxl") st in
      run load_workbook path in
      let* p := gets parent in
      match df p with
      | None => raise (AttributeError "columns")
      | Some d =>
          write_file path (ExcelFormatted include_index d (format_settings p)) st
      end
    else df_to_excel path include_index (Some "openpyxl") st.

(** [QFileDialog.getSaveFileName]: the next answer of the user. *)
Definition getSaveFileName : M World string :=
  let* l := gets dialogs in
  match l with
  | [] => ret EmptyString
  | a :: rest => run modify (set_dialogs rest) in ret a
  end.

(** [ExcelEditor.save_as_file]. *)
Definition save_as_file (st : Stat) : M World bool :=
  try_except
    (let* o := gets (fun w => df (parent w)) in
     match o with
     | None => ret false
     | Some _ =>
         let* answer := getSaveFileName in
         if negb (String.eqb answer EmptyString) then
           let* include_index := gets (fun w => include_index_cb (parent w)) in
           run showMessage "Saving file..." 0 in
           let file_path :=
             if endswith answer ".csv" then answer
             else if endswith answer ".xlsx" then answer
             else answer +:+ ".xlsx" in
           run write_document file_path include_index st in
           run modify (upd_parent (set_current_file_path (Some file_path))) in
           run modify (upd_parent (set_is_modified false)) in
           let file_name := basename file_path in
           run setWindowTitle ("Excel Editor Pro - " +:+ file_name) in
           run showMessage ("File saved: " +:+ file_name) 0 in
           run modify (emit (RecentFile file_path)) in
           run information "Success" "File saved successfully!" in
           ret true
         else ret false
     end)
    (fun e =>
       run critical "Error" ("Error saving file: " +:+ str e) in
       ret false).

(** [ExcelEditor.save_file]. *)
Definition save_file (st : Stat) : M World bool :=
  try_except
    (let* p := gets parent in
     match df p with
     | None => ret false
     | Some _ =>
         match current_file_path p with
         | None => save_as_file st
         | Some path =>
             let include_index := include_index_cb p in
             run showMessage "Saving file..." 0 in
             run write_document path include_index st in
             run modify (upd_parent (set_is_modified false)) in
             let file_name := basename path in
             run setWindowTitle ("Excel Editor Pro- " +:+ file_name) in
             run showMessage ("File saved: " +:+ file_name) 0 in
             ret true
         end
     end)
    (fun e =>
       run critical "Error" ("Error saving file: " +:+ str e) in
       ret false).

(** *** The manager's methods *)

Definition setting_bool (k : string) (default : bool)
    (s : gmap string QVariant) : bool :=
  match s !! k with
  | Some (QBool b) => b
  | _ => default
  end.

Definition setting_int (k : string) (default : Z)
    (s : gmap string QVariant) : Z :=
  match s !! k with
  | Some (QInt z) => z
  | _ => default
  end.

(** [AutoSaveManager.__init__]; [home] is [os.path.expanduser("~")]. *)
Definition init_manager (home : string) (s : gmap string QVariant) : Manager :=
  let en := setting_bool "auto_save/enabled" true s in
  let iv := setting_int "auto_save/interval" 5 s in
  mkManager en iv (setting_int "auto_save/keep_versions" 10 s)
    (join home ".excel_editor_versions")
    (if en then Some (iv * 60 * 1000) else None).

(** Comparison of the tuples [(mtime, full_path)]: Python orders tuples
    lexicographically and strings by code point. *)
Definition tuple_leb (x y : Z * string) : bool :=
  (x.1 <? y.1)%Z || ((x.1 =? y.1)%Z && String.leb x.2 y.2).

(** A stable sort: [list.sort()] keeps equal elements in their order. *)
Fixpoint insert_sorted {A} (leb : A -> A -> bool) (x : A) (l : list A) : list A :=
  match l with
  | [] => [x]
  | y :: t => if leb x y then x :: l else y :: insert_sorted leb x t
  end.

Definition sort {A} (leb : A -> A -> bool) (l : list A) : list A :=
  foldr (insert_sorted leb) [] l.

(** The [for f in os.listdir(...)] loop of [cleanup_old_versions]: the
    list [versions] it builds from the listed names. *)
Fixpoint collect_versions (dir pre : string) (names : list string)
    : M World (list (Z * string)) :=
  match names with
  | [] => ret []
  | f :: rest =>
      if startswith f pre then
        let full_path := join dir f in
        let* m := getmtime full_path in
        let* versions := collect_versions dir pre rest in
        ret ((m, full_path) :: versions)
      else collect_versions dir pre rest
  end.

(** The [while len(versions) > self.keep_versions] loop. *)
Fixpoint remove_oldest (keep : Z) (versions : list (Z * string)) : M World unit :=
  if (Z.of_nat (length versions) >? keep)%Z then
    match versions with
    | [] => raise IndexError                      (* versions.pop(0) *)
    | (_, old_file) :: rest =>
        run try_pass (os_remove old_file) in
        remove_oldest keep rest
    end
  else ret tt.

(** [AutoSaveManager.cleanup_old_versions]. *)
Definition cleanup_old_versions (base_name : string) : M World unit :=
  try_except
    (let* dir := gets (fun w => version_dir (manager w)) in
     let* names := listdir dir in
     let* versions := collect_versions dir (base_name +:+ "_v") names in
     let versions := sort tuple_leb versions in
     let* keep := gets (fun w => keep_versions (manager w)) in
     remove_oldest keep versions)
    (fun e => print ("Error cleaning old versions: " +:+ str e)).

(** The name [save_version] gives to the version written at [now]. *)
Definition version_filename (current_file_path : string) (now : DateTime) : string :=
  let timestamp := strftime now in
  let base_name := basename current_file_path in
  let name_without_ext := (splitext base_name).1 in
  let ext := (splitext base_name).2 in
  name_without_ext +:+ "_v" +:+ timestamp +:+ ext.

(** [AutoSaveManager.save_version], called at local time [now]. *)
Definition save_version (now : DateTime) (st : Stat) : M World unit :=
  try_except
    (let* p := gets parent in
     match current_file_path p with
     | Some path =>
         if truthy (Some path) then
           let base_name := basename path in
           let name_without_ext := (splitext base_name).1 in
           let version_filename := version_filename path now in
           let* dir := gets (fun w => version_dir (manager w)) in
           let version_path := join dir version_filename in
           let include_index := include_index_cb p in
           run (if endswith path ".csv"
                then df_to_csv version_path include_index st
                else df_to_excel version_path include_index None st) in
           cleanup_old_versions name_without_ext
         else ret tt
     | None => ret tt
     end)
    (fun e => print ("Error saving version: " +:+ str e)).

(** [AutoSaveManager.perform_auto_save], the timer's slot. *)
Definition perform_auto_save (now : DateTime) (st_version st_file : Stat)
    : M World unit :=
  try_except
    (let* p := gets parent in
     if bool_decide (df p <> None) && is_modified p
        && truthy (current_file_path p)
     then
       run save_version now st_version in
       let* _saved := save_file st_file in
       showMessage "Auto-saved" 2000
     else ret tt)
    (fun e => print ("Auto-save error: " +:+ str e)).

(** One entry of the list returned by [get_versions]; ['modified'] is
    the [datetime] that [datetime.fromtimestamp] makes of the modification
    time. *)
Record VersionRecord : Type := mkVersionRecord {
  filename : string;
  path : string;
  modified : DateTime;
  vsize : Z
}.

(** The [for f in os.listdir(...)] loop of [get_versions]. *)
Fixpoint collect_records (fromtimestamp : TimeZone) (dir pre : string)
    (names : list string) : M World (list VersionRecord) :=
  match names with
  | [] => ret []
  | f :: rest =>
      if startswith f pre then
        let full_path := join dir f in
        let* m := getmtime full_path in
        let* sz := getsize full_path in
        let* versions := collect_records fromtimestamp dir pre rest in
        ret (mkVersionRecord f full_path (fromtimestamp m) sz :: versions)
      else collect_records fromtimestamp dir pre rest
  end.

(** The order of [sort(key=lambda x: x['modified'], reverse=True)]: a
    record stays before another one unless its ['modified'] is smaller;
    the sort is stable. *)
Definition newer_first (a b : VersionRecord) : bool :=
  datetime_leb (modified b) (modified a).

(** [AutoSaveManager.get_versions], in a process whose time zone is
    [fromtimestamp]: the versions ordered by local date and time of
    modification, newest first. *)
Definition get_versions (fromtimestamp : TimeZone) (file_path : string)
    : M World (list VersionRecord) :=
  try_except
    (let base_name := (splitext (basename file_path)).1 in
     let* dir := gets (fun w => version_dir (manager w)) in
     let* names := listdir dir in
     let* versions :=
       collect_records fromtimestamp dir (base_name +:+ "_v") names in
     ret (sort newer_first versions))
    (fun e =>
       run print ("Error getting versions: " +:+ str e) in
       ret []).

(** [AutoSaveManager.update_settings]. *)
Definition update_settings (en : bool) (iv keep : Z) : M World unit :=
  run modify (upd_manager (fun m =>
        mkManager en iv keep (version_dir m) (timer m))) in
  run modify (upd_settings (<["auto_save/enabled" := QBool en]>)) in
  run modify (upd_settings (<["auto_save/interval" := QInt iv]>)) in
  run modify (upd_settings (<["auto_save/keep_versions" := QInt keep]>)) in
  modify (upd_manager (fun m =>
    mkManager (enabled m) (interval m) (keep_versions m) (version_dir m)
      (if en then Some (iv * 60 * 1000) else None))).

(** *** Observations *)

(** A directory name that [os.path.join] extends with a separator: not
    empty and not ending in one. *)
Definition dir_ok (d : string) : Prop :=
  d <> EmptyString /\ endswith d "/" = false.

(** Whether path [p] is listed in [dir] under a name that starts with
    [pre]. *)
Definition version_name (dir pre p : string) : option string :=
  match child_name dir p with
  | Some f => if startswith f pre then Some f else None
  | None => None
  end.

(** The version files of the directory, in listing order: the name,
    then the path and the file. *)
Definition listed (dir pre : string) (m : gmap string File)
    : list (string * (string * File)) :=
  omap (fun e =>
          match version_name dir pre e.1 with
          | Some f => Some (f, e)
          | None => None
          end)
       (map_to_list m).

(** The dictionary that [get_versions] builds for a listed file. *)
Definition record_for (fromtimestamp : TimeZone) (v : string * (string * File))
    : VersionRecord :=
  mkVersionRecord v.1 v.2.1 (fromtimestamp (mtime v.2.2)) (size v.2.2).

(** The tuple [(mtime, full_path)] that [cleanup_old_versions] builds. *)
Definition tuple_for (v : string * (string * File)) : Z * string :=
  (mtime v.2.2, v.2.1).

(** The list [get_versions] builds before sorting it, and the list that
    [cleanup_old_versions] sorts. *)
Definition records_in (fromtimestamp : TimeZone) (dir pre : string)
    (m : gmap string File) : list VersionRecord :=
  map (record_for fromtimestamp) (listed dir pre m).

Definition versions_in (dir pre : string) (m : gmap string File)
    : list (Z * string) :=
  map tuple_for (listed dir pre m).

(** The prefix that selects the versions of the file bound at [p]. *)
Definition version_prefix (p : string) : string :=
  (splitext (basename p)).1 +:+ "_v".

(** No version file with that prefix is locked: every deletion that
    [cleanup_old_versions] attempts succeeds. *)
Definition deletions_succeed (dir pre : string) (m : gmap string File) : Prop :=
  forall p f file,
    m !! p = Some file -> version_name dir pre p = Some f ->
    locked file = false.

(** The file [save_version] writes for a document [d] bound at [p]. *)
Definition version_file (p : string) (include_index : bool) (d : DataFrame)
    (st : Stat) : File :=
  mkFile (st_mtime st) (st_size st)
    (if endswith p ".csv" then Csv include_index d else Excel include_index d)
    false.

(** The order of the tuples, as a relation. *)
Definition tuple_le (x y : Z * string) : Prop := tuple_leb x y = true.

(** Removing the files at [ps], one after the other. *)
Definition remove_paths (ps : list string) (m : gmap string File) : gmap string File :=
  foldl (fun m p => delete p m) m ps.

(** The paths that [cleanup_old_versions] removes from [m], and what it
    leaves: the [keep] newest tuples of the sorted list. *)
Definition removed_by_cleanup (dir pre : string) (keep : Z) (m : gmap string File)
    : list (Z * string) :=
  let S := sort tuple_leb (versions_in dir pre m) in
  take (length S - Z.to_nat keep) S.

Definition kept_by_cleanup (dir pre : string) (keep : Z) (m : gmap string File)
    : list (Z * string) :=
  let S := sort tuple_leb (versions_in dir pre m) in
  drop (length S - Z.to_nat keep) S.

Definition after_cleanup (dir pre : string) (keep : Z) (m : gmap string File)
    : gmap string File :=
  remove_paths (map snd (removed_by_cleanup dir pre keep m)) m.

(** A save event: the local time read by [datetime.now()] and the
    metadata the file system gives to the version file written. *)
Definition SaveEvent : Type := DateTime * Stat.

(** Consecutive calls of [save_version], one per event. *)
Definition save_versions (evs : list SaveEvent) (w : World) : World :=
  foldl (fun w e => state_of (save_version e.1 e.2 w)) w evs.

(** The record [get_versions] shows for the version written at an
    event. *)
Definition record_of (fromtimestamp : TimeZone) (dir p : string)
    (e : SaveEvent) : VersionRecord :=
  mkVersionRecord (version_filename p e.1)
    (join dir (version_filename p e.1)) (fromtimestamp (st_mtime e.2))
    (st_size e.2).

(** The second of the local day in which an event falls, as the version
    file name shows it. *)
Definition stamp (e : SaveEvent) : string := strftime e.1.

(** The modification times grow from one event to the next. *)
Definition earlier (a b : SaveEvent) : Prop := st_mtime a.2 < st_mtime b.2.

(** So do their local dates and times. *)
Definition earlier_local (fromtimestamp : TimeZone) (a b : SaveEvent) : Prop :=
  datetime_leb (fromtimestamp (st_mtime b.2)) (fromtimestamp (st_mtime a.2))
  = false.

(** [save_version] on a document bound at [p] gets its file at [vp]
    written: as CSV, or by the Excel writer that pandas finds for [vp]. *)
Definition version_writer (p vp : string) : bool :=
  endswith p ".csv" || excel_writer None vp.

(** The event [e] writes its version of [p] into [dir]. *)
Definition writes_version (dir p : string) (e : SaveEvent) : Prop :=
  version_writer p (join dir (version_filename p e.1)) = true.

(** Every version of that prefix in [m] is older than the file written
    at the event [e]. *)
Definition older_versions (dir pre : string) (m : gmap string File)
    (e : SaveEvent) : Prop :=
  forall x, x ∈ versions_in dir pre m -> x.1 < st_mtime e.2.

(** After the events [done] of a run started in [w0], on a document [d]
    bound at [p]: the versions of the last [keep_versions] events are on
    the disk; any other version file was there at the start and is
    unchanged; after the first call at most [keep_versions] version files
    are left; nothing else changed. *)
Definition run_inv (w0 : World) (p : string) (d : DataFrame)
    (done : list SaveEvent) (w : World) : Prop :=
  let dir := version_dir (manager w0) in
  let pre := version_prefix p in
  let keep := Z.to_nat (keep_versions (manager w0)) in
  let path_of (e : SaveEvent) := join dir (version_filename p e.1) in
  let file_of (e : SaveEvent) :=
    version_file p (include_index_cb (parent w0)) d e.2 in
  parent w = parent w0 /\ manager w = manager w0 /\
  (forall q, version_name dir pre q = None -> fs w !! q = fs w0 !! q) /\
  (forall e, e ∈ keep_last keep done -> fs w !! path_of e = Some (file_of e)) /\
  (forall q file,
     version_name dir pre q <> None -> fs w !! q = Some file ->
     (exists e, e ∈ keep_last keep done /\ q = path_of e /\ file = file_of e) \/
     fs w0 !! q = Some file) /\
  (done <> [] -> (length (versions_in dir pre (fs w)) <= keep)%nat).

(** *** Example sessions *)

Definition book : DataFrame := mkDataFrame ["A"; "B"] [[CInt 1; CInt 2]].

(** An editor with unsaved changes to "/home/u/book.csv", a manager
    created with [keep_versions = keep], and an empty disk. *)
Definition editing (keep : Z) : World :=
  mkWorld (mkParent (Some book) true (Some "/home/u/book.csv") false ∅)
    (init_manager "/home/u" {["auto_save/keep_versions" := QInt keep]})
    ∅ {["auto_save/keep_versions" := QInt keep]} [] true [].

(** Universal time as the time zone, for time stamps in microseconds
    since the epoch: the civil date of a day number, then the time of
    day. *)
Definition civil_from_days (z : Z) : Z * Z * Z :=
  let z := z + 719468 in
  let era := z / 146097 in
  let doe := z - era * 146097 in
  let yoe := (doe - doe / 1460 + doe / 36524 - doe / 146096) / 365 in
  let doy := doe - (365 * yoe + yoe / 4 - yoe / 100) in
  let mp := (5 * doy + 2) / 153 in
  let d := doy - (153 * mp + 2) / 5 + 1 in
  let m := if (mp <? 10)%Z then mp + 3 else mp - 9 in
  (if (m <=? 2)%Z then yoe + era * 400 + 1 else yoe + era * 400, m, d).

Definition utc : TimeZone :=
  fun t =>
    let s := t / 1000000 in
    let '(y, m, d) := civil_from_days (s / 86400) in
    mkDateTime y m d (s mod 86400 / 3600) (s mod 3600 / 60) (s mod 60)
      (t mod 1000000).

(** A time zone one hour ahead of universal time until the instant [t0]
    (in seconds since the epoch), and on universal time from then on: the
    clocks are set back by one hour at [t0]. *)
Definition set_back_at (t0 : Z) : TimeZone :=
  fun t => if (t <? t0 * 1000000)%Z then utc (t + 3600 * 1000000) else utc t.

(** A save event on 7 March 2024 at 09:05:[s].[us], universal time; the
    file written gets that instant as its modification time. *)
Definition at_second (s us : Z) : SaveEvent :=
  (mkDateTime 2024 3 7 9 5 s us,
   mkStat ((1709802300 + s) * 1000000 + us) 100).

(** Five saves, one second apart. *)
Definition five_saves : list SaveEvent :=
  [at_second 0 0; at_second 1 0; at_second 2 0; at_second 3 0; at_second 4 0].

(** Three saves within one second. *)
Definition burst : list SaveEvent :=
  [at_second 0 100000; at_second 0 500000; at_second 0 900000].

(** The editor of [editing keep] with its document bound to a text
    file, as after opening "/home/u/notes.txt" through the filter "All
    files". *)
Definition editing_notes (keep : Z) : World :=
  upd_parent (set_current_file_path (Some "/home/u/notes.txt")) (editing keep).

(** That editor with [keep_versions = 1], on a disk that holds two
    versions written earlier for "notes.csv"; their names start with
    "notes_v" as the versions of "notes.txt" would. *)
Definition notes_with_versions : World :=
  upd_fs (fun _ =>
            <["/home/u/.excel_editor_versions/notes_v20240101_120000.csv"
              := mkFile 1704110400000000 100 (Csv false book) false]>
              (<["/home/u/.excel_editor_versions/notes_v20240102_120000.csv"
                 := mkFile 1704196800000000 100 (Csv false book) false]> ∅))
    (editing_notes 1).

(** The editor of [editing 3] on a disk that holds one older version of
    "book", written at noon of 1 January 2024. *)
Definition with_old_version : World :=
  upd_fs (<["/home/u/.excel_editor_versions/book_v20240101_120000.csv"
            := mkFile 1704110400000000 100 (Csv false book) false]>)
    (editing 3).

End AutoSave.

(** ** UndoRedo_.py: the history dialog *)

Module History.
Import Py Table UndoRedo.

(** One row of a [QListWidget]: its text and whether its font is bold. *)
Record Item : Type := mkItem { item_text : string; item_bold : bool }.

(** The widgets of [UndoRedoHistoryDialog] that its methods write. *)
Record Dialog : Type := mkDialog {
  undo_list : list Item;
  redo_list : list Item;
  undo_count_label : string;
  redo_count_label : string
}.

(** The dialog with the editor it was opened on; [replies] are the
    answers the user will give to the coming question boxes ([true]:
    Yes), and a box left without an answer counts as No. *)
Record Session : Type := mkSession {
  world : World;
  dialog : Dialog;
  replies : list bool
}.

Definition upd_dialog (f : Dialog -> Dialog) (s : Session) : Session :=
  mkSession (world s) (f (dialog s)) (replies s).
Definition set_replies (l : list bool) (s : Session) : Session :=
  mkSession (world s) (dialog s) l.

Definition set_undo_list (l : list Item) (d : Dialog) : Dialog :=
  mkDialog l (redo_list d) (undo_count_label d) (redo_count_label d).
Definition set_redo_list (l : list Item) (d : Dialog) : Dialog :=
  mkDialog (undo_list d) l (undo_count_label d) (redo_count_label d).
Definition set_undo_count_label (t : string) (d : Dialog) : Dialog :=
  mkDialog (undo_list d) (redo_list d) t (redo_count_label d).
Definition set_redo_count_label (t : string) (d : Dialog) : Dialog :=
  mkDialog (undo_list d) (redo_list d) (undo_count_label d) t.

(** A call into the manager from the dialog. *)
Definition on_world {A} (m : M World A) : M Session A :=
  fun s =>
    match m (world s) with
    | Normal a w => Normal a (mkSession w (dialog s) (replies s))
    | Raised e w => Raised e (mkSession w (dialog s) (replies s))
    end.

(** [QMessageBox.question(...) == QMessageBox.Yes]. *)
Definition question : M Session bool :=
  let* l := gets replies in
  match l with
  | [] => ret false
  | a :: rest => run modify (set_replies rest) in ret a
  end.

(** The text [f"{i+1}. {state['description']}"] of row [i]. *)
Definition row_text (i : nat) (st : State) : string :=
  pretty (i + 1)%nat +:+ ". " +:+ state_description st.

(** The loop [for i, state in enumerate(reversed(stack))] of
    [load_history], adding one item per entry; in the undo list the
    first one is set in bold. *)
Fixpoint add_rows (bold_first : bool) (i : nat) (entries : list State)
    (rows : list Item) : list Item :=
  match entries with
  | [] => rows
  | st :: rest =>
      add_rows bold_first (S i) rest
        (rows ++ [mkItem (row_text i st) (bold_first && bool_decide (i = 0%nat))])
  end.

(** [UndoRedoHistoryDialog.load_history]. *)
Definition load_history : M Session unit :=
  run modify (upd_dialog (set_undo_list [])) in
  run modify (upd_dialog (set_redo_list [])) in
  let* us := gets (fun s => undo_stack (manager (world s))) in
  run modify (upd_dialog (fun d =>
        set_undo_list (add_rows true 0 (rev us) (undo_list d)) d)) in
  let* rs := gets (fun s => redo_stack (manager (world s))) in
  run modify (upd_dialog (fun d =>
        set_redo_list (add_rows false 0 (rev rs) (redo_list d)) d)) in
  let* undo_count := on_world get_undo_count in
  let* redo_count := on_world get_redo_count in
  run modify (upd_dialog (set_undo_count_label
        ("Undo Available: " +:+ pretty undo_count))) in
  modify (upd_dialog (set_redo_count_label
        ("Redo Available: " +:+ pretty redo_count))).

(** [perform_undo] and [perform_redo]. *)
Definition perform_undo : M Session unit :=
  let* ok := on_world undo in
  if ok then load_history else ret tt.

Definition perform_redo : M Session unit :=
  let* ok := on_world redo in
  if ok then load_history else ret tt.

(** [for _ in range(n): if not self.undo_redo_manager.undo(): break]. *)
Fixpoint undo_repeat (n : nat) : M World unit :=
  match n with
  | O => ret tt
  | S n' =>
      let* ok := undo in
      if negb ok then ret tt else undo_repeat n'
  end.

Fixpoint redo_repeat (n : nat) : M World unit :=
  match n with
  | O => ret tt
  | S n' =>
      let* ok := redo in
      if negb ok then ret tt else redo_repeat n'
  end.

(** [undo_to_item] and [redo_to_item]; [index] is the row of the item
    that was double-clicked. *)
Definition undo_to_item (index : nat) : M Session unit :=
  run on_world (undo_repeat index) in
  load_history.

Definition redo_to_item (index : nat) : M Session unit :=
  run on_world (redo_repeat (index + 1)) in
  load_history.

(** [clear_history]. *)
Definition clear_history : M Session unit :=
  let* yes := question in
  if yes then
    run on_world clear in
    run load_history in
    on_world (modify (emit (InformationBox "Success" "History cleared!")))
  else ret tt.

(** The entry that row [i] of a list of the dialog stands for: rows run
    from the top of the stack down. *)
Definition entry_of_row (stack : list State) (i : nat) : option State :=
  if decide (i < length stack)%nat then stack !! (length stack - 1 - i)%nat
  else None.

(** Every object of [w] is still there in [w'], unchanged. *)
Definition extends (w w' : World) : Prop :=
  frames w `prefix_of` frames w' /\ dicts w `prefix_of` dicts w'.

(** The two stacks hold the same document contents, entry by entry. *)
Definition same_contents (w : World) (l : list State) (w' : World)
    (l' : list State) : Prop :=
  Forall2 (fun a b => state_content w a = state_content w' b) l l'.

(** *** Example sessions *)

(** Three recorded edits on the loaded table: the rows of the dialog
    read "1. Sort Column", "2. Fill Down", "3. Paste". *)
Definition three_edits : World :=
  steps [DoEdit (AssignDf (Some table_1_2));
         DoEdit (AssignPath (Some "book.csv"));
         DoSaveState "Paste"; DoEdit (EditFrame table_9_2);
         DoSaveState "Fill Down"; DoEdit (EditFrame table_1_2);
         DoSaveState "Sort Column"; DoEdit (EditFrame table_9_2)]
    (init_world []).

Definition empty_dialog : Dialog := mkDialog [] [] EmptyString EmptyString.

(** The dialog right after it was opened on [three_edits]. *)
Definition history_session : Session :=
  state_of (load_history (mkSession three_edits empty_dialog [])).

End History.

(** ** AutoSave_.py and Editor_.py: observations on the disk *)

Module Versions.
Import Py Table AutoSave.

(** *** Observations on [cleanup_old_versions] and the save functions *)

(** Removing, one after the other, those files at [ps] that exist and
    are not locked: what the loop of [cleanup_old_versions] achieves when
    some of its [os.remove] calls fail. *)
Definition remove_unlocked (ps : list string) (m : gmap string File)
    : gmap string File :=
  foldl (fun m p =>
           match m !! p with
           | Some f => if locked f then m else delete p m
           | None => m
           end) m ps.

(** Whether [cleanup_old_versions] removes the file at [p]: it is one of
    the oldest versions beyond the limit, and it can be removed. *)
Definition cleaned (dir pre : string) (keep : Z) (m : gmap string File)
    (p : string) (file : File) : bool :=
  bool_decide (p ∈ map snd (removed_by_cleanup dir pre keep m))
  && negb (locked file).

(** The content [save_file] and [save_as_file] leave at [path] for the
    document [d] of the parent. *)
Definition saved_content (w : World) (path : string) (d : DataFrame) : Content :=
  let p := parent w in
  if endswith path ".csv" then Csv (include_index_cb p) d
  else if wants_formatting w
       then ExcelFormatted (include_index_cb p) d (format_settings p)
       else Excel (include_index_cb p) d.

Definition saved_file (w : World) (path : string) (d : DataFrame) (st : Stat)
    : File :=
  mkFile (st_mtime st) (st_size st) (saved_content w path d) false.

(** The path [save_as_file] binds for the answer [a] of the dialog. *)
Definition save_as_path (a : string) : string :=
  if endswith a ".csv" then a
  else if endswith a ".xlsx" then a
  else a +:+ ".xlsx".

(** The file at [p] can be written: absent, or present and not locked. *)
Definition writable (m : gmap string File) (p : string) : Prop :=
  forall f, m !! p = Some f -> locked f = false.

(** [save_file] and [save_as_file] get a writer for [path]: the CSV
    writer, or the openpyxl writer of pandas. *)
Definition written_by_save (path : string) : bool :=
  endswith path ".csv" || excel_writer (Some "openpyxl") path.

(** ... and, when the workbook is to be formatted, openpyxl loads it
    again. *)
Definition savable (w : World) (path : string) : bool :=
  endswith path ".csv" ||
  (excel_writer (Some "openpyxl") path &&
   (negb (wants_formatting w) || workbook_format path)).

(** The workbook that the first write leaves at the path when the
    formatting pass cannot load it. *)
Definition unformatted_file (w : World) (d : DataFrame) (st : Stat) : File :=
  mkFile (st_mtime st) (st_size st) (Excel (include_index_cb (parent w)) d) false.

(** *** Example sessions *)

(** The editor of [editing 3] after five saves one second apart: the
    three latest versions of "book" are on disk. *)
Definition after_five_saves : World := save_versions five_saves (editing 3).

(** An editor on "/home/u/book_v2.csv" after one [save_version]. *)
Definition copy_saved : World :=
  save_versions [at_second 0 0]
    (upd_parent (set_current_file_path (Some "/home/u/book_v2.csv")) (editing 3)).

(** Three versions of "book" with [keep_versions = 1]; the oldest one is
    locked. *)
Definition version_1 : string :=
  "/home/u/.excel_editor_versions/book_v20240307_090501.csv".
Definition version_2 : string :=
  "/home/u/.excel_editor_versions/book_v20240307_090502.csv".
Definition version_3 : string :=
  "/home/u/.excel_editor_versions/book_v20240307_090503.csv".

Definition oldest_locked : World :=
  upd_fs (fun _ =>
            <[version_1 := mkFile 1001 100 (Csv false book) true]>
              (<[version_2 := mkFile 1002 100 (Csv false book) false]>
                 (<[version_3 := mkFile 1003 100 (Csv false book) false]> ∅)))
    (editing 1).

(** The user will answer "/home/u/report" to the coming "save as"
    dialog. *)
Definition saving_as_report : World := set_dialogs ["/home/u/report"] (editing 3).

(** Two versions of "book", written ten minutes before and ten minutes
    after the clocks were set back at 01:00 universal time on 27 October
    2024: at 01:50 and at 01:10 local time. *)
Definition set_back : Z := 1729990800.

Definition version_before : string :=
  "/home/u/.excel_editor_versions/book_v20241027_015000.csv".
Definition version_after : string :=
  "/home/u/.excel_editor_versions/book_v20241027_011000.csv".

Definition around_set_back : World :=
  upd_fs (fun _ =>
            <[version_before
              := mkFile ((set_back - 600) * 1000000) 100 (Csv false book) false]>
              (<[version_after
                 := mkFile ((set_back + 600) * 1000000) 100 (Csv false book) false]>
                 ∅))
    (editing 3).

(** Two worlds that differ in the file system and the messages only. *)
Definition same_editor (w w' : World) : Prop :=
  parent w' = parent w /\ manager w' = manager w /\
  settings w' = settings w /\ dialogs w' = dialogs w /\
  openpyxl_available w' = openpyxl_available w.

End Versions.

(** ** AutoSave_.py: the version history dialog *)

Module VersionHistory.
Import Py Table AutoSave.

(** One row of the list widget.  A row added for a version carries the
    record of [get_versions] under [Qt.UserRole], which is all that the
    dialog reads back from it; the two notices carry no data. *)
Inductive Row : Type :=
  | Notice (text : string)
  | Entry (version : VersionRecord).

(** The dialog with the editor it was opened on; [replies] are the
    answers the user will give to the coming question boxes ([true]:
    Yes), and a box left without an answer counts as No. *)
Record Session : Type := mkSession {
  world : World;
  version_list : list Row;
  replies : list bool
}.

Definition set_version_list (l : list Row) (s : Session) : Session :=
  mkSession (world s) l (replies s).
Definition add_item (r : Row) (s : Session) : Session :=
  mkSession (world s) (version_list s ++ [r]) (replies s).
Definition set_replies (l : list bool) (s : Session) : Session :=
  mkSession (world s) (version_list s) l.

(** A call into the editor or the manager from the dialog. *)
Definition on_world {A} (m : M World A) : M Session A :=
  fun s =>
    match m (world s) with
    | Normal a w => Normal a (mkSession w (version_list s) (replies s))
    | Raised e w => Raised e (mkSession w (version_list s) (replies s))
    end.

(** [QMessageBox.question(...) == QMessageBox.Yes]. *)
Definition question : M Session bool :=
  let* l := gets replies in
  match l with
  | [] => ret false
  | a :: rest => run modify (set_replies rest) in ret a
  end.

(** The loop [for version in versions] of [load_versions]. *)
Fixpoint add_versions (versions : list VersionRecord) : M Session unit :=
  match versions with
  | [] => ret tt
  | version :: rest =>
      run modify (add_item (Entry version)) in
      add_versions rest
  end.

(** [VersionHistoryDialog.load_versions], in a process whose time zone
    is [fromtimestamp]. *)
Definition load_versions (fromtimestamp : TimeZone) : M Session unit :=
  run modify (set_version_list []) in
  let* path := gets (fun s => current_file_path (parent (world s))) in
  match path with
  | Some p =>
      if truthy (Some p) then
        let* versions := on_world (get_versions fromtimestamp p) in
        match versions with
        | [] => modify (add_item (Notice "No versions found"))
        | _ :: _ => add_versions versions
        end
      else modify (add_item (Notice "No file loaded"))
  | None => modify (add_item (Notice "No file loaded"))
  end.

(** [current_item.data(Qt.UserRole)] for the current row, if any. *)
Definition current_version (current_row : option nat) (s : Session)
    : option VersionRecord :=
  match current_row with
  | None => None
  | Some i =>
      match version_list s !! i with
      | Some (Entry version) => Some version
      | _ => None
      end
  end.

(** [VersionHistoryDialog.delete_version]; [current_row] is the row of
    [currentItem()], if there is one. *)
Definition delete_version (fromtimestamp : TimeZone) (current_row : option nat)
    : M Session unit :=
  let* selected := gets (current_version current_row) in
  match selected with
  | None => ret tt
  | Some version =>
      let* yes := question in
      if yes then
        try_except
          (run on_world (os_remove (path version)) in
           run load_versions fromtimestamp in
           on_world (information "Success" "Version deleted successfully!"))
          (fun e =>
             on_world (critical "Error"
                         ("Failed to delete version:" +:+ newline +:+ str e)))
      else ret tt
  end.

(** The rows that show the list [versions]. *)
Definition rows_of (versions : list VersionRecord) : list Row :=
  match versions with
  | [] => [Notice "No versions found"]
  | _ :: _ => map Entry versions
  end.

(** The dialog right after it was opened on [after_five_saves]; the user
    will answer Yes. *)
Definition history_of_book : Session :=
  state_of (load_versions utc (mkSession Versions.after_five_saves [] [true])).

End VersionHistory.

(** ** AutoSave_.py: the settings dialog *)

Module AutoSaveSettings.
Import Py Table AutoSave.

(** The value a [QSpinBox] with range [lo..hi] holds after
    [setValue(v)]: Qt forces it into the range. *)
Definition spin (lo hi v : Z) : Z := Z.max lo (Z.min hi v).

(** The three input widgets of [AutoSaveSettingsDialog]. *)
Record Dialog : Type := mkDialog {
  enable_checkbox : bool;
  interval_spinbox : Z;      (* range 1..60 *)
  versions_spinbox : Z       (* range 1..100 *)
}.

(** [init_ui]: the widgets show the manager's settings. *)
Definition init_ui (m : Manager) : Dialog :=
  mkDialog (enabled m) (spin 1 60 (interval m)) (spin 1 100 (keep_versions m)).

(** What the user does to the widgets before pressing Save. *)
Inductive Input : Type :=
  | SetChecked (b : bool)
  | SetInterval (v : Z)
  | SetVersions (v : Z).

Definition apply_input (i : Input) (d : Dialog) : Dialog :=
  match i with
  | SetChecked b => mkDialog b (interval_spinbox d) (versions_spinbox d)
  | SetInterval v => mkDialog (enable_checkbox d) (spin 1 60 v) (versions_spinbox d)
  | SetVersions v => mkDialog (enable_checkbox d) (interval_spinbox d) (spin 1 100 v)
  end.

Definition apply_inputs (l : list Input) (d : Dialog) : Dialog :=
  foldl (fun d i => apply_input i d) d l.

(** [AutoSaveSettingsDialog.save_settings]. *)
Definition save_settings (d : Dialog) : M World unit :=
  update_settings (enable_checkbox d) (interval_spinbox d) (versions_spinbox d).

(** Opening the dialog on the manager, editing, and pressing Save. *)
Definition edit_settings (l : list Input) : M World unit :=
  let* m := gets manager in
  save_settings (apply_inputs l (init_ui m)).

End AutoSaveSettings.

(** * Properties of the snapshot manager *)

Module UndoRedoFacts.
Import Py Table UndoRedo.

(** ** Lists used as stacks *)

Lemma pop_last_snoc {A} (l : list A) (x : A) : pop_last (l ++ [x]) = Some (x, l).
Proof. unfold pop_last. rewrite rev_app_distr. simpl. by rewrite rev_involutive. Qed.

Lemma pop_last_nil {A} : pop_last (@nil A) = None.
Proof. reflexivity. Qed.

Lemma snoc_of_nonempty {A} (l : list A) : l <> [] -> exists l' x, l = l' ++ [x].
Proof. intros H. destruct (exists_last H) as (l' & x & ->). eauto. Qed.

(** ** Allocation when memory suffices *)

Lemma all_succeed_tail ao : all_succeed ao -> all_succeed (tail ao).
Proof. intros H. destruct H; simpl; [constructor | done]. Qed.

Create HintDb mem.
#[local] Hint Resolve all_succeed_tail : mem.

(** Unfold the monad and the field updates down to explicit records. *)
Ltac world_simpl :=
  unfold bind, gets, modify, ret, raise, upd_parent, upd_manager, upd_frames,
    upd_dicts, consume_outcome, set_alloc_outcomes, emit, set_df, set_current_file_path,
    set_format_settings, set_is_modified, set_undo_stack, set_redo_stack,
    set_current_position in *;
  simpl in *.

Lemma alloc_frame_eq p m fr di ao u d :
  all_succeed ao ->
  alloc_frame d (mkWorld p m fr di ao u)
  = Normal (length fr) (mkWorld p m (fr ++ [d]) di (tail ao) u).
Proof.
  intros H. unfold alloc_frame, next_alloc_ok, succeeds. simpl.
  destruct H as [|b ao' Hb _]; [done | by subst b].
Qed.

Lemma alloc_dict_eq p m fr di ao u f :
  all_succeed ao ->
  alloc_dict f (mkWorld p m fr di ao u)
  = Normal (length di) (mkWorld p m fr (di ++ [f]) (tail ao) u).
Proof.
  intros H. unfold alloc_dict, next_alloc_ok, succeeds. simpl.
  destruct H as [|b ao' Hb _]; [done | by subst b].
Qed.

(** [capture] on a loaded document: two fresh objects, nothing else
    changes. *)
Lemma capture_eq p m fr di ao u l desc :
  all_succeed ao -> df p = Some l ->
  capture desc (mkWorld p m fr di ao u)
  = Normal (mkState (length fr) desc (current_file_path p) (length di))
      (mkWorld p m (fr ++ [fr !!! l]) (di ++ [di !!! format_settings p])
         (tail (tail ao)) u).
Proof.
  intros Hao Hl. unfold capture, parent_df_copy, frame_copy, deepcopy, bind, gets, ret.
  simpl. rewrite Hl. rewrite alloc_frame_eq by done. simpl.
  rewrite alloc_dict_eq by auto with mem. reflexivity.
Qed.

(** [restore]: the parent is rebound to two fresh copies of the stored
    objects. *)
Lemma restore_eq p m fr di ao u st :
  all_succeed ao ->
  restore st (mkWorld p m fr di ao u)
  = Normal tt
      (mkWorld (mkParent (Some (length fr)) (state_file_path st) (length di)
                  (is_modified p))
         m (fr ++ [fr !!! state_df st]) (di ++ [di !!! state_format_settings st])
         (tail (tail ao)) u).
Proof.
  intros Hao. unfold restore, frame_copy, deepcopy. world_simpl.
  rewrite alloc_frame_eq by done. world_simpl.
  rewrite alloc_dict_eq by auto with mem. reflexivity.
Qed.

(** ** The three operations on a loaded document, memory permitting *)

Lemma can_undo_snoc p us s rs mx pos fr di ao u :
  can_undo (mkWorld p (mkManager (us ++ [s]) rs mx pos) fr di ao u)
  = Normal true (mkWorld p (mkManager (us ++ [s]) rs mx pos) fr di ao u).
Proof.
  unfold can_undo, gets. simpl. f_equal. apply bool_decide_eq_true.
  rewrite length_app. simpl. lia.
Qed.

Lemma can_redo_snoc p us s rs mx pos fr di ao u :
  can_redo (mkWorld p (mkManager us (rs ++ [s]) mx pos) fr di ao u)
  = Normal true (mkWorld p (mkManager us (rs ++ [s]) mx pos) fr di ao u).
Proof.
  unfold can_redo, gets. simpl. f_equal. apply bool_decide_eq_true.
  rewrite length_app. simpl. lia.
Qed.

Lemma undo_eq p us s rs mx pos fr di ao u l :
  all_succeed ao -> df p = Some l ->
  let fr1 := fr ++ [fr !!! l] in
  let di1 := di ++ [di !!! format_settings p] in
  let c := mkState (length fr) "Current State" (current_file_path p) (length di) in
  undo (mkWorld p (mkManager (us ++ [s]) rs mx pos) fr di ao u)
  = Normal true
      (mkWorld
         (mkParent (Some (length fr1)) (state_file_path s) (length di1) true)
         (mkManager us (rs ++ [c]) mx (Z.of_nat (length us) - 1))
         (fr1 ++ [fr1 !!! state_df s])
         (di1 ++ [di1 !!! state_format_settings s])
         (tail (tail (tail (tail ao))))
         ((u ++ [TableUpdated])
            ++ [StatusMessage ("Undone: " +:+ state_description s) 2000])).
Proof.
  intros Hao Hl fr1 di1 c. unfold undo, try_except.
  unfold bind at 1. rewrite can_undo_snoc. simpl.
  unfold bind at 1. rewrite (capture_eq _ _ _ _ _ _ l) by done.
  unfold undo_stack_pop, showMessage, update_table, sync_current_position.
  world_simpl. rewrite pop_last_snoc. world_simpl.
  rewrite restore_eq by auto with mem. reflexivity.
Qed.

Lemma redo_eq p us s rs mx pos fr di ao u l :
  all_succeed ao -> df p = Some l ->
  let fr1 := fr ++ [fr !!! l] in
  let di1 := di ++ [di !!! format_settings p] in
  let c := mkState (length fr) "Undo" (current_file_path p) (length di) in
  redo (mkWorld p (mkManager us (rs ++ [s]) mx pos) fr di ao u)
  = Normal true
      (mkWorld
         (mkParent (Some (length fr1)) (state_file_path s) (length di1) true)
         (mkManager (us ++ [c]) rs mx (Z.of_nat (length (us ++ [c])) - 1))
         (fr1 ++ [fr1 !!! state_df s])
         (di1 ++ [di1 !!! state_format_settings s])
         (tail (tail (tail (tail ao))))
         ((u ++ [TableUpdated])
            ++ [StatusMessage ("Redone: " +:+ state_description s) 2000])).
Proof.
  intros Hao Hl fr1 di1 c. unfold redo, try_except.
  unfold bind at 1. rewrite can_redo_snoc. simpl.
  unfold redo_stack_pop, showMessage, update_table, sync_current_position.
  world_simpl. rewrite pop_last_snoc. world_simpl.
  rewrite (capture_eq _ _ _ _ _ _ l) by done. world_simpl.
  rewrite restore_eq by auto with mem. reflexivity.
Qed.

Lemma save_state_eq p us rs mx pos fr di ao u l desc :
  all_succeed ao -> df p = Some l ->
  let c := mkState (length fr) desc (current_file_path p) (length di) in
  save_state desc (mkWorld p (mkManager us rs mx pos) fr di ao u)
  = Normal tt
      (mkWorld p
         (mkManager (limited mx (us ++ [c])) [] mx
            (Z.of_nat (length (limited mx (us ++ [c]))) - 1))
         (fr ++ [fr !!! l]) (di ++ [di !!! format_settings p])
         (tail (tail ao)) u).
Proof.
  intros Hao Hl c. unfold save_state, try_except.
  unfold bind at 1. unfold gets at 1. simpl. rewrite Hl.
  unfold bind at 1. rewrite (capture_eq _ _ _ _ _ _ l) by done.
  unfold undo_stack_pop_first, sync_current_position, limited. world_simpl.
  fold c. destruct (Z.of_nat (length (us ++ [c])) >? mx) eqn:E; simpl.
  - destruct (us ++ [c]) eqn:E'; simpl.
    + by destruct us.
    + reflexivity.
  - reflexivity.
Qed.

(** ** Case analysis of the operations in an arbitrary world *)

Lemma list_snoc_cases {A} (l : list A) : l = [] \/ exists l' x, l = l' ++ [x].
Proof.
  destruct l as [|a l]; [by left | right].
  apply snoc_of_nonempty. discriminate.
Qed.

Arguments succeeds : simpl never.

Ltac open_world w :=
  destruct w as [[?odf ?path ?fmt ?md] [?us ?rs ?mx ?pos] ?fr ?di ?ao ?u].

Ltac exec :=
  unfold undo, redo, save_state, clear, capture, restore, parent_df_copy,
    frame_copy, deepcopy, alloc_frame, alloc_dict, next_alloc_ok,
    undo_stack_pop, redo_stack_pop, undo_stack_pop_first, can_undo, can_redo,
    sync_current_position, showMessage, update_table, critical, print,
    try_except in *;
  world_simpl.

Ltac crunch :=
  repeat first
    [ rewrite pop_last_snoc
    | match goal with
      | |- context [bool_decide (0 < length (?l ++ [?x]))%nat] =>
          rewrite (bool_decide_eq_true_2 (0 < length (l ++ [x]))%nat)
            by (rewrite length_app; simpl; lia)
      end
    | progress world_simpl
    | match goal with
      | |- context [succeeds ?ao] => destruct (succeeds ao) eqn:?
      end ].

(** Split on the shape of both stacks and on whether a document is
    loaded, then run the operation in each case. *)
Ltac cases_of w :=
  open_world w;
  match goal with
  | us : list State, rs : list State, odf : option loc |- _ =>
      destruct (list_snoc_cases us) as [-> | (?us' & ?s & ->)];
      destruct (list_snoc_cases rs) as [-> | (?rs' & ?s & ->)];
      destruct odf as [?l|];
      exec; crunch
  end.

Lemma undo_never_raises w : raised (undo w) = None.
Proof. cases_of w; reflexivity. Qed.

Lemma redo_never_raises w : raised (redo w) = None.
Proof. cases_of w; reflexivity. Qed.

Lemma save_state_never_raises d w : raised (save_state d w) = None.
Proof.
  open_world w. destruct odf as [l|]; exec; [|reflexivity].
  destruct (succeeds ao); world_simpl; [|reflexivity].
  destruct (succeeds (tail ao)); world_simpl; [|reflexivity].
  destruct (_ >? _); world_simpl; [|reflexivity].
  destruct us; reflexivity.
Qed.

(** ** Well-formedness is an invariant *)

Lemma state_valid_mono w w' st :
  (length (frames w) <= length (frames w'))%nat ->
  (length (dicts w) <= length (dicts w'))%nat ->
  state_valid w st -> state_valid w' st.
Proof. unfold state_valid. lia. Qed.

Ltac wf_solve :=
  unfold wf, live_valid, state_valid, state_separate, stacked in *;
  simpl in *;
  repeat first
    [ rewrite Forall_app in * | rewrite Forall_cons in *
    | rewrite Forall_nil in * | rewrite length_app in *
    | rewrite length_insert in * ];
  rewrite ?Forall_forall in *;
  simpl in *;
  repeat match goal with
    | H : _ /\ _ |- _ => destruct H
    | |- _ /\ _ => split
    | |- forall _, _ => intros
    | H : Some _ = Some _ |- _ => injection H as H; subst
    end;
  try done; try lia;
  repeat match goal with
    | H : forall x, x ∈ ?l -> _, H' : ?y ∈ ?l |- _ =>
        specialize (H _ H'); simpl in H
    | H : forall x, Some _ = Some x -> _ |- _ =>
        specialize (H _ eq_refl); simpl in H
    | H : _ /\ _ |- _ => destruct H
    end;
  try lia; try (intros ?; simplify_eq; lia); try congruence; eauto.

Lemma wf_undo w : wf w -> wf (state_of (undo w)).
Proof. intros Hwf. cases_of w; try exact Hwf; wf_solve. Qed.

Lemma wf_redo w : wf w -> wf (state_of (redo w)).
Proof. intros Hwf. cases_of w; try exact Hwf; wf_solve. Qed.

Lemma wf_save_state d w : wf w -> wf (state_of (save_state d w)).
Proof.
  intros Hwf. open_world w. destruct odf as [l|]; exec; [|exact Hwf].
  destruct (succeeds ao); world_simpl; [|wf_solve].
  destruct (succeeds (tail ao)); world_simpl; [|wf_solve].
  destruct (_ >? _); world_simpl; [|wf_solve].
  destruct us; world_simpl; wf_solve.
Qed.

Lemma wf_clear w : wf w -> wf (state_of (clear w)).
Proof. intros Hwf. open_world w. exec. wf_solve. Qed.

Lemma wf_apply_edit e w : wf w -> wf (apply_edit e w).
Proof.
  intros Hwf. open_world w.
  destruct e as [d|[d|]|f|f|p|b]; unfold apply_edit; try destruct odf;
    world_simpl; wf_solve.
Qed.

Lemma wf_step a w : wf w -> wf (step a w).
Proof.
  destruct a; unfold step;
    [apply wf_save_state | apply wf_undo | apply wf_redo | apply wf_clear
    | apply wf_apply_edit].
Qed.

Lemma wf_init outcomes : wf (init_world outcomes).
Proof. unfold init_world. wf_solve. Qed.

Lemma wf_steps l w : wf w -> wf (steps l w).
Proof.
  revert w. induction l as [|a l IH]; intros w Hwf; [done|].
  simpl. apply IH, wf_step, Hwf.
Qed.

Lemma reachable_wf w : reachable w -> wf w.
Proof. intros (outcomes & l & ->). apply wf_steps, wf_init. Qed.

(** ** The size bound is an invariant *)

Ltac bound_solve :=
  unfold within_bound, MAX_UNDO, wf in *; simpl in *;
  repeat rewrite length_app in *; simpl in *; try lia.

Lemma bound_undo w : within_bound w -> within_bound (state_of (undo w)).
Proof. intros Hb. cases_of w; bound_solve. Qed.

Lemma bound_redo w : within_bound w -> within_bound (state_of (redo w)).
Proof. intros Hb. cases_of w; bound_solve. Qed.

Lemma bound_save_state d w :
  wf w -> within_bound w -> within_bound (state_of (save_state d w)).
Proof.
  intros Hwf Hb. open_world w. destruct odf as [l|]; exec; [|exact Hb].
  destruct (succeeds ao); world_simpl; [|bound_solve].
  destruct (succeeds (tail ao)); world_simpl; [|bound_solve].
  destruct (Z.gtb_spec (Z.of_nat (length (us ++ [mkState (length fr) d path (length di)]))) mx)
    as [Hgt|Hle]; world_simpl.
  - destruct us; world_simpl; bound_solve.
  - bound_solve.
Qed.

Lemma bound_step a w : wf w -> within_bound w -> within_bound (step a w).
Proof.
  intros Hwf Hb. destruct a as [d| | | |e]; unfold step.
  - by apply bound_save_state.
  - by apply bound_undo.
  - by apply bound_redo.
  - open_world w. exec. bound_solve.
  - open_world w. destruct e as [d|[d|]|f|f|p|b]; unfold apply_edit;
      try destruct odf; world_simpl; bound_solve.
Qed.

Lemma bound_steps l w : wf w -> within_bound w -> within_bound (steps l w).
Proof.
  revert w. induction l as [|a l IH]; intros w Hwf Hb; [done|].
  simpl. apply IH; [by apply wf_step | by apply bound_step].
Qed.

Lemma reachable_within_bound w : reachable w -> within_bound w.
Proof.
  intros (outcomes & l & ->). apply bound_steps; [apply wf_init|].
  unfold within_bound, MAX_UNDO. simpl. lia.
Qed.

(** ** Reading the store after the operations *)

Lemma all_succeed_of w : memory_suffices w -> all_succeed (alloc_outcomes w).
Proof. done. Qed.

Lemma undo_document w l us s :
  wf w -> memory_suffices w ->
  df (parent w) = Some l -> undo_stack (manager w) = us ++ [s] ->
  value_of (undo w) = Some true /\
  document (state_of (undo w)) = state_content w s /\
  value_of (can_redo (state_of (undo w))) = Some true.
Proof.
  intros Hwf Hmem Hl Hus. open_world w. simpl in Hl, Hus. subst.
  rewrite (undo_eq _ _ _ _ _ _ _ _ _ _ l) by done. simpl.
  split; [done|]. split.
  - unfold document, state_content. simpl.
    assert (state_valid (mkWorld (mkParent (Some l) path fmt md)
              (mkManager (us ++ [s]) rs mx pos) fr di ao u) s) as [Hs1 Hs2].
    { destruct Hwf as (_ & _ & Hv & _). unfold stacked in Hv. simpl in Hv.
      rewrite !Forall_app, Forall_singleton in Hv. tauto. }
    simpl in Hs1, Hs2. f_equal.
    + f_equal. rewrite list_lookup_total_middle by done.
      by rewrite lookup_total_app_l.
    + rewrite list_lookup_total_middle by done.
      by rewrite lookup_total_app_l.
  - unfold can_redo, gets. simpl. f_equal. apply bool_decide_eq_true.
    rewrite length_app. simpl. lia.
Qed.

(** C1: for every world whose undo stack is not empty, memory permitting,
    [undo()] followed by [redo()] gives back the DocumentState (table,
    format settings, bound path) that was there right before the
    [undo()]; on a loaded document both calls return [True] and the redo
    stack is as it was. *)
Theorem undo_then_redo_restores_document (w : World) :
  undo_stack (manager w) <> [] ->
  memory_suffices w ->
  let w1 := state_of (undo w) in
  let w2 := state_of (redo w1) in
  document w2 = document w /\
  (is_Some (df (parent w)) ->
   value_of (undo w) = Some true /\
   value_of (redo w1) = Some true /\
   redo_stack (manager w2) = redo_stack (manager w) /\
   length (undo_stack (manager w2)) = length (undo_stack (manager w))).
Proof.
  intros Hne Hmem. destruct (snoc_of_nonempty _ Hne) as (us' & s & Hus).
  destruct (df (parent w)) as [l|] eqn:Hl.
  - open_world w. simpl in Hl, Hus. subst. cbv zeta.
    rewrite (undo_eq _ _ _ _ _ _ _ _ _ _ l) by done. simpl.
    rewrite (redo_eq _ _ _ _ _ _ _ _ _ _ (length (fr ++ [fr !!! l])));
      [|by repeat apply all_succeed_tail|done].
    simpl. split.
    + unfold document. simpl. f_equal.
      * f_equal. rewrite list_lookup_total_middle by done.
        rewrite !lookup_total_app_l by (rewrite ?length_app; simpl; lia).
        by rewrite list_lookup_total_middle.
      * rewrite list_lookup_total_middle by done.
        rewrite !lookup_total_app_l by (rewrite ?length_app; simpl; lia).
        by rewrite list_lookup_total_middle.
    + intros _. repeat split. by rewrite !length_app.
  - split; [|by intros [? ?]].
    clear Hne. open_world w. simpl in Hl, Hus. subst. cbv zeta.
    destruct (list_snoc_cases rs) as [-> | (rs' & s' & ->)]; exec; crunch;
      reflexivity.
Qed.

(** ** Host edits never reach a stored snapshot *)

Lemma apply_edit_manager e w :
  manager (apply_edit e w) = manager w /\
  alloc_outcomes (apply_edit e w) = alloc_outcomes w.
Proof.
  open_world w. destruct e as [d|[d|]|f|f|p|b]; unfold apply_edit;
    try destruct odf; by world_simpl.
Qed.

Lemma wf_stacked w st :
  wf w -> st ∈ stacked w -> state_valid w st /\ state_separate w st.
Proof.
  intros (_ & _ & Hv & Hs) Hin. rewrite Forall_forall in Hv, Hs. auto.
Qed.

Lemma apply_edit_content e w st :
  wf w -> st ∈ stacked w ->
  state_content (apply_edit e w) st = state_content w st.
Proof.
  intros Hwf Hin. destruct (wf_stacked _ _ Hwf Hin) as [[Hv1 Hv2] [Hs1 Hs2]].
  open_world w. simpl in *. unfold state_content.
  destruct e as [d|[d|]|f|f|p|b]; unfold apply_edit; try destruct odf;
    world_simpl; try reflexivity.
  - rewrite list_lookup_total_insert_ne; [done | congruence].
  - by rewrite lookup_total_app_l.
  - by rewrite lookup_total_app_l.
  - rewrite list_lookup_total_insert_ne; [done | congruence].
  - rewrite list_lookup_total_insert_ne; [done | congruence].
  - by rewrite lookup_total_app_l.
  - by rewrite lookup_total_app_l.
Qed.

Lemma apply_edits_snoc es e w :
  apply_edits (es ++ [e]) w = apply_edit e (apply_edits es w).
Proof. unfold apply_edits. by rewrite foldl_app. Qed.

Lemma apply_edits_preserve es w :
  wf w ->
  wf (apply_edits es w) /\
  manager (apply_edits es w) = manager w /\
  alloc_outcomes (apply_edits es w) = alloc_outcomes w /\
  forall st, st ∈ stacked w ->
    state_content (apply_edits es w) st = state_content w st.
Proof.
  intros Hwf. induction es as [|e es IH] using rev_ind; [done|].
  rewrite apply_edits_snoc. destruct IH as (Hwf' & Hm & Ha & Hc).
  destruct (apply_edit_manager e (apply_edits es w)) as [Hm' Ha'].
  split; [by apply wf_apply_edit|].
  split; [congruence|]. split; [congruence|].
  intros st Hin. rewrite apply_edit_content; [auto | done |].
  unfold stacked in *. by rewrite Hm.
Qed.

(** What [save_state] leaves on a loaded document, memory permitting:
    the new entry is on top of the undo stack and holds the document's
    content. *)
Lemma save_state_top w d :
  wf w -> memory_suffices w -> is_Some (df (parent w)) ->
  exists us st,
    undo_stack (manager (state_of (save_state d w))) = us ++ [st] /\
    state_description st = d /\
    state_content (state_of (save_state d w)) st = document w /\
    redo_stack (manager (state_of (save_state d w))) = [] /\
    parent (state_of (save_state d w)) = parent w /\
    memory_suffices (state_of (save_state d w)).
Proof.
  intros Hwf Hmem [l Hl]. open_world w. simpl in Hl. subst.
  rewrite (save_state_eq _ _ _ _ _ _ _ _ _ l) by done. simpl.
  assert (mx = 50) as -> by (by destruct Hwf).
  assert (l < length fr)%nat as Hlv by (destruct Hwf as (_ & [Hv _] & _); auto).
  assert (fmt < length di)%nat as Hfv by (by destruct Hwf as (_ & [_ Hv] & _)).
  set (c := mkState (length fr) d path (length di)).
  exists (if Z.of_nat (length (us ++ [c])) >? 50 then tail us else us), c.
  split; [|split; [done|split; [|split; [done|split; [done|]]]]].
  - unfold limited. destruct (Z.gtb_spec (Z.of_nat (length (us ++ [c]))) 50) as [Hgt|Hle];
      [|done].
    destruct us as [|a us]; [simpl in Hgt; lia | done].
  - unfold state_content, document. simpl. f_equal.
    + f_equal. rewrite list_lookup_total_middle by done. done.
    + by rewrite list_lookup_total_middle.
  - unfold memory_suffices. simpl. by repeat apply all_succeed_tail.
Qed.

(** C6: [save_state] stores a deep copy of the document as it is at the
    call, no later edit by the host changes that copy, and [undo] puts
    exactly its content back; afterwards [can_redo()] is [True]. *)
Theorem undo_restores_saved_state (w : World) (description : string)
    (es : list Edit) :
  wf w -> is_Some (df (parent w)) -> memory_suffices w ->
  let w1 := state_of (save_state description w) in
  let w2 := apply_edits es w1 in
  is_Some (df (parent w2)) ->
  (exists st, last (undo_stack (manager w1)) = Some st /\
     state_description st = description /\
     state_content w1 st = document w /\
     state_content w2 st = document w) /\
  value_of (undo w2) = Some true /\
  document (state_of (undo w2)) = document w /\
  value_of (can_redo (state_of (undo w2))) = Some true.
Proof.
  intros Hwf Hload Hmem w1 w2 [l2 Hl2].
  destruct (save_state_top w description Hwf Hmem Hload)
    as (us & st & Hus & Hd & Hc & _ & _ & Hmem1).
  fold w1 in Hus, Hc, Hmem1.
  assert (wf w1) as Hwf1 by (by apply wf_save_state).
  destruct (apply_edits_preserve es w1 Hwf1) as (Hwf2 & Hm & Ha & Hpres).
  fold w2 in Hwf2, Hm, Ha, Hpres.
  assert (st ∈ stacked w1) as Hin.
  { unfold stacked. rewrite Hus. set_solver. }
  assert (memory_suffices w2) as Hmem2.
  { unfold memory_suffices. by rewrite Ha. }
  assert (undo_stack (manager w2) = us ++ [st]) as Hus2 by (by rewrite Hm).
  destruct (undo_document w2 l2 us st Hwf2 Hmem2 Hl2 Hus2) as (Hv & Hdoc & Hr).
  split.
  - exists st. rewrite Hus, last_snoc. rewrite Hpres by done. done.
  - rewrite Hdoc, Hpres by done. done.
Qed.

(** ** Consecutive [save_state] calls *)

Lemma limited_keep_last (x : list State) (c : State) :
  limited 50 (keep_last 50 x ++ [c]) = keep_last 50 (x ++ [c]).
Proof.
  unfold limited, keep_last. rewrite !length_app, length_drop. simpl.
  destruct (Z.gtb_spec (Z.of_nat (length x - (length x - 50) + 1)) 50) as [H|H].
  - replace (length x + 1 - 50)%nat with (S (length x - 50)) by lia.
    rewrite drop_app_le by lia.
    destruct (drop (length x - 50) x) as [|a t] eqn:E.
    + apply (f_equal length) in E. rewrite length_drop in E. simpl in E. lia.
    + simpl. rewrite <- Nat.add_1_r, <- drop_drop, E. done.
  - replace (length x - 50)%nat with 0%nat by lia.
    replace (length x + 1 - 50)%nat with 0%nat by lia. done.
Qed.

Lemma save_state_loaded w d :
  wf w -> memory_suffices w -> is_Some (df (parent w)) ->
  let w' := state_of (save_state d w) in
  exists c,
    undo_stack (manager w') = limited 50 (undo_stack (manager w) ++ [c]) /\
    state_description c = d /\
    state_valid w' c /\
    state_content w' c = document w /\
    (forall st, state_valid w st ->
       state_valid w' st /\ state_content w' st = state_content w st) /\
    document w' = document w /\
    parent w' = parent w /\
    memory_suffices w'.
Proof.
  intros Hwf Hmem [l Hl]. open_world w. simpl in Hl. subst. cbv zeta.
  rewrite (save_state_eq _ _ _ _ _ _ _ _ _ l) by done. simpl.
  assert (mx = 50) as -> by (by destruct Hwf).
  assert (l < length fr)%nat as Hlv by (destruct Hwf as (_ & [Hv _] & _); auto).
  assert (fmt < length di)%nat as Hfv by (by destruct Hwf as (_ & [_ Hv] & _)).
  exists (mkState (length fr) d path (length di)).
  split; [done|]. split; [done|]. split.
  { unfold state_valid. simpl. rewrite !length_app. simpl. lia. }
  split.
  { unfold state_content, document. simpl.
    by rewrite !list_lookup_total_middle. }
  split.
  { intros st [Hv1 Hv2]. simpl in Hv1, Hv2. split.
    - unfold state_valid. simpl. rewrite !length_app. simpl. lia.
    - unfold state_content. simpl. by rewrite !lookup_total_app_l. }
  split.
  { unfold document. simpl. by rewrite !lookup_total_app_l. }
  split; [done|].
  unfold memory_suffices. simpl. by repeat apply all_succeed_tail.
Qed.

Lemma save_states_snoc ds d w :
  save_states (ds ++ [d]) w = state_of (save_state d (save_states ds w)).
Proof. unfold save_states. by rewrite foldl_app. Qed.

Lemma wf_save_states ds w : wf w -> wf (save_states ds w).
Proof.
  intros Hwf. induction ds as [|d ds IH] using rev_ind; [done|].
  rewrite save_states_snoc. by apply wf_save_state.
Qed.

Lemma save_states_loaded ds w :
  wf w -> within_bound w -> memory_suffices w -> is_Some (df (parent w)) ->
  let w' := save_states ds w in
  memory_suffices w' /\ parent w' = parent w /\ document w' = document w /\
  exists news,
    map state_description news = ds /\
    Forall (fun st => state_valid w' st /\ state_content w' st = document w)
      news /\
    undo_stack (manager w') = keep_last 50 (undo_stack (manager w) ++ news).
Proof.
  intros Hwf Hb Hmem Hload. cbv zeta.
  induction ds as [|d ds IH] using rev_ind.
  - repeat split; try done. exists []. repeat split; [constructor|].
    rewrite app_nil_r. unfold keep_last, within_bound, MAX_UNDO in *.
    replace (length (undo_stack (manager w)) - 50)%nat with 0%nat by lia. done.
  - rewrite save_states_snoc.
    destruct IH as (Hmem' & Hp & Hdoc & news & Hdesc & Hnews & Hus).
    assert (wf (save_states ds w)) as Hwf' by (by apply wf_save_states).
    assert (is_Some (df (parent (save_states ds w)))) as Hload' by (by rewrite Hp).
    destruct (save_state_loaded _ d Hwf' Hmem' Hload')
      as (c & Hus' & Hd & Hcv & Hcc & Hold & Hdoc' & Hp' & Hmem'').
    split; [done|]. split; [congruence|]. split; [congruence|].
    exists (news ++ [c]). split; [by rewrite map_app, Hdesc; simpl; rewrite Hd|].
    split.
    + rewrite Forall_app, Forall_singleton. split; [|split; [done|congruence]].
      eapply Forall_impl; [exact Hnews|]. intros st [Hv Hc].
      destruct (Hold st Hv) as [Hv' Hc']. split; [done|congruence].
    + rewrite Hus', Hus, app_assoc. apply limited_keep_last.
Qed.

(** C2: in every reachable world a call to [save_state] leaves at most
    MAX_UNDO entries on the undo stack; on a full stack the call evicts
    the oldest entry and appends the new one; and MAX_UNDO + 5 consecutive
    calls on a loaded document, memory permitting, leave exactly MAX_UNDO
    entries: those of the last MAX_UNDO calls, in order, each holding the
    document's content. *)
Theorem save_state_bounds_undo_stack :
  (forall w d, reachable w ->
     (length (undo_stack (manager (state_of (save_state d w)))) <= MAX_UNDO)%nat) /\
  (forall w d, reachable w -> is_Some (df (parent w)) -> memory_suffices w ->
     length (undo_stack (manager w)) = MAX_UNDO ->
     let w' := state_of (save_state d w) in
     exists st,
       state_description st = d /\ state_content w' st = document w /\
       undo_stack (manager w') = tail (undo_stack (manager w)) ++ [st]) /\
  (forall w ds, reachable w -> is_Some (df (parent w)) -> memory_suffices w ->
     length ds = (MAX_UNDO + 5)%nat ->
     let w' := save_states ds w in
     length (undo_stack (manager w')) = MAX_UNDO /\
     map state_description (undo_stack (manager w')) = drop 5 ds /\
     Forall (fun st => state_content w' st = document w)
       (undo_stack (manager w'))).
Proof.
  split; [|split].
  - intros w d Hr.
    assert (within_bound (state_of (save_state d w))) as Hb.
    { apply bound_save_state; [by apply reachable_wf|].
      by apply reachable_within_bound. }
    unfold within_bound in Hb. lia.
  - intros w d Hr Hload Hmem Hlen. cbv zeta.
    destruct (save_state_loaded w d (reachable_wf _ Hr) Hmem Hload)
      as (c & Hus & Hd & _ & Hc & _).
    exists c. split; [done|]. split; [done|].
    rewrite Hus. unfold limited. rewrite length_app, Hlen. simpl.
    destruct (undo_stack (manager w)); [discriminate | done].
  - intros w ds Hr Hload Hmem Hlen. cbv zeta.
    destruct (save_states_loaded ds w (reachable_wf _ Hr)
                (reachable_within_bound _ Hr) Hmem Hload)
      as (_ & _ & _ & news & Hdesc & Hnews & Hus).
    assert (length news = 55%nat) as Hn.
    { rewrite <- (length_map state_description), Hdesc. exact Hlen. }
    pose proof (reachable_within_bound _ Hr) as Hb.
    unfold within_bound, MAX_UNDO in *.
    assert (undo_stack (manager (save_states ds w)) = drop 5 news) as ->.
    { rewrite Hus. unfold keep_last. rewrite length_app, Hn.
      rewrite drop_app_ge by lia. f_equal. lia. }
    split; [rewrite length_drop; lia|]. split.
    + by rewrite <- Hdesc, skipn_map.
    + apply Forall_drop. eapply Forall_impl; [exact Hnews|]. by intros st [_ ?].
Qed.

Lemma loaded_world_reachable outcomes : reachable (loaded_world outcomes).
Proof. by eexists _, _. Qed.

Lemma save_state_bounds_undo_stack_witness :
  length (undo_stack (manager (save_states fifty_five_edits (loaded_world []))))
  = MAX_UNDO /\
  map state_description
    (undo_stack (manager (save_states fifty_five_edits (loaded_world []))))
  = drop 5 fifty_five_edits.
Proof.
  destruct save_state_bounds_undo_stack as (_ & _ & H).
  destruct (H (loaded_world []) fifty_five_edits) as (H1 & H2 & _).
  - apply loaded_world_reachable.
  - by eexists.
  - constructor.
  - reflexivity.
  - by split.
Defined.

(** ** The guard on a missing document *)

Lemma save_state_unloaded w d : df (parent w) = None -> save_state d w = Normal tt w.
Proof. intros H. open_world w. simpl in H. subst. reflexivity. Qed.

Lemma undo_true_inv w :
  value_of (undo w) = Some true ->
  is_Some (df (parent (state_of (undo w)))) /\
  is_modified (parent (state_of (undo w))) = true.
Proof. cases_of w; intros H; try discriminate H; by eauto. Qed.

Lemma redo_true_inv w :
  value_of (redo w) = Some true ->
  is_Some (df (parent (state_of (redo w)))) /\
  is_modified (parent (state_of (redo w))) = true.
Proof. cases_of w; intros H; try discriminate H; by eauto. Qed.

(** C3, as stated, fails: with no document loaded [save_state] returns
    at its guard and the redo stack keeps its entry.  The same happens on
    a loaded document, right after a successful [undo()], when the copy of
    the table fails: the error is raised before [redo_stack.clear()] and
    is caught by the method. *)
Lemma save_state_without_document_keeps_redo :
  (df (parent unloaded_with_redo) = None /\
   value_of (can_redo (state_of (save_state "Edit" unloaded_with_redo)))
   = Some true) /\
  (is_Some (df (parent undone_out_of_memory)) /\
   save_state "Edit" undone_out_of_memory
   = Normal tt (state_of (save_state "Edit" undone_out_of_memory)) /\
   value_of (can_redo (state_of (save_state "Edit" undone_out_of_memory)))
   = Some true).
Proof.
  split; [split; vm_compute; reflexivity|].
  split; [vm_compute; eauto|].
  split; vm_compute; reflexivity.
Qed.

(** C3, amended: a [save_state] call made while a document is loaded
    (memory permitting) empties the redo stack, so [can_redo()] is
    [False] afterwards, in particular right after a successful [undo()];
    with no document loaded the call changes nothing. *)
Theorem save_state_clears_redo_on_loaded_document (w : World) (d : string) :
  (is_Some (df (parent w)) -> memory_suffices w ->
   redo_stack (manager (state_of (save_state d w))) = [] /\
   value_of (can_redo (state_of (save_state d w))) = Some false) /\
  (value_of (undo w) = Some true -> memory_suffices (state_of (undo w)) ->
   value_of (can_redo (state_of (save_state d (state_of (undo w)))))
   = Some false) /\
  (df (parent w) = None -> save_state d w = Normal tt w).
Proof.
  assert (forall w, is_Some (df (parent w)) -> memory_suffices w ->
     redo_stack (manager (state_of (save_state d w))) = [] /\
     value_of (can_redo (state_of (save_state d w))) = Some false) as Hmain.
  { clear w. intros w [l Hl] Hmem. open_world w. simpl in Hl. subst.
    rewrite (save_state_eq _ _ _ _ _ _ _ _ _ l) by done. by split. }
  split; [by apply Hmain|]. split; [|by apply save_state_unloaded].
  intros Hu Hmem. apply Hmain; [|done]. by apply undo_true_inv.
Qed.

(** C3 on an edit that was recorded and undone: [can_redo()] is [True]
    after the [undo()] and [False] after the [save_state()] that
    follows. *)
Lemma save_state_clears_redo_on_loaded_document_witness :
  value_of (undo one_edit) = Some true /\
  value_of (can_redo (state_of (undo one_edit))) = Some true /\
  redo_stack (manager (state_of (save_state "Edit" (state_of (undo one_edit)))))
  = [] /\
  value_of (can_redo (state_of (save_state "Edit" (state_of (undo one_edit)))))
  = Some false.
Proof.
  split; [vm_compute; reflexivity|].
  split; [vm_compute; reflexivity|].
  split.
  - apply (proj1 (save_state_clears_redo_on_loaded_document
                    (state_of (undo one_edit)) "Edit")).
    + vm_compute. by eexists.
    + vm_compute. constructor.
  - apply (proj1 (proj2 (save_state_clears_redo_on_loaded_document
                           one_edit "Edit"))).
    + vm_compute. reflexivity.
    + vm_compute. constructor.
Defined.

(** ** Exceptions *)

(** C8, as stated, fails: a [MemoryError] raised by the copy inside
    [save_state] or [undo] is caught by the method's own handler; the
    call returns normally ([undo] with [False]). *)
Lemma memory_error_is_caught :
  raised (capture "Edit" (loaded_world [false])) = Some MemoryError /\
  raised (save_state "Edit" (loaded_world [false])) = None /\
  raised (capture "Current State" edited_out_of_memory) = Some MemoryError /\
  undo_stack (manager edited_out_of_memory) <> [] /\
  raised (undo edited_out_of_memory) = None /\
  value_of (undo edited_out_of_memory) = Some false.
Proof. repeat split; try (vm_compute; reflexivity). vm_compute. discriminate. Qed.

Lemma copy_failure_memory_suffices (n : nat) (w : World) :
  memory_suffices w -> is_Some (df (parent w)) -> copy_failure n w = None.
Proof.
  intros Hmem [l Hl]. unfold copy_failure. rewrite Hl.
  rewrite (proj2 (forallb_forall _ _)); [done|].
  intros b Hb. apply list_elem_of_In, elem_of_take in Hb as (i & Hb & _).
  apply list_elem_of_lookup_2 in Hb.
  unfold memory_suffices, all_succeed in Hmem. rewrite Forall_forall in Hmem.
  by apply Hmem.
Qed.

(** C8, amended: no exception leaves [save_state], [undo] or [redo],
    whatever the world: every [Exception] raised inside is caught by the
    method, and each failure is reported and nothing else.

    - [save_state] on a loaded document makes two copies: when one of
      them raises [MemoryError] it prints "Error saving undo state: ..."
      and returns with the manager as it was; otherwise it prints
      nothing.
    - [undo] on a non-empty undo stack makes four copies: when no
      document is loaded ([AttributeError]) or one of the copies raises
      [MemoryError], it prints "Error during undo: ...", shows the error
      box "Undo Error" with the text of the exception, and returns
      [False]; otherwise it returns [True] and reports no error.
    - [redo] does the same on a non-empty redo stack, with "Error during
      redo: ..." and the box "Redo Error".

    In particular, on a loaded document and with no failing allocation,
    [undo] and [redo] succeed on a non-empty stack. *)
Theorem exceptions_never_reach_the_caller (w : World) (d : string) :
  (raised (save_state d w) = None /\ raised (undo w) = None /\
   raised (redo w) = None) /\
  (is_Some (df (parent w)) ->
   let w' := state_of (save_state d w) in
   match copy_failure 2 w with
   | Some e =>
       save_state d w = Normal tt w' /\
       ui w' = ui w ++ [Printed ("Error saving undo state: " +:+ str e)] /\
       manager w' = manager w
   | None => save_state d w = Normal tt w' /\ ui w' = ui w
   end) /\
  (undo_stack (manager w) <> [] ->
   let w' := state_of (undo w) in
   match copy_failure 4 w with
   | Some e =>
       undo w = Normal false w' /\
       ui w'
       = ui w ++ [Printed ("Error during undo: " +:+ str e);
                  CriticalBox "Undo Error" ("Failed to undo:" +:+ newline +:+ str e)]
   | None =>
       undo w = Normal true w' /\
       exists s,
         last (undo_stack (manager w)) = Some s /\
         ui w'
         = ui w ++ [TableUpdated;
                    StatusMessage ("Undone: " +:+ state_description s) 2000]
   end) /\
  (redo_stack (manager w) <> [] ->
   let w' := state_of (redo w) in
   match copy_failure 4 w with
   | Some e =>
       redo w = Normal false w' /\
       ui w'
       = ui w ++ [Printed ("Error during redo: " +:+ str e);
                  CriticalBox "Redo Error" ("Failed to redo:" +:+ newline +:+ str e)]
   | None =>
       redo w = Normal true w' /\
       exists s,
         last (redo_stack (manager w)) = Some s /\
         ui w'
         = ui w ++ [TableUpdated;
                    StatusMessage ("Redone: " +:+ state_description s) 2000]
   end) /\
  (memory_suffices w -> is_Some (df (parent w)) ->
   (undo_stack (manager w) <> [] -> value_of (undo w) = Some true) /\
   (redo_stack (manager w) <> [] -> value_of (redo w) = Some true)).
Proof.
  split; [|split; [|split; [|split]]].
  - auto using save_state_never_raises, undo_never_raises, redo_never_raises.
  - intros [l Hl] w'. subst w'. open_world w. simpl in Hl. subst.
    unfold copy_failure. simpl.
    destruct ao as [|[] [|[] ao]]; simpl; exec; unfold succeeds; simpl;
      try (destruct (_ >? _); simpl;
           [destruct (us ++ _) eqn:E; [by destruct us|]|]; simpl);
      by rewrite ?app_nil_r.
  - intros Hne w'. subst w'.
    destruct (snoc_of_nonempty _ Hne) as (t & s & Ht).
    open_world w. simpl in Ht. subst. unfold copy_failure. simpl.
    destruct odf as [l|]; simpl.
    + destruct ao as [|[] [|[] [|[] [|[] ao]]]]; simpl; exec; crunch;
        unfold succeeds; simpl; rewrite ?last_snoc, <- ?app_assoc;
        first [by eauto | by split].
    + exec; crunch. by rewrite <- ?app_assoc.
  - intros Hne w'. subst w'.
    destruct (snoc_of_nonempty _ Hne) as (t & s & Ht).
    open_world w. simpl in Ht. subst. unfold copy_failure. simpl.
    destruct odf as [l|]; simpl.
    + destruct ao as [|[] [|[] [|[] [|[] ao]]]]; simpl; exec; crunch;
        unfold succeeds; simpl; rewrite ?last_snoc, <- ?app_assoc;
        first [by eauto | by split].
    + exec; crunch. by rewrite <- ?app_assoc.
  - intros Hmem [l Hl]. split; intros Hne;
      destruct (snoc_of_nonempty _ Hne) as (t & s & Ht);
      open_world w; simpl in Hl, Ht; subst.
    + by rewrite (undo_eq _ _ _ _ _ _ _ _ _ _ l).
    + by rewrite (redo_eq _ _ _ _ _ _ _ _ _ _ l).
Qed.

(** C8 on three sessions with one recorded edit: memory suffices and
    [undo()] returns [True]; the first copy of [undo()] fails; the copy
    made to restore fails.  Both failures end in the error box. *)
Lemma exceptions_never_reach_the_caller_witness :
  value_of (undo one_edit) = Some true /\
  (undo edited_out_of_memory
   = Normal false (state_of (undo edited_out_of_memory)) /\
   ui (state_of (undo edited_out_of_memory))
   = ui edited_out_of_memory
     ++ [Printed "Error during undo: ";
         CriticalBox "Undo Error" ("Failed to undo:" +:+ newline)]) /\
  (undo restore_out_of_memory
   = Normal false (state_of (undo restore_out_of_memory)) /\
   ui (state_of (undo restore_out_of_memory))
   = ui restore_out_of_memory
     ++ [Printed "Error during undo: ";
         CriticalBox "Undo Error" ("Failed to undo:" +:+ newline)]).
Proof.
  split; [|split].
  - destruct (exceptions_never_reach_the_caller one_edit "Edit")
      as (_ & _ & _ & _ & H).
    destruct H as [H _]; [vm_compute; constructor | vm_compute; by eexists |].
    apply H. vm_compute. discriminate.
  - destruct (exceptions_never_reach_the_caller edited_out_of_memory "Edit")
      as (_ & _ & H & _).
    apply H. vm_compute. discriminate.
  - destruct (exceptions_never_reach_the_caller restore_out_of_memory "Edit")
      as (_ & _ & H & _).
    apply H. vm_compute. discriminate.
Defined.

(** ** Empty stacks *)

(** C9: on an empty undo stack, for instance right after [clear()],
    [undo()] returns [False] without raising, and only posts the status
    message "Nothing to undo": the parent's attributes, both stacks and
    the object store are untouched.  [redo()] does the same on an empty
    redo stack. *)
Theorem undo_redo_on_empty_stack (w : World) :
  (undo_stack (manager w) = [] ->
   undo w = Normal false (emit (StatusMessage "Nothing to undo" 2000) w)) /\
  (redo_stack (manager w) = [] ->
   redo w = Normal false (emit (StatusMessage "Nothing to redo" 2000) w)) /\
  (let w0 := state_of (clear w) in
   undo w0 = Normal false (emit (StatusMessage "Nothing to undo" 2000) w0) /\
   redo w0 = Normal false (emit (StatusMessage "Nothing to redo" 2000) w0)) /\
  (forall e,
     parent (emit e w) = parent w /\ manager (emit e w) = manager w /\
     frames (emit e w) = frames w /\ dicts (emit e w) = dicts w /\
     document (emit e w) = document w).
Proof.
  split; [|split; [|split]].
  - intros H. open_world w. simpl in H. subst. reflexivity.
  - intros H. open_world w. simpl in H. subst. reflexivity.
  - open_world w. split; reflexivity.
  - intros e. open_world w. repeat split.
Qed.

Lemma undo_redo_on_empty_stack_witness :
  undo (init_world []) =
  Normal false (emit (StatusMessage "Nothing to undo" 2000) (init_world [])) /\
  redo (init_world []) =
  Normal false (emit (StatusMessage "Nothing to redo" 2000) (init_world [])).
Proof.
  destruct (undo_redo_on_empty_stack (init_world [])) as (Hu & Hr & _).
  split; [apply Hu | apply Hr]; reflexivity.
Defined.

(** ** The modified flag *)

(** C10: whenever [undo()] or [redo()] returns [True], the parent's
    [is_modified] flag is [True] afterwards, whatever was restored. *)
Theorem successful_undo_redo_set_modified (w : World) :
  (value_of (undo w) = Some true ->
   is_modified (parent (state_of (undo w))) = true) /\
  (value_of (redo w) = Some true ->
   is_modified (parent (state_of (redo w))) = true).
Proof.
  split; intros H; [by apply undo_true_inv | by apply redo_true_inv].
Qed.

(** An unmodified document whose last recorded state equals its content:
    the undo restores identical content and still sets the flag. *)
Lemma successful_undo_redo_set_modified_witness :
  let w := state_of (save_state "Edit" (loaded_world [])) in
  is_modified (parent w) = false /\
  document (state_of (undo w)) = document w /\
  is_modified (parent (state_of (undo w))) = true /\
  is_modified (parent (state_of (redo (state_of (undo w))))) = true.
Proof.
  cbv zeta. split; [reflexivity|]. split; [vm_compute; reflexivity|]. split.
  - apply (proj1 (successful_undo_redo_set_modified
                    (state_of (save_state "Edit" (loaded_world []))))).
    vm_compute. reflexivity.
  - apply (proj2 (successful_undo_redo_set_modified
                    (state_of (undo (state_of (save_state "Edit" (loaded_world []))))))).
    vm_compute. reflexivity.
Defined.

(** C6 on Scenario A: [save_state("baseline")] with table [[1, 2]], an
    in-place change to [[9, 2]], then [undo()]. *)
Lemma undo_restores_saved_state_witness :
  let w2 := apply_edits [EditFrame table_9_2]
              (state_of (save_state "baseline" (loaded_world []))) in
  doc_table (document w2) = Some table_9_2 /\
  value_of (undo w2) = Some true /\
  doc_table (document (state_of (undo w2))) = Some table_1_2 /\
  value_of (can_redo (state_of (undo w2))) = Some true.
Proof.
  cbv zeta. split; [reflexivity|].
  destruct (undo_restores_saved_state (loaded_world []) "baseline"
              [EditFrame table_9_2]) as (_ & Hv & Hd & Hr).
  - apply reachable_wf, loaded_world_reachable.
  - by eexists.
  - constructor.
  - by eexists.
  - split; [exact Hv|]. split; [|exact Hr].
    rewrite Hd. reflexivity.
Defined.

(** C1 on the same session. *)
Lemma undo_then_redo_restores_document_witness :
  let w := apply_edits [EditFrame table_9_2]
             (state_of (save_state "baseline" (loaded_world []))) in
  document (state_of (redo (state_of (undo w)))) = document w /\
  doc_table (document w) = Some table_9_2.
Proof.
  cbv zeta. split; [|reflexivity].
  apply (undo_then_redo_restores_document
           (apply_edits [EditFrame table_9_2]
              (state_of (save_state "baseline" (loaded_world []))))).
  - vm_compute. discriminate.
  - constructor.
Defined.

End UndoRedoFacts.

(** * Properties of the version store *)

Module AutoSaveFacts.
Import Py Table AutoSave.

(** ** Version file names *)

Lemma digit_inj (a b : Z) : digit a = digit b -> a mod 10 = b mod 10.
Proof.
  unfold digit. intros H. apply (f_equal Ascii.N_of_ascii) in H.
  pose proof (Z.mod_pos_bound a 10 ltac:(lia)).
  pose proof (Z.mod_pos_bound b 10 ltac:(lia)).
  rewrite !Ascii.N_ascii_embedding in H by lia. lia.
Qed.

Lemma pad2_inj (a b : Z) :
  0 <= a <= 99 -> 0 <= b <= 99 -> pad2 a = pad2 b -> a = b.
Proof.
  unfold pad2. intros Ha Hb H. injection H as H1 H2.
  apply digit_inj in H1, H2. Z.div_mod_to_equations. lia.
Qed.

Lemma pad4_inj (a b : Z) :
  0 <= a <= 9999 -> 0 <= b <= 9999 -> pad4 a = pad4 b -> a = b.
Proof.
  unfold pad4, pad2. intros Ha Hb H. injection H as H1 H2 H3 H4.
  apply digit_inj in H1, H2, H3, H4. Z.div_mod_to_equations. lia.
Qed.

(** The timestamp has fifteen characters; what follows it in a string
    is recovered with it. *)
Lemma strftime_app_inj (t1 t2 : DateTime) (x1 x2 : string) :
  valid_datetime t1 -> valid_datetime t2 ->
  strftime t1 +:+ x1 = strftime t2 +:+ x2 ->
  same_second t1 t2 /\ x1 = x2.
Proof.
  intros (Hy1 & Hm1 & Hd1 & Hh1 & Hi1 & Hs1 & _)
         (Hy2 & Hm2 & Hd2 & Hh2 & Hi2 & Hs2 & _) H.
  unfold strftime, pad4, pad2 in H. simpl in H.
  injection H as Ha Hb Hc Hd He Hf Hg Hh Hi Hj Hk Hl Hm Hn Hx.
  apply digit_inj in Ha, Hb, Hc, Hd, He, Hf, Hg, Hh, Hi, Hj, Hk, Hl, Hm, Hn.
  unfold same_second. repeat split; try exact Hx; Z.div_mod_to_equations; lia.
Qed.

Lemma strftime_same_second (t1 t2 : DateTime) :
  same_second t1 t2 -> strftime t1 = strftime t2.
Proof.
  intros (H1 & H2 & H3 & H4 & H5 & H6). unfold strftime. congruence.
Qed.

Lemma app_cons (x : ascii) (a b : string) : String x a +:+ b = String x (a +:+ b).
Proof. reflexivity. Qed.

Lemma app_empty_l (b : string) : EmptyString +:+ b = b.
Proof. reflexivity. Qed.

Lemma string_app_assoc (a b c : string) : (a +:+ b) +:+ c = a +:+ (b +:+ c).
Proof.
  induction a as [|x a IH]; [done|]. rewrite !app_cons. by f_equal.
Qed.

(** C7, as stated, fails: two different save events in the same second
    of the same day get the same version file name. *)
Lemma same_second_same_version_filename :
  let t1 := mkDateTime 2024 3 7 9 5 0 100000 in
  let t2 := mkDateTime 2024 3 7 9 5 0 900000 in
  valid_datetime t1 /\ valid_datetime t2 /\ t1 <> t2 /\
  version_filename "/home/u/book.csv" t1 = "book_v20240307_090500.csv" /\
  version_filename "/home/u/book.csv" t2 = "book_v20240307_090500.csv".
Proof.
  cbv zeta. unfold valid_datetime. simpl.
  repeat split; try lia; try reflexivity. discriminate.
Qed.

(** C7, amended: on the same bound file, two save events at valid local
    times get the same version file name exactly when they fall in the
    same second; events in different seconds get different names, of
    the form base_name ++ "_v" ++ YYYYMMDD_HHMMSS ++ ext. *)
Theorem version_filename_injective_up_to_second (p : string) (t1 t2 : DateTime) :
  valid_datetime t1 -> valid_datetime t2 ->
  (version_filename p t1 = version_filename p t2 <-> same_second t1 t2) /\
  version_filename p t1
  = (splitext (basename p)).1 +:+ "_v" +:+ strftime t1 +:+ (splitext (basename p)).2.
Proof.
  intros Hv1 Hv2. split; [|reflexivity]. unfold version_filename. split.
  - intros H. apply (inj (String.app _)) in H.
    apply (inj (String.app "_v")) in H.
    by destruct (strftime_app_inj _ _ _ _ Hv1 Hv2 H).
  - intros H. by rewrite (strftime_same_second _ _ H).
Qed.

(** ** The guard of the timer slot *)

(** C5: a timer tick with no document, with a clean document or with no
    bound path returns at the guard of [perform_auto_save]: the whole
    world, file system included, is unchanged, whatever the manager's
    [enabled] flag.  Hence a tick that changes the file system had a
    document, a set dirty flag and a bound path. *)
Theorem auto_save_guard (w : World) (now : DateTime) (s1 s2 : Stat) :
  (df (parent w) = None \/ is_modified (parent w) = false \/
   truthy (current_file_path (parent w)) = false ->
   perform_auto_save now s1 s2 w = Normal tt w) /\
  (fs (state_of (perform_auto_save now s1 s2 w)) <> fs w ->
   df (parent w) <> None /\ is_modified (parent w) = true /\
   truthy (current_file_path (parent w)) = true).
Proof.
  assert (df (parent w) = None \/ is_modified (parent w) = false \/
          truthy (current_file_path (parent w)) = false ->
          perform_auto_save now s1 s2 w = Normal tt w) as Hguard.
  { intros H. unfold perform_auto_save, try_except, bind, gets. simpl.
    destruct H as [H | [H | H]]; rewrite H; simpl.
    - reflexivity.
    - by rewrite andb_false_r.
    - by rewrite andb_false_r. }
  split; [exact Hguard|]. intros Hfs.
  destruct (df (parent w)) as [d|] eqn:Hd;
    [|by rewrite Hguard in Hfs by auto].
  destruct (is_modified (parent w)) eqn:Hm;
    [|by rewrite Hguard in Hfs by auto].
  destruct (truthy (current_file_path (parent w))) eqn:Ht;
    [|by rewrite Hguard in Hfs by auto].
  done.
Qed.

(** ** Paths into the version directory *)

Lemma substring_full (s : string) : String.substring 0 (String.length s) s = s.
Proof. induction s as [|a s IH]; simpl; [done | by rewrite IH]. Qed.

Lemma slice_from_0 (s : string) : slice_from 0 s = s.
Proof. unfold slice_from. rewrite Nat.sub_0_r. apply substring_full. Qed.

Lemma slice_from_cons (n : nat) (a : ascii) (s : string) :
  slice_from (S n) (String a s) = slice_from n s.
Proof. reflexivity. Qed.

Lemma length_app_string (a b : string) :
  String.length (a +:+ b) = (String.length a + String.length b)%nat.
Proof. induction a as [|x a IH]; [done|]. rewrite app_cons. simpl. by rewrite IH. Qed.

Lemma slice_from_app (pre x : string) :
  slice_from (String.length pre) (pre +:+ x) = x.
Proof.
  induction pre as [|a pre IH]; [apply slice_from_0|].
  rewrite app_cons. simpl String.length. by rewrite slice_from_cons.
Qed.

Lemma prefix_app (pre x : string) : String.prefix pre (pre +:+ x) = true.
Proof.
  induction pre as [|a pre IH]; [by destruct x|].
  rewrite app_cons. simpl. by destruct (ascii_dec a a).
Qed.

Lemma prefix_split (pre p : string) :
  String.prefix pre p = true ->
  p = pre +:+ slice_from (String.length pre) p.
Proof.
  revert p. induction pre as [|a pre IH]; intros p H.
  - by rewrite app_empty_l, slice_from_0.
  - destruct p as [|b p]; [done|]. simpl in H.
    destruct (ascii_dec a b) as [->|]; [|done].
    rewrite app_cons. simpl String.length. rewrite slice_from_cons.
    f_equal. by apply IH.
Qed.

Lemma contains_app (c : ascii) (a b : string) :
  contains c (a +:+ b) = contains c a || contains c b.
Proof.
  induction a as [|x a IH]; [done|]. rewrite app_cons. simpl.
  by rewrite IH, orb_assoc.
Qed.

Lemma contains_substring (c : ascii) (s : string) (n m : nat) :
  contains c s = false -> contains c (String.substring n m s) = false.
Proof.
  revert n m. induction s as [|a s IH]; intros n m H.
  - by destruct n, m.
  - simpl in H. apply orb_false_elim in H as [Ha Hs].
    destruct n as [|n]; simpl.
    + destruct m as [|m]; [done|]. simpl. rewrite Ha. by apply IH.
    + by apply IH.
Qed.

Lemma rfind_from_spec (c : ascii) (s : string) (i f : Z) :
  (rfind_from c s i f = f /\ contains c s = false) \/
  (exists k : nat, rfind_from c s i f = i + Z.of_nat k /\
     contains c (slice_from (S k) s) = false).
Proof.
  revert i f. induction s as [|a s IH]; intros i f; [by left|].
  simpl. destruct (IH (i + 1) (if Ascii.eqb a c then i else f))
    as [[Hr Hc] | (k & Hr & Hc)].
  - destruct (Ascii.eqb a c) eqn:E.
    + right. exists 0%nat. rewrite Hr. split; [lia|].
      by rewrite slice_from_cons, slice_from_0.
    + left. by rewrite Hr, Hc.
  - right. exists (S k). rewrite Hr. split; [lia|].
    by rewrite slice_from_cons.
Qed.

Lemma basename_no_slash (p : string) : contains "/" (basename p) = false.
Proof.
  unfold basename, rfind.
  destruct (rfind_from_spec "/" p 0 (-1)) as [[-> Hc] | (k & -> & Hc)].
  - simpl. by rewrite slice_from_0.
  - replace (Z.to_nat (0 + Z.of_nat k + 1)) with (S k) by lia. done.
Qed.

Lemma splitext_no_slash (b : string) :
  contains "/" b = false ->
  contains "/" (splitext b).1 = false /\ contains "/" (splitext b).2 = false.
Proof.
  intros H. unfold splitext, slice_to, slice_from.
  repeat case_match; simpl; auto using contains_substring.
Qed.

Lemma digit_not_slash (n : Z) : Ascii.eqb (digit n) "/" = false.
Proof.
  apply Ascii.eqb_neq. intros H. unfold digit in H.
  apply (f_equal Ascii.N_of_ascii) in H.
  pose proof (Z.mod_pos_bound n 10 ltac:(lia)).
  rewrite Ascii.N_ascii_embedding in H by lia. simpl in H. lia.
Qed.

Lemma strftime_no_slash (t : DateTime) : contains "/" (strftime t) = false.
Proof.
  unfold strftime, pad4, pad2. rewrite !contains_app. simpl.
  by rewrite !digit_not_slash.
Qed.

Lemma version_filename_no_slash (p : string) (t : DateTime) :
  contains "/" (version_filename p t) = false.
Proof.
  unfold version_filename. rewrite !contains_app.
  destruct (splitext_no_slash _ (basename_no_slash p)) as [-> ->].
  by rewrite strftime_no_slash.
Qed.

Lemma app_eq_empty (a b : string) : a +:+ b = EmptyString -> b = EmptyString.
Proof. destruct a; [done | discriminate]. Qed.

Lemma version_filename_nonempty (p : string) (t : DateTime) :
  version_filename p t <> EmptyString.
Proof.
  unfold version_filename. intros H. apply app_eq_empty in H. discriminate.
Qed.

Lemma version_filename_startswith (p : string) (t : DateTime) :
  startswith (version_filename p t) ((splitext (basename p)).1 +:+ "_v") = true.
Proof.
  unfold startswith, version_filename. rewrite <- string_app_assoc.
  apply prefix_app.
Qed.

Lemma prefix_cons (a b : ascii) (s1 s2 : string) :
  String.prefix (String a s1) (String b s2)
  = if ascii_dec a b then String.prefix s1 s2 else false.
Proof. reflexivity. Qed.

Lemma startswith_slash (f : string) :
  contains "/" f = false -> startswith f "/" = false.
Proof.
  destruct f as [|a f]; [done|]. intros H. simpl in H.
  apply orb_false_elim in H as [Ha _]. apply Ascii.eqb_neq in Ha.
  unfold startswith. rewrite prefix_cons.
  destruct (ascii_dec "/" a); [congruence | done].
Qed.

Lemma join_plain (d f : string) :
  dir_ok d -> contains "/" f = false -> join d f = d +:+ "/" +:+ f.
Proof.
  intros [Hd He] Hf. unfold join. rewrite (startswith_slash f Hf), He.
  apply String.eqb_neq in Hd. by rewrite Hd.
Qed.

Lemma child_name_join (d f : string) :
  dir_ok d -> contains "/" f = false -> f <> EmptyString ->
  child_name d (join d f) = Some f.
Proof.
  intros Hd Hf Hne. rewrite join_plain by done. unfold child_name, startswith.
  rewrite <- string_app_assoc, prefix_app, slice_from_app, Hf.
  apply String.eqb_neq in Hne. by rewrite Hne.
Qed.

Lemma join_child_name (d p f : string) :
  dir_ok d -> child_name d p = Some f ->
  join d f = p /\ contains "/" f = false /\ f <> EmptyString.
Proof.
  intros Hd H. unfold child_name, startswith in H.
  destruct (String.prefix (d +:+ "/") p) eqn:Hp; [|done].
  destruct (contains "/" (slice_from (String.length (d +:+ "/")) p)) eqn:Hc;
    [done|].
  destruct (String.eqb_spec (slice_from (String.length (d +:+ "/")) p) EmptyString)
    as [|Hne]; [done|].
  simpl in H. injection H as <-. split; [|done].
  rewrite join_plain by done. rewrite <- string_app_assoc.
  symmetry. by apply prefix_split.
Qed.

Lemma last_char_app (x y : string) :
  y <> EmptyString ->
  String.substring (String.length (x +:+ y) - 1) 1 (x +:+ y)
  = String.substring (String.length y - 1) 1 y.
Proof.
  intros Hy. induction x as [|a x IH]; [done|].
  rewrite app_cons. simpl String.length.
  assert (String.length (x +:+ y) <> 0)%nat as Hlen.
  { rewrite length_app_string. destruct y; [done | simpl; lia]. }
  replace (S (String.length (x +:+ y)) - 1)%nat
    with (S (String.length (x +:+ y) - 1)) by lia.
  exact IH.
Qed.

Lemma endswith_app (x y : string) :
  y <> EmptyString -> endswith (x +:+ y) "/" = endswith y "/".
Proof.
  intros Hy. unfold endswith. rewrite last_char_app by done.
  rewrite length_app_string. simpl String.length.
  destruct y as [|b y]; [done|]. simpl String.length.
  replace (1 <=? String.length x + S (String.length y))%nat with true
    by (symmetry; apply Nat.leb_le; lia).
  done.
Qed.

(** The directory that [__init__] computes is one that [os.path.join]
    extends with a separator, whatever the home directory; and
    [update_settings] keeps it. *)
Lemma init_manager_dir_ok (home : string) (s : gmap string QVariant) :
  dir_ok (version_dir (init_manager home s)).
Proof.
  unfold init_manager, join. simpl version_dir.
  replace (startswith ".excel_editor_versions" "/") with false by reflexivity.
  destruct (String.eqb home EmptyString || endswith home "/"); split.
  - intros H. by apply app_eq_empty in H.
  - by rewrite endswith_app.
  - intros H. apply app_eq_empty in H. by apply app_eq_empty in H.
  - rewrite <- string_app_assoc. by rewrite endswith_app.
Qed.

Lemma update_settings_version_dir (en : bool) (iv keep : Z) (w : World) :
  version_dir (manager (state_of (update_settings en iv keep w)))
  = version_dir (manager w) /\
  keep_versions (manager (state_of (update_settings en iv keep w))) = keep /\
  fs (state_of (update_settings en iv keep w)) = fs w.
Proof. by destruct w. Qed.

(** ** Listing the version directory *)

Ltac as_simpl :=
  unfold bind, gets, modify, ret, raise, upd_parent, upd_manager, upd_fs,
    upd_settings, set_dialogs, emit, set_is_modified, set_current_file_path;
  simpl.

Lemma version_name_join (dir pre p f : string) :
  dir_ok dir -> version_name dir pre p = Some f ->
  child_name dir p = Some f /\ startswith f pre = true /\ join dir f = p.
Proof.
  intros Hd H. unfold version_name in H.
  destruct (child_name dir p) as [g|] eqn:Hc; [|done].
  destruct (startswith g pre) eqn:Hs; [|done]. injection H as ->.
  split; [done|]. split; [done|]. by apply (join_child_name dir p f Hd).
Qed.

(** The loop of [get_versions] computes [records_in]. *)
Lemma collect_records_eq (tz : TimeZone) (dir pre : string) (w : World)
    (l : list (string * File)) :
  dir_ok dir ->
  (forall e, e ∈ l -> fs w !! e.1 = Some e.2) ->
  collect_records tz dir pre (omap (fun e => child_name dir e.1) l) w
  = Normal
      (map (record_for tz)
         (omap (fun e =>
                  match version_name dir pre e.1 with
                  | Some f => Some (f, e)
                  | None => None
                  end) l)) w.
Proof.
  intros Hd. induction l as [|[p file] l IH]; intros Hl; [done|].
  assert (forall e, e ∈ l -> fs w !! e.1 = Some e.2) as Hl'.
  { intros e He. apply Hl. by right. }
  specialize (IH Hl'). simpl. unfold version_name.
  destruct (child_name dir p) as [f|] eqn:Hc; simpl; [|exact IH].
  destruct (startswith f pre) eqn:Hs; [|exact IH].
  destruct (join_child_name dir p f Hd Hc) as (Hj & _ & _).
  pose proof (Hl (p, file) ltac:(left)) as Hp. simpl in Hp.
  unfold getmtime, getsize. as_simpl. rewrite Hj.
  repeat (rewrite Hp; simpl). unfold omap in IH. by rewrite IH.
Qed.

(** The loop of [cleanup_old_versions] computes [versions_in]. *)
Lemma collect_versions_eq (dir pre : string) (w : World) (l : list (string * File)) :
  dir_ok dir ->
  (forall e, e ∈ l -> fs w !! e.1 = Some e.2) ->
  collect_versions dir pre (omap (fun e => child_name dir e.1) l) w
  = Normal
      (map tuple_for
         (omap (fun e =>
                  match version_name dir pre e.1 with
                  | Some f => Some (f, e)
                  | None => None
                  end) l)) w.
Proof.
  intros Hd. induction l as [|[p file] l IH]; intros Hl; [done|].
  assert (forall e, e ∈ l -> fs w !! e.1 = Some e.2) as Hl'.
  { intros e He. apply Hl. by right. }
  specialize (IH Hl'). simpl. unfold version_name.
  destruct (child_name dir p) as [f|] eqn:Hc; simpl; [|exact IH].
  destruct (startswith f pre) eqn:Hs; [|exact IH].
  destruct (join_child_name dir p f Hd Hc) as (Hj & _ & _).
  pose proof (Hl (p, file) ltac:(left)) as Hp. simpl in Hp.
  unfold getmtime. as_simpl. rewrite Hj.
  repeat (rewrite Hp; simpl). unfold omap in IH. by rewrite IH.
Qed.

Lemma map_to_list_lookup (m : gmap string File) (e : string * File) :
  e ∈ map_to_list m -> m !! e.1 = Some e.2.
Proof. destruct e as [p f]. apply elem_of_map_to_list. Qed.

Lemma listdir_collect_records (tz : TimeZone) (dir pre : string) (w : World) :
  dir_ok dir ->
  (let* names := listdir dir in collect_records tz dir pre names) w
  = Normal (records_in tz dir pre (fs w)) w.
Proof.
  intros Hd. unfold listdir. as_simpl.
  apply collect_records_eq; [done|]. intros e. apply map_to_list_lookup.
Qed.

Lemma listdir_collect_versions (dir pre : string) (w : World) :
  dir_ok dir ->
  (let* names := listdir dir in collect_versions dir pre names) w
  = Normal (versions_in dir pre (fs w)) w.
Proof.
  intros Hd. unfold listdir. as_simpl.
  apply collect_versions_eq; [done|]. intros e. apply map_to_list_lookup.
Qed.

(** Membership in the listing, and its paths are pairwise distinct. *)
Lemma elem_of_listed (dir pre : string) (m : gmap string File)
    (v : string * (string * File)) :
  v ∈ listed dir pre m <->
  m !! v.2.1 = Some v.2.2 /\ version_name dir pre v.2.1 = Some v.1.
Proof.
  unfold listed. rewrite list_elem_of_omap. split.
  - intros ([p file] & Hin & H). simpl in H.
    destruct (version_name dir pre p) as [f|] eqn:Hv; [|done].
    injection H as <-. simpl. by apply elem_of_map_to_list in Hin.
  - destruct v as [f [p file]]. simpl. intros [Hl Hv]. exists (p, file). split.
    + by apply elem_of_map_to_list.
    + simpl. by rewrite Hv.
Qed.

Lemma NoDup_listed_paths (dir pre : string) (m : gmap string File) :
  NoDup (map (fun v => v.2.1) (listed dir pre m)).
Proof.
  unfold listed. pose proof (NoDup_fst_map_to_list m) as Hnd.
  induction (map_to_list m) as [|[p file] l IH]; [constructor|].
  simpl in Hnd. apply NoDup_cons in Hnd as [Hp Hnd]. specialize (IH Hnd).
  simpl. destruct (version_name dir pre p) as [f|]; [|exact IH].
  simpl. apply NoDup_cons. split; [|exact IH].
  intros Hin. apply Hp. apply list_elem_of_fmap in Hin as (r & Hr & Hin).
  apply list_elem_of_omap in Hin as ([q file'] & Hq & H). simpl in H.
  destruct (version_name dir pre q); [|done]. injection H as <-.
  simpl in Hr. subst. apply list_elem_of_fmap. by exists (q, file').
Qed.

Lemma elem_of_records_in (tz : TimeZone) (dir pre : string) (m : gmap string File)
    (r : VersionRecord) :
  r ∈ records_in tz dir pre m <->
  exists file, m !! path r = Some file /\
    version_name dir pre (path r) = Some (filename r) /\
    modified r = tz (mtime file) /\ vsize r = size file.
Proof.
  unfold records_in. rewrite list_elem_of_fmap. split.
  - intros (v & -> & Hv). apply elem_of_listed in Hv as [Hl Hv].
    exists v.2.2. by simpl.
  - intros (file & Hl & Hv & Hm & Hs). exists (filename r, (path r, file)).
    split.
    + destruct r. unfold record_for. simpl in *. congruence.
    + by apply elem_of_listed.
Qed.

Lemma NoDup_records_paths (tz : TimeZone) (dir pre : string) (m : gmap string File) :
  NoDup (map path (records_in tz dir pre m)).
Proof.
  unfold records_in. rewrite map_map. simpl. apply NoDup_listed_paths.
Qed.

Lemma NoDup_records_in (tz : TimeZone) (dir pre : string) (m : gmap string File) :
  NoDup (records_in tz dir pre m).
Proof.
  eapply (NoDup_fmap_1 path). apply NoDup_records_paths.
Qed.

Lemma NoDup_versions_paths (dir pre : string) (m : gmap string File) :
  NoDup (map snd (versions_in dir pre m)).
Proof.
  unfold versions_in. rewrite map_map. simpl. apply NoDup_listed_paths.
Qed.

Lemma elem_of_versions_in (dir pre : string) (m : gmap string File) (x : Z * string) :
  x ∈ versions_in dir pre m <->
  exists file f, m !! x.2 = Some file /\
    version_name dir pre x.2 = Some f /\ x.1 = mtime file.
Proof.
  unfold versions_in. rewrite list_elem_of_fmap. split.
  - intros (v & -> & Hv). apply elem_of_listed in Hv as [Hl Hv].
    exists v.2.2, v.1. by simpl.
  - intros (file & f & Hl & Hv & Hm). exists (f, (x.2, file)). split.
    + destruct x. unfold tuple_for. simpl in *. by subst.
    + by apply elem_of_listed.
Qed.

(** The records are those of the tuples, file by file. *)
Lemma records_of_versions (tz : TimeZone) (dir pre : string) (m : gmap string File) :
  map (fun r => path r) (records_in tz dir pre m)
  = map snd (versions_in dir pre m).
Proof. unfold records_in, versions_in. by rewrite !map_map. Qed.

(** ** Sorting *)

#[local] Instance tuple_le_dec : RelDecision tuple_le.
Proof. intros x y. unfold tuple_le. apply _. Defined.

Lemma tuple_le_iff (x y : Z * string) :
  tuple_le x y <-> x.1 < y.1 \/ (x.1 = y.1 /\ String.le x.2 y.2).
Proof.
  unfold tuple_le, tuple_leb, String.le.
  rewrite orb_true_iff, andb_true_iff, Z.ltb_lt, Z.eqb_eq.
  by rewrite Is_true_true.
Qed.

#[local] Instance tuple_le_trans : Transitive tuple_le.
Proof.
  intros x y z. rewrite !tuple_le_iff. intros [H1|[H1 H1']] [H2|[H2 H2']].
  - left. lia.
  - left. lia.
  - left. lia.
  - right. split; [lia|]. by etrans.
Qed.

#[local] Instance tuple_le_total : Total tuple_le.
Proof.
  intros x y. rewrite !tuple_le_iff.
  destruct (Z.lt_trichotomy x.1 y.1) as [?|[?|?]]; [by left; left | | by right; left].
  destruct (total String.le x.2 y.2); [left|right]; right; by split.
Qed.

#[local] Instance tuple_le_antisym : AntiSymm (=) tuple_le.
Proof.
  intros [a x] [b y]. rewrite !tuple_le_iff. simpl.
  intros [H1|[H1 H1']] [H2|[H2 H2']]; try lia.
  f_equal; [done|]. by apply (anti_symm String.le).
Qed.

Section sort.
Context {A : Type} (leb : A -> A -> bool).
Let R (x y : A) : Prop := leb x y = true.
Hypothesis R_total : forall x y, R x y \/ R y x.
Hypothesis R_trans : forall x y z, R x y -> R y z -> R x z.

Lemma insert_sorted_perm (x : A) (l : list A) :
  insert_sorted leb x l ≡ₚ x :: l.
Proof.
  induction l as [|y l IH]; [done|]. simpl. destruct (leb x y); [done|].
  rewrite IH. apply Permutation_swap.
Qed.

Lemma sort_perm (l : list A) : sort leb l ≡ₚ l.
Proof.
  induction l as [|x l IH]; [done|]. simpl.
  rewrite insert_sorted_perm. by rewrite IH.
Qed.

Lemma insert_sorted_sorted (x : A) (l : list A) :
  StronglySorted R l -> StronglySorted R (insert_sorted leb x l).
Proof.
  induction l as [|y l IH]; intros Hs; simpl.
  - repeat constructor.
  - apply StronglySorted_inv in Hs as [Hs Hy].
    destruct (leb x y) eqn:E.
    + constructor; [by constructor|]. constructor; [done|].
      eapply Forall_impl; [exact Hy|]. intros z Hz. by eapply R_trans.
    + constructor; [by apply IH|].
      rewrite insert_sorted_perm. constructor; [|done].
      destruct (R_total x y) as [H|H]; [unfold R in H; congruence | done].
Qed.

Lemma sort_sorted (l : list A) : StronglySorted R (sort leb l).
Proof.
  induction l as [|x l IH]; [constructor|]. simpl.
  by apply insert_sorted_sorted.
Qed.

(** A sorted list is left as it is. *)
Lemma sort_of_sorted (l : list A) : StronglySorted R l -> sort leb l = l.
Proof.
  induction l as [|x l IH]; intros Hs; [done|].
  apply StronglySorted_inv in Hs as [Hs Hx]. simpl. rewrite IH by done.
  destruct l as [|y l]; [done|]. simpl.
  apply Forall_cons in Hx as [Hxy _]. unfold R in Hxy. by rewrite Hxy.
Qed.
End sort.

(** ** Removing the oldest versions *)

Lemma lookup_remove_paths (ps : list string) (m : gmap string File) (p : string) :
  remove_paths ps m !! p = if decide (p ∈ ps) then None else m !! p.
Proof.
  revert m. induction ps as [|q ps IH]; intros m.
  - rewrite decide_False; [done|]. apply not_elem_of_nil.
  - unfold remove_paths in *. simpl. rewrite IH.
    destruct (decide (p ∈ ps)) as [Hin|Hnin].
    + rewrite decide_True; [done|]. by right.
    + destruct (decide (p = q)) as [->|Hne].
      * rewrite decide_True by left. apply lookup_delete_eq.
      * rewrite decide_False; [by apply lookup_delete_ne|].
        intros [?|?]%elem_of_cons; done.
Qed.

Lemma upd_fs_id (w : World) : upd_fs (fun m => m) w = w.
Proof. by destruct w. Qed.

Lemma upd_fs_upd_fs (f g : gmap string File -> gmap string File) (w : World) :
  upd_fs g (upd_fs f w) = upd_fs (fun m => g (f m)) w.
Proof. by destruct w. Qed.

Lemma remove_oldest_eq (K : Z) (S : list (Z * string)) (w : World) :
  0 <= K -> NoDup (map snd S) ->
  (forall x, x ∈ S -> exists file, fs w !! x.2 = Some file /\ locked file = false) ->
  remove_oldest K S w
  = Normal tt
      (upd_fs (remove_paths (map snd (take (length S - Z.to_nat K) S))) w).
Proof.
  intros HK. revert w. induction S as [|[m0 p0] S IH]; intros w Hnd Hex.
  - simpl. destruct (Z.gtb_spec (Z.of_nat 0) K); [lia|]. by destruct w.
  - cbn [remove_oldest]. destruct (Z.gtb_spec (Z.of_nat (length ((m0, p0) :: S))) K)
      as [Hgt|Hle]; cbn [length] in *.
    + destruct (Hex (m0, p0) ltac:(left)) as (file & Hf & Hlk). simpl in Hf.
      simpl in Hnd. apply NoDup_cons in Hnd as [Hp0 Hnd].
      unfold try_pass, os_remove. as_simpl. rewrite Hf, Hlk.
      rewrite IH; [| done |].
      * replace (Datatypes.S (length S) - Z.to_nat K)%nat
          with (Datatypes.S (length S - Z.to_nat K)) by lia.
        by destruct w.
      * intros x Hx. destruct (Hex x ltac:(by right)) as (fx & Hfx & Hlx).
        exists fx. split; [|done]. simpl. rewrite lookup_delete_ne; [done|].
        intros ->. apply Hp0. apply list_elem_of_fmap. by exists x.
    + replace (Datatypes.S (length S) - Z.to_nat K)%nat with 0%nat by lia.
      by destruct w.
Qed.

Lemma tuple_leb_total (x y : Z * string) :
  tuple_leb x y = true \/ tuple_leb y x = true.
Proof. apply (total tuple_le). Qed.

Lemma tuple_leb_trans (x y z : Z * string) :
  tuple_leb x y = true -> tuple_leb y z = true -> tuple_leb x z = true.
Proof. apply (transitivity (R := tuple_le)). Qed.

Lemma sorted_versions_perm (dir pre : string) (m : gmap string File) :
  sort tuple_leb (versions_in dir pre m) ≡ₚ versions_in dir pre m.
Proof. apply sort_perm. Qed.

Lemma cleanup_old_versions_eq (base : string) (w : World) :
  dir_ok (version_dir (manager w)) ->
  0 <= keep_versions (manager w) ->
  deletions_succeed (version_dir (manager w)) (base +:+ "_v") (fs w) ->
  cleanup_old_versions base w
  = Normal tt
      (upd_fs (after_cleanup (version_dir (manager w)) (base +:+ "_v")
                 (keep_versions (manager w))) w).
Proof.
  intros Hd HK Hdel.
  unfold cleanup_old_versions, try_except, listdir, bind, gets.
  rewrite collect_versions_eq; [|done|intros e; apply map_to_list_lookup].
  change (map tuple_for (omap _ (map_to_list (fs w))))
    with (versions_in (version_dir (manager w)) (base +:+ "_v") (fs w)).
  rewrite remove_oldest_eq; [destruct w; reflexivity | done | |].
  - rewrite sorted_versions_perm. apply NoDup_versions_paths.
  - intros x Hx. rewrite sorted_versions_perm in Hx.
    apply elem_of_versions_in in Hx as (file & f & Hl & Hv & _).
    exists file. split; [done|]. by eapply Hdel.
Qed.

Lemma elem_of_drop_by_key (k : nat) (S : list (Z * string)) (x : Z * string) :
  NoDup (map snd S) ->
  x ∈ drop k S <-> x ∈ S /\ x.2 ∉ map snd (take k S).
Proof.
  intros Hnd. rewrite <- (take_drop k S) in Hnd at 1.
  rewrite map_app in Hnd. apply NoDup_app in Hnd as (_ & Hdis & _).
  split.
  - intros Hx. split.
    + rewrite <- (take_drop k S). set_solver.
    + intros Hin. apply (Hdis _ Hin). apply list_elem_of_fmap. by exists x.
  - intros [Hx Hnin]. rewrite <- (take_drop k S) in Hx.
    apply elem_of_app in Hx as [Hx|Hx]; [|done].
    exfalso. apply Hnin. apply list_elem_of_fmap. by exists x.
Qed.

Lemma NoDup_versions_in (dir pre : string) (m : gmap string File) :
  NoDup (versions_in dir pre m).
Proof. eapply (NoDup_fmap_1 snd). apply NoDup_versions_paths. Qed.

Lemma NoDup_sorted_paths (dir pre : string) (m : gmap string File) :
  NoDup (map snd (sort tuple_leb (versions_in dir pre m))).
Proof. rewrite sorted_versions_perm. apply NoDup_versions_paths. Qed.

(** What is listed after the cleanup is what the sorted list keeps. *)
Lemma versions_after_cleanup (dir pre : string) (keep : Z) (m : gmap string File) :
  versions_in dir pre (after_cleanup dir pre keep m)
  ≡ₚ kept_by_cleanup dir pre keep m.
Proof.
  apply NoDup_Permutation.
  - apply NoDup_versions_in.
  - unfold kept_by_cleanup. cbv zeta. eapply (NoDup_fmap_1 snd).
    pose proof (NoDup_sorted_paths dir pre m) as Hnd.
    rewrite <- (take_drop (length (sort tuple_leb (versions_in dir pre m))
                             - Z.to_nat keep)
                  (sort tuple_leb (versions_in dir pre m))) in Hnd.
    rewrite map_app in Hnd. by apply NoDup_app in Hnd as (_ & _ & ?).
  - intros x. unfold kept_by_cleanup, after_cleanup, removed_by_cleanup.
    cbv zeta. set (S := sort tuple_leb (versions_in dir pre m)).
    rewrite elem_of_drop_by_key by apply NoDup_sorted_paths.
    assert (x ∈ S <-> x ∈ versions_in dir pre m) as ->
      by (unfold S; by rewrite sorted_versions_perm).
    rewrite !elem_of_versions_in.
    split.
    + intros (file & f & Hl & Hv & Hm). rewrite lookup_remove_paths in Hl.
      case_decide; [done|]. split; [|done]. by exists file, f.
    + intros [(file & f & Hl & Hv & Hm) Hnin]. exists file, f.
      rewrite lookup_remove_paths. by rewrite decide_False.
Qed.

Lemma length_kept_by_cleanup (dir pre : string) (keep : Z) (m : gmap string File) :
  0 <= keep ->
  length (kept_by_cleanup dir pre keep m)
  = (length (versions_in dir pre m) `min` Z.to_nat keep)%nat.
Proof.
  intros HK. unfold kept_by_cleanup. cbv zeta. rewrite length_drop.
  rewrite (Permutation_length (sorted_versions_perm dir pre m)). lia.
Qed.

(** Every removed version is older than every kept one, in the order of
    the tuples [(mtime, full_path)]. *)
Lemma removed_before_kept (dir pre : string) (keep : Z) (m : gmap string File)
    (x y : Z * string) :
  x ∈ removed_by_cleanup dir pre keep m -> y ∈ kept_by_cleanup dir pre keep m ->
  tuple_leb x y = true.
Proof.
  unfold removed_by_cleanup, kept_by_cleanup. cbv zeta. intros Hx Hy.
  pose proof (sort_sorted tuple_leb tuple_leb_total tuple_leb_trans
                (versions_in dir pre m)) as Hs.
  rewrite <- (take_drop (length (sort tuple_leb (versions_in dir pre m))
                           - Z.to_nat keep)
                (sort tuple_leb (versions_in dir pre m))) in Hs.
  by eapply (StronglySorted_app_1_elem_of _ _ _ x y) in Hs.
Qed.

(** The cleanup touches version files of that prefix only. *)
Lemma cleanup_other_files (dir pre : string) (keep : Z) (m : gmap string File)
    (p : string) :
  version_name dir pre p = None -> after_cleanup dir pre keep m !! p = m !! p.
Proof.
  intros Hv. unfold after_cleanup. rewrite lookup_remove_paths.
  case_decide as Hin; [|done]. exfalso.
  apply list_elem_of_fmap in Hin as (x & -> & Hx).
  unfold removed_by_cleanup in Hx. cbv zeta in Hx.
  apply elem_of_take in Hx as (i & Hx & _).
  apply list_elem_of_lookup_2 in Hx. rewrite sorted_versions_perm in Hx.
  apply elem_of_versions_in in Hx as (file & f & _ & Hv' & _). congruence.
Qed.

(** ** One call of [save_version] *)

Lemma app_nonempty_l (a b : string) : a <> EmptyString -> a +:+ b <> EmptyString.
Proof. by destruct a. Qed.

Lemma version_path_nonempty (dir p : string) (t : DateTime) :
  dir_ok dir -> join dir (version_filename p t) <> EmptyString.
Proof.
  intros Hd. rewrite join_plain by (done || apply version_filename_no_slash).
  apply app_nonempty_l. apply Hd.
Qed.

Lemma version_path_is_version (dir p : string) (t : DateTime) :
  dir_ok dir ->
  version_name dir (version_prefix p) (join dir (version_filename p t))
  = Some (version_filename p t).
Proof.
  intros Hd. unfold version_name.
  rewrite child_name_join
    by (done || apply version_filename_no_slash || apply version_filename_nonempty).
  unfold version_prefix. by rewrite version_filename_startswith.
Qed.

Lemma deletions_succeed_insert (dir pre : string) (m : gmap string File)
    (p : string) (file : File) :
  deletions_succeed dir pre m -> locked file = false ->
  deletions_succeed dir pre (<[p := file]> m).
Proof.
  intros Hdel Hf q f g Hq Hv. destruct (decide (p = q)) as [->|Hne].
  - rewrite lookup_insert_eq in Hq. by injection Hq as <-.
  - rewrite lookup_insert_ne in Hq by done. by eapply Hdel.
Qed.

Lemma save_version_eq (w : World) (now : DateTime) (st : Stat)
    (p : string) (d : DataFrame) :
  let dir := version_dir (manager w) in
  let vp := join dir (version_filename p now) in
  current_file_path (parent w) = Some p -> p <> EmptyString ->
  df (parent w) = Some d ->
  dir_ok dir -> 0 <= keep_versions (manager w) ->
  version_writer p vp = true ->
  deletions_succeed dir (version_prefix p) (fs w) ->
  save_version now st w
  = Normal tt
      (upd_fs (fun m =>
         after_cleanup dir (version_prefix p) (keep_versions (manager w))
           (<[vp := version_file p (include_index_cb (parent w)) d st]> m)) w).
Proof.
  intros dir vp Hp Hne Hd Hdir HK Hwr Hdel.
  assert (forall file, fs w !! vp = Some file -> locked file = false) as Hvp.
  { intros file Hf. eapply Hdel; [exact Hf|]. by apply version_path_is_version. }
  unfold save_version, try_except. unfold bind at 1. unfold gets at 1.
  rewrite Hp. unfold truthy. apply String.eqb_neq in Hne. rewrite Hne. simpl.
  unfold bind at 1. unfold gets at 1. fold dir. fold vp.
  set (newfile := version_file p (include_index_cb (parent w)) d st).
  assert ((if endswith p ".csv"
           then df_to_csv vp (include_index_cb (parent w)) st
           else df_to_excel vp (include_index_cb (parent w)) None st) w
          = Normal tt (upd_fs (<[vp := newfile]>) w)) as Hwrite.
  { pose proof (version_path_nonempty dir p now Hdir) as Hvne.
    apply String.eqb_neq in Hvne. fold vp in Hvne.
    unfold version_writer in Hwr.
    unfold newfile, version_file, df_to_csv, df_to_excel, write_file.
    destruct (endswith p ".csv"); simpl in Hwr; as_simpl;
      rewrite Hd, ?Hwr, Hvne;
      destruct (fs w !! vp) as [file|] eqn:Hf; try done;
      by rewrite (Hvp file). }
  unfold bind at 1. rewrite Hwrite.
  rewrite cleanup_old_versions_eq.
  - by destruct w.
  - by destruct w.
  - by destruct w.
  - destruct w. simpl in *. by apply deletions_succeed_insert.
Qed.

(** When pandas finds no writer for the version path, [save_version]
    writes nothing, skips the cleanup and prints the error. *)
Lemma save_version_refused (w : World) (now : DateTime) (st : Stat)
    (p : string) (d : DataFrame) :
  let vp := join (version_dir (manager w)) (version_filename p now) in
  current_file_path (parent w) = Some p -> p <> EmptyString ->
  df (parent w) = Some d ->
  version_writer p vp = false ->
  save_version now st w
  = Normal tt
      (emit (Printed ("Error saving version: " +:+ no_writer None vp)) w).
Proof.
  intros vp Hp Hne Hd Hwr.
  unfold save_version, try_except. unfold bind at 1. unfold gets at 1.
  rewrite Hp. unfold truthy. apply String.eqb_neq in Hne. rewrite Hne. simpl.
  unfold bind at 1. unfold gets at 1. fold vp.
  unfold version_writer in Hwr. apply orb_false_iff in Hwr as [-> Hwr].
  unfold bind at 1. unfold df_to_excel. unfold bind at 1. unfold gets at 1.
  rewrite Hd, Hwr. reflexivity.
Qed.

(** C4, first half, for one call: after a [save_version] that writes
    its file, at most [keep_versions] version files of that base name are
    listed; they are the newest of those present right after the write,
    every removed one being older than every kept one; files that are not
    versions of that base name are untouched by the cleanup. *)
Lemma save_version_retention (w : World) (now : DateTime) (st : Stat)
    (p : string) (d : DataFrame) :
  let dir := version_dir (manager w) in
  let pre := version_prefix p in
  let keep := keep_versions (manager w) in
  let vp := join dir (version_filename p now) in
  let written := <[vp := version_file p (include_index_cb (parent w)) d st]> (fs w) in
  let w' := state_of (save_version now st w) in
  current_file_path (parent w) = Some p -> p <> EmptyString ->
  df (parent w) = Some d ->
  dir_ok dir -> 0 <= keep ->
  version_writer p vp = true ->
  deletions_succeed dir pre (fs w) ->
  Z.of_nat (length (versions_in dir pre (fs w'))) <= keep /\
  versions_in dir pre (fs w') ≡ₚ kept_by_cleanup dir pre keep written /\
  (forall x y, x ∈ removed_by_cleanup dir pre keep written ->
     y ∈ versions_in dir pre (fs w') -> tuple_leb x y = true) /\
  (forall x, x ∈ removed_by_cleanup dir pre keep written -> fs w' !! x.2 = None) /\
  (forall q, version_name dir pre q = None -> fs w' !! q = fs w !! q).
Proof.
  intros dir pre keep vp written w' Hp Hne Hd Hdir HK Hwr Hdel.
  assert (fs w' = after_cleanup dir pre keep written) as Hfs.
  { unfold w'. rewrite (save_version_eq w now st p d) by done. by destruct w. }
  rewrite Hfs. pose proof (versions_after_cleanup dir pre keep written) as Hperm.
  split; [|split; [done|split; [|split]]].
  - rewrite (Permutation_length Hperm), length_kept_by_cleanup by done. lia.
  - intros x y Hx Hy. rewrite Hperm in Hy. by eapply removed_before_kept.
  - intros x Hx. unfold after_cleanup. rewrite lookup_remove_paths.
    rewrite decide_True; [done|]. apply list_elem_of_fmap. by exists x.
  - intros q Hq. rewrite cleanup_other_files by done.
    unfold written. apply lookup_insert_ne. intros <-.
    unfold vp, pre in Hq. by rewrite version_path_is_version in Hq.
Qed.

(** ** A run of [save_version] calls in pairwise distinct seconds *)

Lemma keep_last_length {A} (n : nat) (l : list A) :
  length (keep_last n l) = (length l `min` n)%nat.
Proof. unfold keep_last. rewrite length_drop. lia. Qed.

Lemma keep_last_all {A} (n : nat) (l : list A) :
  (length l <= n)%nat -> keep_last n l = l.
Proof.
  intros H. unfold keep_last. by replace (length l - n)%nat with 0%nat by lia.
Qed.

Lemma keep_last_snoc {A} (n : nat) (l : list A) (c : A) :
  keep_last n (keep_last n l ++ [c]) = keep_last n (l ++ [c]).
Proof.
  destruct (decide (length l <= n)%nat) as [Hle|Hgt].
  - by rewrite (keep_last_all n l).
  - unfold keep_last at 1 3. rewrite !length_app, keep_last_length. simpl.
    replace (length l `min` n + 1 - n)%nat with 1%nat by lia.
    unfold keep_last. destruct n as [|n].
    + rewrite Nat.sub_0_r, drop_all. simpl.
      rewrite drop_ge; [done|]. rewrite length_app. simpl. lia.
    + rewrite !drop_app_le by (rewrite ?length_drop; lia).
      rewrite drop_drop. do 2 f_equal. lia.
Qed.

Lemma elem_of_keep_last {A} (n : nat) (l : list A) (x : A) :
  x ∈ keep_last n l -> x ∈ l.
Proof.
  unfold keep_last. intros H. rewrite <- (take_drop (length l - n) l).
  apply elem_of_app. by right.
Qed.

(** The last [n] elements of [a ++ b] are the last [n] of [b], preceded
    by elements of [a] when [b] is shorter than [n]. *)
Lemma drop_app_keep_last {A} (n : nat) (a b : list A) :
  drop (length (a ++ b) - n) (a ++ b)
  = drop (length (a ++ b) - n) a ++ keep_last n b.
Proof.
  rewrite drop_app. f_equal. unfold keep_last. f_equal.
  rewrite length_app. lia.
Qed.

Lemma strftime_app_eq (t1 t2 : DateTime) (x1 x2 : string) :
  strftime t1 +:+ x1 = strftime t2 +:+ x2 -> strftime t1 = strftime t2.
Proof.
  unfold strftime, pad4, pad2. intros H. simpl in H.
  injection H as Ha Hb Hc Hd He Hf Hg Hh Hi Hj Hk Hl Hm Hn Hx.
  rewrite !app_cons, !app_empty_l. congruence.
Qed.

Lemma version_path_inj (dir p : string) (t1 t2 : DateTime) :
  dir_ok dir ->
  join dir (version_filename p t1) = join dir (version_filename p t2) ->
  strftime t1 = strftime t2.
Proof.
  intros Hd H. rewrite !join_plain in H by (done || apply version_filename_no_slash).
  apply (inj (String.app _)) in H. apply (inj (String.app _)) in H.
  unfold version_filename in H. apply (inj (String.app _)) in H.
  apply (inj (String.app "_v")) in H. by eapply strftime_app_eq.
Qed.

Lemma NoDup_fmap_eq {A B} (f : A -> B) (l : list A) (a b : A) :
  NoDup (map f l) -> a ∈ l -> b ∈ l -> f a = f b -> a = b.
Proof.
  induction l as [|x l IH]; intros Hnd Ha Hb Hf; [by apply elem_of_nil in Ha|].
  simpl in Hnd. apply NoDup_cons in Hnd as [Hx Hnd].
  apply elem_of_cons in Ha as [->|Ha]; apply elem_of_cons in Hb as [->|Hb].
  - done.
  - exfalso. apply Hx. rewrite Hf. apply list_elem_of_fmap. by exists b.
  - exfalso. apply Hx. rewrite <- Hf. apply list_elem_of_fmap. by exists a.
  - by apply IH.
Qed.

Section version_run.
Variables (w0 : World) (p : string) (d : DataFrame).
Let dir := version_dir (manager w0).
Let pre := version_prefix p.
Let keep := Z.to_nat (keep_versions (manager w0)).
Let path_of (e : SaveEvent) : string := join dir (version_filename p e.1).
Let file_of (e : SaveEvent) : File :=
  version_file p (include_index_cb (parent w0)) d e.2.
Let tuple_of (e : SaveEvent) : Z * string := (st_mtime e.2, path_of e).

Hypothesis Hp : current_file_path (parent w0) = Some p.
Hypothesis Hne : p <> EmptyString.
Hypothesis Hd : df (parent w0) = Some d.
Hypothesis Hdir : dir_ok dir.
Hypothesis HK : 0 <= keep_versions (manager w0).
Hypothesis Hdel : deletions_succeed dir pre (fs w0).

(** The invariant, in the section's abbreviations. *)
Lemma run_inv_unfold (done : list SaveEvent) (w : World) :
  run_inv w0 p d done w <->
  parent w = parent w0 /\ manager w = manager w0 /\
  (forall q, version_name dir pre q = None -> fs w !! q = fs w0 !! q) /\
  (forall e, e ∈ keep_last keep done -> fs w !! path_of e = Some (file_of e)) /\
  (forall q file,
     version_name dir pre q <> None -> fs w !! q = Some file ->
     (exists e, e ∈ keep_last keep done /\ q = path_of e /\ file = file_of e) \/
     fs w0 !! q = Some file) /\
  (done <> [] -> (length (versions_in dir pre (fs w)) <= keep)%nat).
Proof. reflexivity. Qed.

Lemma run_inv_init : run_inv w0 p d [] w0.
Proof.
  apply (proj2 (run_inv_unfold _ _)).
  split; [done|]. split; [done|]. split; [done|]. split; [|split].
  - intros e He. by apply elem_of_nil in He.
  - intros q file _ Hq. by right.
  - done.
Qed.

Lemma path_of_version (e : SaveEvent) :
  version_name dir pre (path_of e) = Some (version_filename p e.1).
Proof. by apply version_path_is_version. Qed.

Lemma path_of_inj (l : list SaveEvent) (a b : SaveEvent) :
  NoDup (map stamp l) -> a ∈ l -> b ∈ l -> path_of a = path_of b -> a = b.
Proof.
  intros Hnd Ha Hb H. apply (NoDup_fmap_eq stamp l a b Hnd Ha Hb).
  by apply (version_path_inj dir p).
Qed.

Lemma tuple_of_sorted (l : list SaveEvent) :
  StronglySorted earlier l -> StronglySorted tuple_le (map tuple_of l).
Proof.
  induction 1 as [|a l Hs IH Ha]; simpl; constructor; [done|].
  apply Forall_fmap. eapply Forall_impl; [exact Ha|].
  intros b Hb. apply tuple_le_iff. by left.
Qed.

Lemma run_inv_step (done : list SaveEvent) (e : SaveEvent) (w : World) :
  NoDup (map stamp (done ++ [e])) ->
  StronglySorted earlier (done ++ [e]) ->
  writes_version dir p e ->
  (forall e', e' ∈ done ++ [e] -> older_versions dir pre (fs w0) e') ->
  run_inv w0 p d done w ->
  run_inv w0 p d (done ++ [e]) (state_of (save_version e.1 e.2 w)).
Proof.
  intros Hnd Hsorted Hwr Hold Hinv.
  destruct (proj1 (run_inv_unfold done w) Hinv)
    as (Hpar & Hman & Hother & Hev & Hvers & _).
  set (L := keep_last keep done ++ [e]).
  set (written := <[path_of e := file_of e]> (fs w)).
  assert (forall x, x ∈ L -> x ∈ done ++ [e]) as HL.
  { intros x Hx. apply elem_of_app in Hx as [Hx|Hx]; apply elem_of_app;
      [left; by eapply elem_of_keep_last | by right]. }
  assert (deletions_succeed dir pre (fs w)) as Hdelw.
  { intros q f file Hq Hv.
    destruct (Hvers q file) as [(e' & _ & _ & ->)|H0];
      [congruence | done | done | by eapply Hdel]. }
  assert (fs (state_of (save_version e.1 e.2 w))
          = after_cleanup dir pre (keep_versions (manager w0)) written) as Hfs.
  { rewrite (save_version_eq w e.1 e.2 p d); rewrite ?Hpar, ?Hman; try done.
    all: by destruct w. }
  assert (parent (state_of (save_version e.1 e.2 w)) = parent w0
          /\ manager (state_of (save_version e.1 e.2 w)) = manager w0)
    as [Hpar' Hman'].
  { rewrite (save_version_eq w e.1 e.2 p d); rewrite ?Hpar, ?Hman; try done.
    all: by destruct w. }
  (* the files of the events in [L], right after the write *)
  assert (forall x, x ∈ L -> written !! path_of x = Some (file_of x)) as HwL.
  { intros x Hx. unfold written. apply elem_of_app in Hx as [Hx|Hx].
    - rewrite lookup_insert_ne; [by apply Hev|].
      intros Heq. apply (path_of_inj _ _ _ Hnd) in Heq.
      + subst x. apply elem_of_keep_last in Hx.
        rewrite map_app in Hnd. apply NoDup_app in Hnd as (_ & Hdis & _).
        apply (Hdis (stamp e)); [|by left].
        apply list_elem_of_fmap. by exists e.
      + apply elem_of_app. right. by left.
      + apply elem_of_app. left. by eapply elem_of_keep_last.
    - apply list_elem_of_singleton in Hx as ->. apply lookup_insert_eq. }
  (* every other version file was there at the start *)
  assert (forall q file, version_name dir pre q <> None ->
            written !! q = Some file -> q ∉ map path_of L ->
            fs w0 !! q = Some file) as HwO.
  { intros q file Hv Hq Hnin. unfold written in Hq.
    rewrite lookup_insert_ne in Hq.
    - destruct (Hvers q file Hv Hq) as [(e' & He' & -> & _)|H0]; [|done].
      exfalso. apply Hnin. apply list_elem_of_fmap. exists e'.
      split; [done|]. apply elem_of_app. by left.
    - intros <-. apply Hnin. apply list_elem_of_fmap. exists e.
      split; [done|]. apply elem_of_app. right. by left. }
  assert (NoDup (map path_of L)) as HndL.
  { apply NoDup_fmap_2_strong.
    - intros a b Ha Hb. apply (path_of_inj _ _ _ Hnd); auto.
    - apply (NoDup_fmap_1 stamp).
      assert (sublist L (done ++ [e])) as Hsub.
      { unfold L. apply sublist_app; [|done]. apply sublist_drop. }
      apply (sublist_NoDup (stamp <$> L) (stamp <$> (done ++ [e])));
        [exact Hnd | apply (fmap_sublist stamp), Hsub]. }
  set (V := versions_in dir pre written).
  set (O := filter (fun x : Z * string => x.2 ∉ map path_of L) V).
  assert (forall x, x ∈ O -> x ∈ versions_in dir pre (fs w0)) as HO.
  { intros x Hx. apply list_elem_of_filter in Hx as [Hnin Hx].
    apply elem_of_versions_in in Hx as (file & f & Hl & Hv & Hm).
    apply elem_of_versions_in. exists file, f.
    split; [|done]. apply HwO; [congruence | done | done]. }
  assert (map snd (map tuple_of L) = map path_of L) as Hsnd.
  { by rewrite map_map. }
  assert (V ≡ₚ O ++ map tuple_of L) as HV.
  { apply NoDup_Permutation.
    - apply NoDup_versions_in.
    - apply NoDup_app. split; [|split].
      + apply NoDup_filter, NoDup_versions_in.
      + intros x Hx Hx'. apply list_elem_of_filter in Hx as [Hnin _].
        apply Hnin. rewrite <- Hsnd. apply list_elem_of_fmap. by exists x.
      + apply (NoDup_fmap_1 snd). change (NoDup (map snd (map tuple_of L))).
        by rewrite Hsnd.
    - intros x. rewrite elem_of_app. split.
      + intros Hx. destruct (decide (x.2 ∈ map path_of L)) as [Hin|Hnin].
        * right. apply list_elem_of_fmap in Hin as (e' & Hq & He').
          apply list_elem_of_fmap. exists e'. split; [|done].
          apply elem_of_versions_in in Hx as (file & f & Hl & Hv & Hm).
          rewrite Hq, (HwL e' He') in Hl. injection Hl as <-.
          destruct x. unfold tuple_of. simpl in *. by subst.
        * left. apply list_elem_of_filter. by split.
      + intros [Hx|Hx].
        * by apply list_elem_of_filter in Hx as [_ Hx].
        * apply list_elem_of_fmap in Hx as (e' & -> & He').
          apply elem_of_versions_in.
          exists (file_of e'), (version_filename p e'.1). unfold tuple_of. simpl.
          split; [by apply HwL|]. split; [apply path_of_version | done]. }
  assert (sort tuple_leb V = sort tuple_leb O ++ map tuple_of L) as Hsort.
  { apply (StronglySorted_unique tuple_le).
    - apply (sort_sorted tuple_leb tuple_leb_total tuple_leb_trans).
    - apply StronglySorted_app_2.
      + intros x y Hx Hy. rewrite (sort_perm tuple_leb) in Hx.
        apply list_elem_of_fmap in Hy as (e' & -> & He').
        apply tuple_le_iff. left. simpl.
        apply (Hold e' (HL e' He') x). by apply HO.
      + apply (sort_sorted tuple_leb tuple_leb_total tuple_leb_trans).
      + apply tuple_of_sorted.
        rewrite <- (take_drop (length done - keep) done), <- app_assoc in Hsorted.
        by apply StronglySorted_app_1_r in Hsorted.
    - rewrite !(sort_perm tuple_leb). exact HV. }
  assert (kept_by_cleanup dir pre (keep_versions (manager w0)) written
          = drop (length (sort tuple_leb V) - keep) (sort tuple_leb O)
            ++ map tuple_of (keep_last keep (done ++ [e]))) as Hkept.
  { unfold kept_by_cleanup. cbv zeta. fold V. fold keep.
    rewrite Hsort at 2. rewrite Hsort at 1. rewrite drop_app_keep_last.
    rewrite <- Hsort. f_equal.
    rewrite <- keep_last_snoc. fold L. unfold keep_last.
    by rewrite <- fmap_drop, length_map. }
  assert (forall x, x ∈ kept_by_cleanup dir pre (keep_versions (manager w0)) written
            <-> x ∈ V /\
                x.2 ∉ map snd (removed_by_cleanup dir pre
                                 (keep_versions (manager w0)) written)) as Hk.
  { intros x. unfold kept_by_cleanup, removed_by_cleanup. cbv zeta. fold V.
    split.
    - intros Hx.
      apply elem_of_drop_by_key in Hx as [Hx Hnin]; [|apply NoDup_sorted_paths].
      split; [|done]. by rewrite (sort_perm tuple_leb V) in Hx.
    - intros [Hx Hnin]. apply elem_of_drop_by_key; [apply NoDup_sorted_paths|].
      split; [|done]. by rewrite (sort_perm tuple_leb V). }
  assert (forall x, x ∈ keep_last keep (done ++ [e]) -> x ∈ L) as HLk.
  { intros x Hx. rewrite <- keep_last_snoc in Hx. by eapply elem_of_keep_last. }
  apply (proj2 (run_inv_unfold _ _)).
  split; [done|]. split; [done|]. split; [|split; [|split]].
  - intros q Hq. rewrite Hfs, cleanup_other_files by done. unfold written.
    rewrite lookup_insert_ne; [by apply Hother|].
    intros <-. by rewrite path_of_version in Hq.
  - intros x Hx. rewrite Hfs. unfold after_cleanup. rewrite lookup_remove_paths.
    assert (tuple_of x
            ∈ kept_by_cleanup dir pre (keep_versions (manager w0)) written) as Hin.
    { rewrite Hkept. apply elem_of_app. right. apply list_elem_of_fmap. by exists x. }
    apply Hk in Hin as [_ Hnin]. simpl in Hnin.
    rewrite decide_False by done. by apply HwL, HLk.
  - intros q file Hv. rewrite Hfs. unfold after_cleanup.
    rewrite lookup_remove_paths. case_decide as Hin; [done|]. intros Hq.
    assert ((mtime file, q)
            ∈ kept_by_cleanup dir pre (keep_versions (manager w0)) written) as Hkq.
    { apply Hk. split; [|done]. apply elem_of_versions_in.
      destruct (version_name dir pre q) as [f|] eqn:Hf; [|done].
      by exists file, f. }
    rewrite Hkept in Hkq. apply elem_of_app in Hkq as [Hkq|Hkq].
    + right. apply subseteq_drop in Hkq. rewrite (sort_perm tuple_leb) in Hkq.
      apply list_elem_of_filter in Hkq as [Hnin _]. by apply HwO.
    + left. apply list_elem_of_fmap in Hkq as (e' & Heq & He'). exists e'.
      injection Heq as Hm Hq'. split; [done|]. split; [done|].
      rewrite Hq', (HwL e' (HLk e' He')) in Hq. by injection Hq as <-.
  - intros _. rewrite Hfs.
    rewrite (Permutation_length
               (versions_after_cleanup dir pre (keep_versions (manager w0)) written)).
    rewrite length_kept_by_cleanup by done. fold keep. lia.
Qed.

Lemma run_inv_steps (done evs : list SaveEvent) (w : World) :
  NoDup (map stamp (done ++ evs)) ->
  StronglySorted earlier (done ++ evs) ->
  Forall (writes_version dir p) evs ->
  (forall e, e ∈ done ++ evs -> older_versions dir pre (fs w0) e) ->
  run_inv w0 p d done w ->
  run_inv w0 p d (done ++ evs) (save_versions evs w).
Proof.
  revert done w. induction evs as [|e evs IH]; intros done w Hnd Hs Hwr Hold Hinv.
  - by rewrite app_nil_r.
  - simpl. apply Forall_cons in Hwr as [Hwe Hwr].
    replace (done ++ e :: evs) with ((done ++ [e]) ++ evs) in *
      by (by rewrite <- app_assoc).
    apply IH; [done | done | done | done |]. apply run_inv_step; [| |done| |done].
    + rewrite map_app in Hnd. by apply NoDup_app in Hnd as (? & _ & _).
    + by apply StronglySorted_app_1_l in Hs.
    + intros e' He'. apply Hold. apply elem_of_app. by left.
Qed.

(** Once at least [keep_versions] calls were made, and one at least, the
    version files are exactly those of the last [keep_versions] calls. *)
Lemma run_inv_full (done : list SaveEvent) (w : World) :
  NoDup (map stamp done) -> done <> [] -> (keep <= length done)%nat ->
  run_inv w0 p d done w ->
  forall q file, version_name dir pre q <> None ->
    (fs w !! q = Some file <->
     exists e, e ∈ keep_last keep done /\ q = path_of e /\ file = file_of e).
Proof.
  intros Hnd Hne' Hlen Hinv.
  destruct (proj1 (run_inv_unfold done w) Hinv) as (_ & _ & _ & Hev & Hvers & Hc).
  specialize (Hc Hne').
  set (E := map path_of (keep_last keep done)).
  set (P := map snd (versions_in dir pre (fs w))).
  assert (NoDup E) as HndE.
  { apply (NoDup_fmap_2_strong path_of).
    - intros a b Ha Hb. apply (path_of_inj _ _ _ Hnd);
        by eapply elem_of_keep_last.
    - apply (NoDup_fmap_1 stamp).
      apply (sublist_NoDup _ (stamp <$> done)); [exact Hnd|].
      apply (fmap_sublist stamp), sublist_drop. }
  assert (E ≡ₚ P) as HEP.
  { apply submseteq_length_Permutation.
    - apply NoDup_submseteq; [done|]. intros q Hq.
      apply list_elem_of_fmap in Hq as (e & -> & He).
      apply list_elem_of_fmap. exists (tuple_of e). split; [done|].
      apply elem_of_versions_in.
      exists (file_of e), (version_filename p e.1). unfold tuple_of. simpl.
      split; [by apply Hev|]. split; [apply path_of_version | done].
    - unfold E, P. rewrite !length_map, keep_last_length. lia. }
  intros q file Hv. split.
  - intros Hq. assert (q ∈ E) as Hin.
    { rewrite HEP. apply list_elem_of_fmap. exists (mtime file, q).
      split; [done|]. apply elem_of_versions_in.
      destruct (version_name dir pre q) as [f|] eqn:Hf; [|done].
      by exists file, f. }
    apply list_elem_of_fmap in Hin as (e & -> & He). exists e.
    split; [done|]. split; [done|]. rewrite (Hev e He) in Hq. by injection Hq.
  - intros (e & He & -> & ->). by apply Hev.
Qed.

Lemma run_records (tz : TimeZone) (done : list SaveEvent) (w : World) :
  NoDup (map stamp done) -> done <> [] -> (keep <= length done)%nat ->
  run_inv w0 p d done w ->
  records_in tz dir pre (fs w) ≡ₚ map (record_of tz dir p) (keep_last keep done).
Proof.
  intros Hnd Hne' Hlen Hinv.
  pose proof (run_inv_full done w Hnd Hne' Hlen Hinv) as Hvers.
  apply NoDup_Permutation.
  - apply NoDup_records_in.
  - apply (NoDup_fmap_1 path). rewrite map_map.
    apply (NoDup_fmap_2_strong path_of).
    + intros a b Ha Hb. apply (path_of_inj _ _ _ Hnd);
        by eapply elem_of_keep_last.
    + apply (NoDup_fmap_1 stamp).
      apply (sublist_NoDup _ (stamp <$> done)); [exact Hnd|].
      apply (fmap_sublist stamp), sublist_drop.
  - intros r. rewrite elem_of_records_in, list_elem_of_fmap. split.
    + intros (file & Hl & Hv & Hm & Hs).
      apply Hvers in Hl as (e & He & Hq & ->); [|congruence].
      exists e. split; [|done]. rewrite Hq, path_of_version in Hv.
      injection Hv as Hv. destruct r. unfold record_of. simpl in *.
      by subst.
    + intros (e & -> & He). pose proof (path_of_version e) as Hpv.
      exists (file_of e).
      split; [|split; [exact Hpv | done]].
      apply (Hvers (path_of e) (file_of e)); [by rewrite Hpv | by exists e].
Qed.
End version_run.

(** ** What [get_versions] returns *)

Lemma get_versions_eq (tz : TimeZone) (file_path : string) (w : World) :
  dir_ok (version_dir (manager w)) ->
  get_versions tz file_path w
  = Normal
      (sort newer_first
         (records_in tz (version_dir (manager w)) (version_prefix file_path) (fs w)))
      w.
Proof.
  intros Hd. unfold get_versions, try_except, listdir, bind, gets.
  rewrite collect_records_eq; [|done|intros e; apply map_to_list_lookup].
  reflexivity.
Qed.

(** The order of [datetime] objects. *)
Lemma lex_leb_total (a b : list Z) : lex_leb a b = true \/ lex_leb b a = true.
Proof.
  revert b. induction a as [|x a IH]; intros [|y b]; simpl; auto.
  destruct (IH b) as [H|H]; rewrite H, !andb_true_r;
    destruct (Z.ltb_spec x y), (Z.ltb_spec y x), (Z.eqb_spec x y),
      (Z.eqb_spec y x); simpl; auto; lia.
Qed.

Lemma lex_leb_trans (a b c : list Z) :
  lex_leb a b = true -> lex_leb b c = true -> lex_leb a c = true.
Proof.
  revert b c. induction a as [|x a IH]; intros [|y b] [|z c]; simpl; try done.
  rewrite !orb_true_iff, !andb_true_iff, !Z.ltb_lt, !Z.eqb_eq.
  intros [H1|[H1 H1']] [H2|[H2 H2']]; [left; lia..|].
  right. split; [lia|]. by eapply IH.
Qed.

Lemma lex_leb_antisym (a b : list Z) :
  lex_leb a b = true -> lex_leb b a = true -> a = b.
Proof.
  revert b. induction a as [|x a IH]; intros [|y b]; simpl; try done.
  rewrite !orb_true_iff, !andb_true_iff, !Z.ltb_lt, !Z.eqb_eq.
  intros [H1|[H1 H1']] [H2|[H2 H2']]; try lia.
  f_equal; [done|]. by apply IH.
Qed.

Lemma datetime_key_inj (a b : DateTime) : datetime_key a = datetime_key b -> a = b.
Proof. destruct a, b. unfold datetime_key. simpl. by intros [= -> -> -> -> -> -> ->]. Qed.

Lemma datetime_leb_antisym (a b : DateTime) :
  datetime_leb a b = true -> datetime_leb b a = true -> a = b.
Proof. intros H1 H2. by apply datetime_key_inj, lex_leb_antisym. Qed.

Lemma newer_first_total (a b : VersionRecord) :
  newer_first a b = true \/ newer_first b a = true.
Proof. unfold newer_first, datetime_leb. apply lex_leb_total. Qed.

Lemma newer_first_trans (a b c : VersionRecord) :
  newer_first a b = true -> newer_first b c = true -> newer_first a c = true.
Proof. unfold newer_first, datetime_leb. intros H1 H2. by eapply lex_leb_trans. Qed.

(** What [get_versions] returns is in the order of its sort: no record
    comes before one with a later ['modified']. *)
Lemma sorted_newer_first (rs : list VersionRecord) :
  StronglySorted (fun a b => datetime_leb (modified b) (modified a) = true)
    (sort newer_first rs).
Proof. apply (sort_sorted newer_first newer_first_total newer_first_trans). Qed.

Lemma newest_first_sorted (tz : TimeZone) (dir p : string) (l : list SaveEvent) :
  StronglySorted (earlier_local tz) l ->
  StronglySorted (fun a b => newer_first a b = true)
    (rev (map (record_of tz dir p) l)).
Proof.
  induction 1 as [|x l Hs IH Hx]; [constructor|]. simpl.
  apply StronglySorted_app_2; [|done|repeat constructor].
  intros a b Ha Hb. apply list_elem_of_singleton in Hb as ->.
  apply list_elem_of_In in Ha. apply in_rev in Ha. apply list_elem_of_In in Ha.
  apply list_elem_of_fmap in Ha as (e & -> & He).
  rewrite Forall_forall in Hx. specialize (Hx e He).
  unfold newer_first, record_of, earlier_local in *. simpl.
  destruct (lex_leb_total (datetime_key (tz (st_mtime x.2)))
              (datetime_key (tz (st_mtime e.2)))) as [H|H]; [done|].
  unfold datetime_leb in Hx. congruence.
Qed.

(** Sorting newest first a permutation of the records of a run whose
    local modification times grow gives them in reverse order of the
    events. *)
Lemma sort_newest_first (tz : TimeZone) (dir p : string) (l : list SaveEvent)
    (rs : list VersionRecord) :
  StronglySorted (earlier_local tz) l -> rs ≡ₚ map (record_of tz dir p) l ->
  sort newer_first rs = rev (map (record_of tz dir p) l).
Proof.
  intros Hs Hperm.
  assert (forall a b, a ∈ l -> b ∈ l ->
            tz (st_mtime a.2) = tz (st_mtime b.2) -> a = b) as Huniq.
  { clear Hperm. induction Hs as [|x l' Hs IH Hx]; intros a b Ha Hb Heq;
      [by apply elem_of_nil in Ha|].
    rewrite Forall_forall in Hx. unfold earlier_local in Hx.
    assert (forall t, datetime_leb t t = true) as Hrefl.
    { intros t. by destruct (lex_leb_total (datetime_key t) (datetime_key t)). }
    apply elem_of_cons in Ha as [->|Ha]; apply elem_of_cons in Hb as [->|Hb].
    - done.
    - specialize (Hx b Hb). rewrite Heq, Hrefl in Hx. done.
    - specialize (Hx a Ha). rewrite <- Heq, Hrefl in Hx. done.
    - by apply IH. }
  apply (StronglySorted_unique_strong (fun a b => newer_first a b = true)).
  - intros a b Ha Hb Hab Hba.
    rewrite (sort_perm newer_first rs), Hperm in Ha.
    apply list_elem_of_In, in_rev, list_elem_of_In in Hb.
    apply list_elem_of_fmap in Ha as (ea & -> & Hea).
    apply list_elem_of_fmap in Hb as (eb & -> & Heb).
    f_equal. apply Huniq; [done..|].
    unfold newer_first, record_of in *. simpl in *.
    by apply datetime_leb_antisym.
  - apply (sort_sorted newer_first newer_first_total newer_first_trans).
  - by apply newest_first_sorted.
  - rewrite (sort_perm newer_first rs), Hperm.
    rewrite <- Permutation_rev. done.
Qed.

(** ** Retention *)

(** C4, as stated, fails twice over.  With [keep_versions = 2], three
    calls of [save_version] within one second write the same file three
    times, and [get_versions] returns one version, not two.  And with
    [keep_versions = 1] on a document bound to "notes.txt", pandas has no
    writer for the version: [save_version] raises before the cleanup, and
    the two versions found in the directory are both still there. *)
Lemma burst_or_refused_write_breaks_retention :
  (keep_versions (manager (editing 2)) = 2 /\
   length burst = 3%nat /\
   (length <$> value_of (get_versions utc "/home/u/book.csv"
                           (save_versions burst (editing 2)))) = Some 1%nat) /\
  (keep_versions (manager notes_with_versions) = 1 /\
   (length <$> value_of (get_versions utc "/home/u/notes.txt"
                           (save_versions [at_second 0 0] notes_with_versions)))
   = Some 2%nat /\
   last (ui (save_versions [at_second 0 0] notes_with_versions))
   = Some (Printed "Error saving version: No engine for filetype: 'txt'")).
Proof. repeat split; vm_compute; reflexivity. Qed.

(** C4, amended.  For a document bound to [p], a version directory that
    [os.path.join] extends with a separator, [keep_versions >= 0], and as
    long as no version file of that base name is locked:

    - one call: after a [save_version] that writes its file, at most
      [keep_versions] version files of that base name are listed; they
      are the newest, by (mtime, path), of those present right after the
      write, each removed one being older than each kept one, and the
      removed files are gone; a [save_version] for whose file pandas has
      no writer changes no file;
    - a run, from whatever the directory holds: after more than
      [keep_versions] calls that write their file, fall in pairwise
      distinct seconds and get growing modification times, all later than
      those of the versions found at the start, [get_versions] returns
      exactly [keep_versions] records, those of the last calls, no record
      before one whose local date and time of modification is later; when
      the local dates and times grow with the calls, they come in reverse
      order of the calls. *)
Theorem version_retention (w : World) (p : string) (d : DataFrame) :
  let dir := version_dir (manager w) in
  let pre := version_prefix p in
  let keep := keep_versions (manager w) in
  current_file_path (parent w) = Some p -> p <> EmptyString ->
  df (parent w) = Some d -> dir_ok dir -> 0 <= keep ->
  deletions_succeed dir pre (fs w) ->
  (forall now st,
     let vp := join dir (version_filename p now) in
     let written :=
       <[vp := version_file p (include_index_cb (parent w)) d st]> (fs w) in
     let w' := state_of (save_version now st w) in
     version_writer p vp = true ->
     Z.of_nat (length (versions_in dir pre (fs w'))) <= keep /\
     versions_in dir pre (fs w') ≡ₚ kept_by_cleanup dir pre keep written /\
     (forall x y, x ∈ removed_by_cleanup dir pre keep written ->
        y ∈ versions_in dir pre (fs w') -> tuple_leb x y = true) /\
     (forall x, x ∈ removed_by_cleanup dir pre keep written ->
        fs w' !! x.2 = None)) /\
  (forall now st,
     version_writer p (join dir (version_filename p now)) = false ->
     fs (state_of (save_version now st w)) = fs w) /\
  (forall fromtimestamp evs,
     NoDup (map stamp evs) -> StronglySorted earlier evs ->
     Forall (writes_version dir p) evs ->
     Forall (older_versions dir pre (fs w)) evs ->
     (Z.to_nat keep < length evs)%nat ->
     let last_calls :=
       map (record_of fromtimestamp dir p) (keep_last (Z.to_nat keep) evs) in
     exists rs,
       value_of (get_versions fromtimestamp p (save_versions evs w)) = Some rs /\
       rs ≡ₚ last_calls /\ Z.of_nat (length rs) = keep /\
       StronglySorted
         (fun a b => datetime_leb (modified b) (modified a) = true) rs /\
       (StronglySorted (earlier_local fromtimestamp) evs -> rs = rev last_calls)).
Proof.
  intros dir pre keep Hp Hne Hd Hdir HK Hdel. split; [|split].
  - intros now st vp written w' Hwr.
    destruct (save_version_retention w now st p d Hp Hne Hd Hdir HK Hwr Hdel)
      as (H1 & H2 & H3 & H4 & _).
    by repeat split.
  - intros now st Hwr. rewrite (save_version_refused w now st p d) by done.
    by destruct w.
  - intros tz evs Hnd Hs Hwr Hold Hlen last_calls.
    assert (forall e, e ∈ [] ++ evs -> older_versions dir pre (fs w) e) as Hold'.
    { intros e He. rewrite Forall_forall in Hold. by apply Hold. }
    pose proof (run_inv_steps w p d Hp Hne Hd Hdir HK Hdel [] evs w Hnd Hs Hwr
                  Hold' (run_inv_init w p d)) as Hinv.
    simpl in Hinv.
    assert (evs <> []) as Hevs by (intros ->; simpl in Hlen; lia).
    pose proof (run_records w p d Hdir tz evs _ Hnd Hevs ltac:(fold keep; lia) Hinv)
      as Hrec.
    destruct Hinv as (_ & Hman & _).
    rewrite get_versions_eq by (by rewrite Hman). simpl. rewrite Hman.
    fold dir. fold pre. fold dir pre in Hrec.
    eexists. split; [reflexivity|]. split; [|split; [|split]].
    + by rewrite (sort_perm newer_first).
    + rewrite (Permutation_length (sort_perm newer_first _)),
        (Permutation_length Hrec).
      unfold last_calls. rewrite length_map, keep_last_length. fold keep. lia.
    + apply sorted_newer_first.
    + intros Hloc. apply sort_newest_first; [|exact Hrec].
      rewrite <- (take_drop (length evs - Z.to_nat keep) evs) in Hloc.
      by apply StronglySorted_app_1_r in Hloc.
Qed.

Lemma editing_dir_ok (keep : Z) : dir_ok (version_dir (manager (editing keep))).
Proof. split; [discriminate | reflexivity]. Qed.

Lemma five_saves_sorted : StronglySorted earlier five_saves.
Proof. repeat constructor; unfold earlier; simpl; lia. Qed.

Lemma five_saves_sorted_local : StronglySorted (earlier_local utc) five_saves.
Proof. repeat constructor; vm_compute; reflexivity. Qed.

Lemma five_saves_distinct : NoDup (map stamp five_saves).
Proof. apply (bool_decide_unpack _). by vm_compute. Qed.

(** C4 on Scenario B, from a directory that holds an older version:
    [keep_versions = 3] and five calls of [save_version], one second
    apart; the three latest versions remain, newest first. *)
Lemma version_retention_witness :
  value_of (get_versions utc "/home/u/book.csv"
              (save_versions five_saves with_old_version))
  = Some (rev (map (record_of utc "/home/u/.excel_editor_versions"
                      "/home/u/book.csv")
                 (keep_last 3 five_saves))) /\
  map filename
    (rev (map (record_of utc "/home/u/.excel_editor_versions" "/home/u/book.csv")
            (keep_last 3 five_saves)))
  = ["book_v20240307_090504.csv"; "book_v20240307_090503.csv";
     "book_v20240307_090502.csv"].
Proof.
  split; [|reflexivity].
  destruct (version_retention with_old_version "/home/u/book.csv" book)
    as (_ & _ & H).
  - reflexivity.
  - discriminate.
  - reflexivity.
  - apply editing_dir_ok.
  - vm_compute. discriminate.
  - intros q f file Hq _. unfold with_old_version in Hq. simpl in Hq.
    apply lookup_insert_Some in Hq as [[_ <-]|[_ Hq]]; [done|].
    by rewrite lookup_empty in Hq.
  - destruct (H utc five_saves) as (rs & Hv & _ & _ & _ & Hrs).
    + apply five_saves_distinct.
    + apply five_saves_sorted.
    + repeat constructor.
    + repeat constructor; intros x Hx;
        apply elem_of_versions_in in Hx as (file & f & Hl & _ & ->);
        unfold with_old_version in Hl; simpl in Hl;
        apply lookup_insert_Some in Hl as [[_ <-]|[_ Hl]];
          [vm_compute; reflexivity | by rewrite lookup_empty in Hl
          | vm_compute; reflexivity | by rewrite lookup_empty in Hl
          | vm_compute; reflexivity | by rewrite lookup_empty in Hl
          | vm_compute; reflexivity | by rewrite lookup_empty in Hl
          | vm_compute; reflexivity | by rewrite lookup_empty in Hl].
    + vm_compute. lia.
    + rewrite Hv. f_equal. apply Hrs. apply five_saves_sorted_local.
Defined.

(** C5 on Scenario C: a clean document with a bound path. *)
Lemma auto_save_guard_witness :
  let w := upd_parent (set_is_modified false) (editing 3) in
  enabled (manager w) = true /\
  perform_auto_save (mkDateTime 2024 3 7 9 5 0 0) (mkStat 1000 100)
    (mkStat 1001 100) w
  = Normal tt w.
Proof.
  cbv zeta. split; [reflexivity|].
  apply (proj1 (auto_save_guard _ _ _ _)). right. left. reflexivity.
Defined.

(** C7 on two saves one second apart and two saves in one second. *)
Lemma version_filename_injective_up_to_second_witness :
  version_filename "/home/u/book.csv" (mkDateTime 2024 3 7 9 5 0 0)
  <> version_filename "/home/u/book.csv" (mkDateTime 2024 3 7 9 5 1 0) /\
  version_filename "/home/u/book.csv" (mkDateTime 2024 3 7 9 5 0 100000)
  = version_filename "/home/u/book.csv" (mkDateTime 2024 3 7 9 5 0 900000).
Proof.
  split.
  - intros H.
    apply (proj1 (version_filename_injective_up_to_second "/home/u/book.csv"
             (mkDateTime 2024 3 7 9 5 0 0) (mkDateTime 2024 3 7 9 5 1 0)
             ltac:(unfold valid_datetime; simpl; lia)
             ltac:(unfold valid_datetime; simpl; lia))) in H.
    destruct H as (_ & _ & _ & _ & _ & H). discriminate H.
  - apply (proj1 (version_filename_injective_up_to_second "/home/u/book.csv"
             (mkDateTime 2024 3 7 9 5 0 100000) (mkDateTime 2024 3 7 9 5 0 900000)
             ltac:(unfold valid_datetime; simpl; lia)
             ltac:(unfold valid_datetime; simpl; lia))).
    by repeat split.
Defined.

End AutoSaveFacts.

(** * Properties of the snapshot manager, continued: failures and the
    history dialog *)

Module HistoryFacts.
Import Py Table UndoRedo UndoRedoFacts History.

Ltac prefix_solve :=
  simpl; repeat apply prefix_app_r; reflexivity.

Lemma undo_extends w : extends w (state_of (undo w)).
Proof. cases_of w; split; prefix_solve. Qed.

Lemma redo_extends w : extends w (state_of (redo w)).
Proof. cases_of w; split; prefix_solve. Qed.

Lemma save_state_extends d w :
  extends w (state_of (save_state d w)) /\
  parent (state_of (save_state d w)) = parent w.
Proof.
  open_world w. destruct odf as [l|]; exec; [|by repeat split].
  destruct (succeeds ao); world_simpl; [|repeat split; prefix_solve].
  destruct (succeeds (tail ao)); world_simpl; [|repeat split; prefix_solve].
  destruct (_ >? _); world_simpl; [|repeat split; prefix_solve].
  destruct us; world_simpl; repeat split; prefix_solve.
Qed.

Lemma extends_refl w : extends w w.
Proof. by split. Qed.

Lemma extends_trans w1 w2 w3 : extends w1 w2 -> extends w2 w3 -> extends w1 w3.
Proof. intros [? ?] [? ?]. split; by etrans. Qed.

Lemma extends_content w w' st :
  extends w w' -> state_valid w st ->
  state_valid w' st /\ state_content w' st = state_content w st.
Proof.
  intros [[kf Hf] [kd Hd]] [H1 H2]. unfold state_valid, state_content.
  rewrite Hf, Hd, !length_app. split; [lia|].
  by rewrite !lookup_total_app_l.
Qed.

Lemma extends_document w w' :
  extends w w' -> live_valid w -> parent w' = parent w ->
  document w' = document w.
Proof.
  intros [[kf Hf] [kd Hd]] [H1 H2] Hp. unfold document. rewrite Hp, Hf, Hd.
  f_equal.
  - destruct (df (parent w)) as [l|] eqn:E; [|done]. simpl. f_equal.
    rewrite lookup_total_app_l; [done | by apply H1].
  - by rewrite lookup_total_app_l.
Qed.

(** X1: [save_state], [undo] and [redo] never change an object that
    exists: every data frame and every format-settings dictionary of the
    store is still there, with the same content, after the call, whether
    the call succeeds or fails; they only allocate.  [save_state] also
    leaves every attribute of the parent as it is. *)
Theorem manager_never_mutates_an_object (w : World) (description : string) :
  extends w (state_of (save_state description w)) /\
  extends w (state_of (undo w)) /\
  extends w (state_of (redo w)) /\
  parent (state_of (save_state description w)) = parent w.
Proof.
  split; [apply save_state_extends|]. split; [apply undo_extends|].
  split; [apply redo_extends | apply save_state_extends].
Qed.


Lemma wf_valid w st : wf w -> st ∈ stacked w -> state_valid w st.
Proof. intros Hwf Hin. by destruct (wf_stacked _ _ Hwf Hin). Qed.

Lemma wf_live w : wf w -> live_valid w.
Proof. by intros (_ & ? & _). Qed.

Lemma mem_tail4 ao : all_succeed ao -> all_succeed (tail (tail (tail (tail ao)))).
Proof. intros. by repeat apply all_succeed_tail. Qed.

(** One successful [undo()]. *)
Lemma undo_step w us s :
  wf w -> memory_suffices w -> is_Some (df (parent w)) ->
  undo_stack (manager w) = us ++ [s] ->
  let w1 := state_of (undo w) in
  undo w = Normal true w1 /\
  wf w1 /\ memory_suffices w1 /\ is_Some (df (parent w1)) /\
  extends w w1 /\
  undo_stack (manager w1) = us /\
  (exists c, redo_stack (manager w1) = redo_stack (manager w) ++ [c] /\
     state_description c = "Current State" /\
     state_content w1 c = document w) /\
  document w1 = state_content w s.
Proof.
  intros Hwf Hmem [l Hl] Hus w1.
  assert (wf w1) as Hwf1 by (by apply wf_undo).
  assert (extends w w1) as Hext by apply undo_extends.
  destruct (undo_document w l us s Hwf Hmem Hl Hus) as (Hv & Hdoc & _).
  fold w1 in Hdoc. subst w1.
  pose proof (wf_live _ Hwf) as [Hlv1 Hlv2].
  open_world w. simpl in Hl, Hus, Hlv1, Hlv2. subst.
  rewrite (undo_eq _ _ _ _ _ _ _ _ _ _ l) in * by done. simpl in *.
  split; [done|]. split; [done|]. split; [exact (mem_tail4 _ Hmem)|].
  split; [by eexists|]. split; [done|]. split; [done|]. split; [|done].
  eexists. split; [done|]. split; [done|].
  unfold state_content, document. simpl.
  specialize (Hlv1 _ eq_refl). f_equal.
  - f_equal. rewrite lookup_total_app_l by (rewrite length_app; simpl; lia).
    by rewrite list_lookup_total_middle.
  - rewrite lookup_total_app_l by (rewrite length_app; simpl; lia).
    by rewrite list_lookup_total_middle.
Qed.

Lemma redo_document w l rs s :
  wf w -> memory_suffices w ->
  df (parent w) = Some l -> redo_stack (manager w) = rs ++ [s] ->
  document (state_of (redo w)) = state_content w s.
Proof.
  intros Hwf Hmem Hl Hrs. open_world w. simpl in Hl, Hrs. subst.
  rewrite (redo_eq _ _ _ _ _ _ _ _ _ _ l) by done. simpl.
  unfold document, state_content. simpl.
  assert (state_valid (mkWorld (mkParent (Some l) path fmt md)
            (mkManager us (rs ++ [s]) mx pos) fr di ao u) s) as [Hs1 Hs2].
  { apply wf_valid; [done|]. unfold stacked. simpl.
    rewrite !elem_of_app, elem_of_cons. naive_solver. }
  simpl in Hs1, Hs2. f_equal.
  - f_equal. rewrite list_lookup_total_middle by done.
    by rewrite lookup_total_app_l.
  - rewrite list_lookup_total_middle by done.
    by rewrite lookup_total_app_l.
Qed.

(** One successful [redo()]. *)
Lemma redo_step w rs s :
  wf w -> memory_suffices w -> is_Some (df (parent w)) ->
  redo_stack (manager w) = rs ++ [s] ->
  let w1 := state_of (redo w) in
  redo w = Normal true w1 /\
  wf w1 /\ memory_suffices w1 /\ is_Some (df (parent w1)) /\
  extends w w1 /\
  redo_stack (manager w1) = rs /\
  (exists c, undo_stack (manager w1) = undo_stack (manager w) ++ [c] /\
     state_description c = "Undo" /\
     state_content w1 c = document w) /\
  document w1 = state_content w s.
Proof.
  intros Hwf Hmem [l Hl] Hrs w1.
  assert (wf w1) as Hwf1 by (by apply wf_redo).
  assert (extends w w1) as Hext by apply redo_extends.
  pose proof (redo_document w l rs s Hwf Hmem Hl Hrs) as Hdoc.
  fold w1 in Hdoc. subst w1.
  pose proof (wf_live _ Hwf) as [Hlv1 Hlv2].
  open_world w. simpl in Hl, Hrs, Hlv1, Hlv2. subst.
  rewrite (redo_eq _ _ _ _ _ _ _ _ _ _ l) in * by done. simpl in *.
  split; [done|]. split; [done|]. split; [exact (mem_tail4 _ Hmem)|].
  split; [by eexists|]. split; [done|]. split; [done|]. split; [|done].
  eexists. split; [done|]. split; [done|].
  unfold state_content, document. simpl.
  specialize (Hlv1 _ eq_refl). f_equal.
  - f_equal. rewrite lookup_total_app_l by (rewrite length_app; simpl; lia).
    by rewrite list_lookup_total_middle.
  - rewrite lookup_total_app_l by (rewrite length_app; simpl; lia).
    by rewrite list_lookup_total_middle.
Qed.

Lemma undo_repeat_extends n : forall w, extends w (state_of (undo_repeat n w)).
Proof.
  induction n as [|n IH]; intros w; [apply extends_refl|].
  simpl. unfold bind. pose proof (undo_extends w) as He.
  pose proof (undo_never_raises w) as Hr.
  destruct (undo w) as [[] w1|e w1]; simpl in *; [|done|done].
  eapply extends_trans; [exact He | apply IH].
Qed.

Lemma redo_repeat_extends n : forall w, extends w (state_of (redo_repeat n w)).
Proof.
  induction n as [|n IH]; intros w; [apply extends_refl|].
  simpl. unfold bind. pose proof (redo_extends w) as He.
  destruct (redo w) as [[] w1|e w1]; simpl in *; [|done|done].
  eapply extends_trans; [exact He | apply IH].
Qed.

(** [n] undos on a stack that holds at least [n] entries. *)
Lemma undo_repeat_spec n : forall w us tl,
  wf w -> memory_suffices w -> is_Some (df (parent w)) ->
  undo_stack (manager w) = us ++ tl -> length tl = n ->
  let w' := state_of (undo_repeat n w) in
  undo_repeat n w = Normal tt w' /\
  wf w' /\ memory_suffices w' /\ is_Some (df (parent w')) /\
  undo_stack (manager w') = us /\
  length (redo_stack (manager w')) = (length (redo_stack (manager w)) + n)%nat /\
  (tl = [] -> w' = w) /\
  (forall st, head tl = Some st -> document w' = state_content w st).
Proof.
  induction n as [|n IH]; intros w us tl Hwf Hmem Hdf Hus Hlen w'.
  - destruct tl; [|done]. rewrite app_nil_r in Hus. subst w'. simpl.
    repeat (split; [first [done | lia]|]). done.
  - destruct (list_snoc_cases tl) as [-> | (tl' & s & ->)]; [done|].
    rewrite length_app in Hlen. simpl in Hlen.
    rewrite app_assoc in Hus.
    destruct (undo_step w (us ++ tl') s Hwf Hmem Hdf Hus)
      as (Hu & Hwf1 & Hmem1 & Hdf1 & Hext & Hus1 & (c & Hrs1 & _ & _) & Hdoc).
    subst w'. simpl. unfold bind. rewrite Hu. simpl.
    set (w1 := state_of (undo w)) in *.
    destruct (IH w1 us tl' Hwf1 Hmem1 Hdf1 Hus1 ltac:(lia))
      as (Hn & Hwf' & Hmem' & Hdf' & Hus' & Hrs' & Hnil & Hhead).
    split; [done|]. split; [done|]. split; [done|]. split; [done|].
    split; [done|]. split.
    { rewrite Hrs', Hrs1, length_app. simpl. lia. }
    split; [by destruct tl'|].
    intros st Hst. destruct tl' as [|a tl'].
    + simpl in Hst. injection Hst as <-. by rewrite Hnil.
    + simpl in Hst. injection Hst as <-. rewrite (Hhead a) by done.
      apply extends_content; [done|]. apply wf_valid; [done|].
      unfold stacked. rewrite Hus.
      rewrite !elem_of_app, elem_of_cons. do 2 left. right. by left.
Qed.

Lemma redo_repeat_S_r n : forall w,
  wf w -> memory_suffices w -> is_Some (df (parent w)) ->
  (n < length (redo_stack (manager w)))%nat ->
  state_of (redo_repeat (S n) w) = state_of (redo (state_of (redo_repeat n w))) /\
  redo_repeat (S n) w = Normal tt (state_of (redo_repeat (S n) w)).
Proof.
  induction n as [|n IH]; intros w Hwf Hmem Hdf Hlen.
  - simpl. unfold bind. pose proof (redo_never_raises w) as Hr.
    destruct (redo w) as [[] w1|e w1]; done.
  - destruct (list_snoc_cases (redo_stack (manager w))) as [E | (rs & s & Hrs)].
    { rewrite E in Hlen. simpl in Hlen. lia. }
    destruct (redo_step w rs s Hwf Hmem Hdf Hrs)
      as (Hr & Hwf1 & Hmem1 & Hdf1 & _ & Hrs1 & _).
    rewrite Hrs, length_app in Hlen. simpl in Hlen.
    change (redo_repeat (S (S n)) w) with
      (bind redo (fun ok => if negb ok then ret tt else redo_repeat (S n)) w).
    change (redo_repeat (S n) w) with
      (bind redo (fun ok => if negb ok then ret tt else redo_repeat n) w).
    unfold bind. rewrite Hr. simpl negb. cbv iota.
    apply IH; try done. rewrite Hrs1. lia.
Qed.


Lemma elem_of_stacked_undo w st :
  st ∈ undo_stack (manager w) -> st ∈ stacked w.
Proof. unfold stacked. rewrite elem_of_app. auto. Qed.

Lemma elem_of_stacked_redo w st :
  st ∈ redo_stack (manager w) -> st ∈ stacked w.
Proof. unfold stacked. rewrite elem_of_app. auto. Qed.

(** [n] undos followed by [n] redos. *)
Lemma repeat_round_trip n : forall w us tl,
  wf w -> memory_suffices w -> is_Some (df (parent w)) ->
  undo_stack (manager w) = us ++ tl -> length tl = n ->
  let w1 := state_of (undo_repeat n w) in
  let w2 := state_of (redo_repeat n w1) in
  redo_repeat n w1 = Normal tt w2 /\
  wf w2 /\ memory_suffices w2 /\ is_Some (df (parent w2)) /\
  extends w w2 /\
  document w2 = document w /\
  redo_stack (manager w2) = redo_stack (manager w) /\
  exists tl2,
    undo_stack (manager w2) = us ++ tl2 /\
    same_contents w2 tl2 w tl /\
    Forall (fun a => state_description a = "Undo") tl2.
Proof.
  induction n as [|n IH]; intros w us tl Hwf Hmem Hdf Hus Hlen w1 w2.
  - destruct tl; [|done]. subst w1 w2. simpl.
    repeat (split; [first [done | apply extends_refl]|]).
    exists []. rewrite Hus. repeat split; constructor.
  - destruct (list_snoc_cases tl) as [-> | (tl' & s & ->)]; [done|].
    rewrite length_app in Hlen. simpl in Hlen.
    assert (undo_stack (manager w) = (us ++ tl') ++ [s]) as Hus'
      by (by rewrite <- app_assoc).
    destruct (undo_step w (us ++ tl') s Hwf Hmem Hdf Hus')
      as (Hu & Hwfa & Hmema & Hdfa & Hexta & Husa & (c & Hrsa & _ & Hc) & Hdoca).
    set (wa := state_of (undo w)) in *.
    assert (w1 = state_of (undo_repeat n wa)) as Hw1.
    { subst w1. simpl. unfold bind. by rewrite Hu. }
    destruct (undo_repeat_spec n wa us tl' Hwfa Hmema Hdfa Husa ltac:(lia))
      as (_ & Hwf1 & Hmem1 & Hdf1 & _ & Hrs1 & _).
    rewrite <- Hw1 in Hwf1, Hmem1, Hdf1, Hrs1.
    destruct (IH wa us tl' Hwfa Hmema Hdfa Husa ltac:(lia))
      as (Hrn & Hwfb & Hmemb & Hdfb & Hextb & Hdocb & Hrsb & tl2 & Husb & Hsame & Hdesc).
    rewrite <- Hw1 in Hrn, Hwfb, Hmemb, Hdfb, Hextb, Hdocb, Hrsb, Husb, Hsame.
    set (wb := state_of (redo_repeat n w1)) in *.
    destruct (redo_repeat_S_r n w1 Hwf1 Hmem1 Hdf1) as [Hst Hnorm].
    { rewrite Hrs1, Hrsa, length_app. simpl. lia. }
    fold wb in Hst. fold w2 in Hst, Hnorm.
    rewrite Hrsa in Hrsb.
    destruct (redo_step wb (redo_stack (manager w)) c Hwfb Hmemb Hdfb Hrsb)
      as (_ & Hwf2 & Hmem2 & Hdf2 & Hext2 & Hrs2 & (c2 & Hus2 & Hd2 & Hc2) & Hdoc2).
    rewrite <- Hst in Hwf2, Hmem2, Hdf2, Hext2, Hrs2, Hus2, Hc2, Hdoc2.
    assert (state_valid wa c) as Hvc.
    { apply wf_valid; [done|]. apply elem_of_stacked_redo.
      rewrite Hrsa, elem_of_app, elem_of_cons. auto. }
    split; [done|]. split; [done|]. split; [done|]. split; [done|].
    split; [eauto using extends_trans|].
    split.
    { rewrite Hdoc2. destruct (extends_content wa wb c Hextb Hvc) as [_ ->]. done. }
    split; [done|].
    exists (tl2 ++ [c2]). split; [by rewrite Hus2, Husb, app_assoc|].
    split.
    + unfold same_contents in *. apply Forall2_app.
      * apply Forall2_same_length_lookup. split; [by eapply Forall2_length|].
        intros i a b Ha Hb.
        pose proof (Forall2_lookup_lr _ _ _ _ _ _ Hsame Ha Hb) as Hab.
        assert (state_valid wb a) as Hva.
        { apply wf_valid; [done|]. apply elem_of_stacked_undo.
          rewrite Husb, elem_of_app. right. by eapply list_elem_of_lookup_2. }
        assert (state_valid w b) as Hvb.
        { apply wf_valid; [done|]. apply elem_of_stacked_undo.
          rewrite Hus, !elem_of_app. right. left. by eapply list_elem_of_lookup_2. }
        destruct (extends_content wb w2 a Hext2 Hva) as [_ ->].
        destruct (extends_content w wa b Hexta Hvb) as [_ <-]. done.
      * constructor; [|constructor]. rewrite Hc2, Hdocb. done.
    + apply Forall_app. split; [done|]. by constructor.
Qed.

(** ** The history dialog *)

Lemma add_rows_imap (b : bool) (entries : list State) : forall i rows,
  add_rows b i entries rows
  = rows ++ imap (fun j st =>
               mkItem (row_text (i + j) st) (b && bool_decide ((i + j)%nat = 0%nat)))
             entries.
Proof.
  induction entries as [|st rest IH]; intros i rows; simpl.
  - by rewrite app_nil_r.
  - rewrite IH, <- app_assoc. f_equal. cbn [imap app]. f_equal.
    + by rewrite Nat.add_0_r.
    + apply imap_ext. intros j x _. unfold compose.
      by rewrite Nat.add_succ_r.
Qed.

Lemma rev_lookup_row (l : list State) (i : nat) : rev l !! i = entry_of_row l i.
Proof.
  unfold entry_of_row. rewrite rev_alt. change (rev_append l []) with (reverse l).
  destruct (decide (i < length l)%nat) as [H|H].
  - rewrite reverse_lookup by done. f_equal. lia.
  - apply lookup_ge_None. rewrite length_reverse. lia.
Qed.

Lemma load_history_eq (s : Session) :
  load_history s
  = Normal tt
      (mkSession (world s)
         (mkDialog
            (add_rows true 0 (rev (undo_stack (manager (world s)))) [])
            (add_rows false 0 (rev (redo_stack (manager (world s)))) [])
            ("Undo Available: "
               +:+ pretty (Z.of_nat (length (undo_stack (manager (world s))))))
            ("Redo Available: "
               +:+ pretty (Z.of_nat (length (redo_stack (manager (world s)))))))
         (replies s)).
Proof. by destruct s as [w d r]. Qed.

(** X6: [load_history] never fails and changes the dialog only: row [i]
    of the undo list shows the entry [i] places below the top of the undo
    stack as "<i+1>. <description>", in bold for row 0 only; the redo list
    shows the redo stack the same way, never in bold; the two labels show
    the sizes of the stacks. *)
Theorem load_history_shows_both_stacks (s : Session) :
  let m := manager (world s) in
  let s' := state_of (load_history s) in
  load_history s = Normal tt s' /\
  world s' = world s /\
  replies s' = replies s /\
  (forall i,
     undo_list (dialog s') !! i
     = (fun st => mkItem (row_text i st) (bool_decide (i = 0%nat)))
         <$> entry_of_row (undo_stack m) i) /\
  (forall i,
     redo_list (dialog s') !! i
     = (fun st => mkItem (row_text i st) false)
         <$> entry_of_row (redo_stack m) i) /\
  undo_count_label (dialog s')
  = "Undo Available: " +:+ pretty (Z.of_nat (length (undo_stack m))) /\
  redo_count_label (dialog s')
  = "Redo Available: " +:+ pretty (Z.of_nat (length (redo_stack m))).
Proof.
  intros m s'. subst s'. rewrite load_history_eq. simpl.
  repeat split.
  - intros i. rewrite add_rows_imap. simpl. rewrite list_lookup_imap.
    by rewrite rev_lookup_row.
  - intros i. rewrite add_rows_imap. simpl. rewrite list_lookup_imap.
    by rewrite rev_lookup_row.
Qed.

Lemma on_world_normal {A} (m : M World A) (s : Session) (a : A) (w : World) :
  m (world s) = Normal a w ->
  on_world m s = Normal a (mkSession w (dialog s) (replies s)).
Proof. unfold on_world. by intros ->. Qed.


Lemma split_last_n (l : list State) (n : nat) :
  (n <= length l)%nat ->
  l = take (length l - n) l ++ drop (length l - n) l /\
  length (drop (length l - n) l) = n.
Proof. intros H. rewrite take_drop, length_drop. split; [done | lia]. Qed.

(** X7: on a loaded document, memory permitting, [undo_to_item] for the
    row [index] performs [index] undos: the undo stack loses its [index]
    top entries, the redo stack gains [index], the entry of the clicked
    row becomes row 0 of the reloaded list, and the document shows the
    entry of the row above the clicked one (row 0: nothing is undone). *)
Theorem undo_to_item_undoes_index_entries (s : Session) (index : nat) :
  let w := world s in
  let stack := undo_stack (manager w) in
  wf w -> memory_suffices w -> is_Some (df (parent w)) ->
  (index <= length stack)%nat ->
  let s' := state_of (undo_to_item index s) in
  let w' := world s' in
  undo_to_item index s = Normal tt s' /\
  undo_stack (manager w') = take (length stack - index) stack /\
  length (redo_stack (manager w'))
  = (length (redo_stack (manager w)) + index)%nat /\
  (index = 0%nat -> w' = w) /\
  (forall st, entry_of_row stack index = Some st ->
     undo_list (dialog s') !! 0%nat = Some (mkItem (row_text 0 st) true)) /\
  (forall i st, index = S i -> entry_of_row stack i = Some st ->
     document w' = state_content w st).
Proof.
  intros w stack Hwf Hmem Hdf Hle s' w'.
  destruct (split_last_n stack index Hle) as [Hsplit Hlen].
  destruct (undo_repeat_spec index w _ _ Hwf Hmem Hdf Hsplit Hlen)
    as (Hn & _ & _ & _ & Hus & Hrs & Hnil & Hhead).
  assert (undo_to_item index s
          = load_history (mkSession (state_of (undo_repeat index w))
                            (dialog s) (replies s))) as Heq.
  { unfold undo_to_item, bind. by rewrite (on_world_normal _ _ _ _ Hn). }
  subst w' s'. rewrite Heq, load_history_eq. simpl.
  split; [done|]. split; [done|]. split; [done|]. split.
  { intros ->. apply Hnil. rewrite Nat.sub_0_r. apply drop_all. }
  split.
  - intros st Hst. rewrite add_rows_imap. simpl. rewrite list_lookup_imap.
    rewrite rev_lookup_row, Hus. unfold entry_of_row in *.
    destruct (decide (index < length stack)%nat) as [Hlt|]; [|done].
    rewrite length_take.
    rewrite decide_True by lia.
    rewrite lookup_take_lt by lia.
    assert (((length stack - index) `min` length stack - 1 - 0)%nat
            = (length stack - 1 - index)%nat) as -> by lia.
    by rewrite Hst.
  - intros i st -> Hst. apply Hhead. rewrite head_lookup, lookup_drop.
    unfold entry_of_row in Hst.
    destruct (decide (i < length stack)%nat); [|done].
    rewrite <- Hst. f_equal. lia.
Qed.

(** X8: on a loaded document, memory permitting, [undo_to_item] on row
    [index + 1] followed by [redo_to_item] on row [index] gives back the
    document; the redo stack is as before and the undo stack holds the
    same contents, entry by entry, but the [index + 1] top entries were
    captured again by [redo] and are now described as "Undo". *)
Theorem undo_to_item_then_redo_to_item_round_trip (s : Session) (index : nat) :
  let w := world s in
  let stack := undo_stack (manager w) in
  wf w -> memory_suffices w -> is_Some (df (parent w)) ->
  (index < length stack)%nat ->
  let s1 := state_of (undo_to_item (S index) s) in
  let s2 := state_of (redo_to_item index s1) in
  let w2 := world s2 in
  redo_to_item index s1 = Normal tt s2 /\
  document w2 = document w /\
  redo_stack (manager w2) = redo_stack (manager w) /\
  same_contents w2 (undo_stack (manager w2)) w stack /\
  take (length stack - S index) (undo_stack (manager w2))
  = take (length stack - S index) stack /\
  Forall (fun a => state_description a = "Undo")
    (drop (length stack - S index) (undo_stack (manager w2))).
Proof.
  intros w stack Hwf Hmem Hdf Hlt s1 s2 w2.
  destruct (split_last_n stack (S index) ltac:(lia)) as [Hsplit Hlen].
  set (us := take (length stack - S index) stack) in *.
  set (tl := drop (length stack - S index) stack) in *.
  destruct (undo_repeat_spec (S index) w us tl Hwf Hmem Hdf Hsplit Hlen)
    as (Hn & _).
  destruct (repeat_round_trip (S index) w us tl Hwf Hmem Hdf Hsplit Hlen)
    as (Hr & Hwf2 & _ & _ & Hext & Hdoc & Hrs & tl2 & Hus2 & Hsame & Hdesc).
  assert (undo_to_item (S index) s
          = load_history (mkSession (state_of (undo_repeat (S index) w))
                            (dialog s) (replies s))) as Heq1.
  { unfold undo_to_item, bind. by rewrite (on_world_normal _ _ _ _ Hn). }
  assert (world s1 = state_of (undo_repeat (S index) w)) as Hw1.
  { subst s1. by rewrite Heq1, load_history_eq. }
  rewrite <- Hw1 in Hr.
  assert (redo_to_item index s1
          = load_history (mkSession (state_of (redo_repeat (S index) (world s1)))
                            (dialog s1) (replies s1))) as Heq2.
  { unfold redo_to_item, bind. rewrite Nat.add_1_r.
    by rewrite (on_world_normal _ _ _ _ Hr). }
  assert (w2 = state_of (redo_repeat (S index) (world s1))) as Hw2.
  { subst w2 s2. by rewrite Heq2, load_history_eq. }
  rewrite Hw1 in Hw2. rewrite <- Hw2 in *.
  split. { subst s2. by rewrite Heq2, load_history_eq. }
  split; [done|]. split; [done|].
  assert (length us = (length stack - S index)%nat) as Hlus.
  { subst us. rewrite length_take. lia. }
  split; [|split].
  - unfold same_contents in *. fold stack. rewrite Hus2, Hsplit.
    apply Forall2_app; [|done].
    apply Forall_Forall2_diag, Forall_forall. intros a Ha.
    apply extends_content; [done|]. apply wf_valid; [done|].
    apply elem_of_stacked_undo. fold stack. rewrite Hsplit, elem_of_app. auto.
  - rewrite Hus2, <- Hlus. by rewrite take_app_length.
  - rewrite Hus2, <- Hlus. by rewrite drop_app_length.
Qed.

(** X4: in every world a session reaches from [__init__], the undo and
    the redo stack hold at most 50 entries together; so [redo()], which
    appends to the undo stack without checking [max_stack_size], never
    leaves more than 50 entries on it. *)
Theorem undo_and_redo_stacks_share_the_bound (w : World) :
  reachable w ->
  (length (undo_stack (manager w)) + length (redo_stack (manager w)) <= 50)%nat /\
  (length (undo_stack (manager (state_of (redo w)))) <= 50)%nat.
Proof.
  intros Hr. pose proof (reachable_within_bound w Hr) as Hb.
  pose proof (bound_redo w Hb) as Hb'.
  unfold within_bound, MAX_UNDO in *. lia.
Qed.

(** X2: when the snapshot of the current state cannot be taken (no
    document is loaded, or the first copy runs out of memory), [undo()] on
    a non-empty undo stack returns [False] and leaves the manager, the
    parent and the objects as they were; [redo()] on a non-empty redo
    stack returns [False] too, but it has already popped the redo entry:
    the redo stack has lost it, the rest is as it was. *)
Theorem failed_snapshot_keeps_undo_entry_but_drops_redo_entry (w : World) :
  df (parent w) = None \/ next_alloc_ok w = false ->
  (undo_stack (manager w) <> [] ->
   value_of (undo w) = Some false /\
   manager (state_of (undo w)) = manager w /\
   parent (state_of (undo w)) = parent w /\
   frames (state_of (undo w)) = frames w /\
   dicts (state_of (undo w)) = dicts w) /\
  (forall rs s, redo_stack (manager w) = rs ++ [s] ->
   value_of (redo w) = Some false /\
   redo_stack (manager (state_of (redo w))) = rs /\
   undo_stack (manager (state_of (redo w))) = undo_stack (manager w) /\
   parent (state_of (redo w)) = parent w /\
   frames (state_of (redo w)) = frames w /\
   dicts (state_of (redo w)) = dicts w).
Proof.
  intros Hfail. split.
  - intros Hne. destruct (snoc_of_nonempty _ Hne) as (us' & s & Hus).
    open_world w. simpl in *. subst.
    destruct Hfail as [-> | Hf].
    + exec. crunch. done.
    + unfold next_alloc_ok in Hf. simpl in Hf.
      destruct odf; exec; crunch; rewrite ?Hf; by world_simpl.
  - intros rs' s Hrs. open_world w. simpl in *. subst.
    destruct Hfail as [-> | Hf].
    + exec. crunch. done.
    + unfold next_alloc_ok in Hf. simpl in Hf.
      destruct odf; exec; crunch; rewrite ?Hf; by world_simpl.
Qed.

(** X3: an [undo()] that fails after the snapshot of the current state
    was taken is not rolled back.  When the copy of the stored table
    fails, the entry is gone from the undo stack, the snapshot of the
    current state is on the redo stack, the document is unchanged and
    [undo()] returns [False] after an error box.  When the copy of the
    stored format settings fails, the parent is moreover left with the
    table and the path of the entry but its own format settings, and
    [is_modified] is not set. *)
Theorem failed_restore_loses_the_undo_entry (w : World) (l : loc)
    (us : list State) (s : State) :
  df (parent w) = Some l -> undo_stack (manager w) = us ++ [s] ->
  let c := mkState (length (frames w)) "Current State"
             (current_file_path (parent w)) (length (dicts w)) in
  let m' := mkManager us (redo_stack (manager w) ++ [c])
              (max_stack_size (manager w)) (current_position (manager w)) in
  let shown := [Printed "Error during undo: ";
                CriticalBox "Undo Error" ("Failed to undo:" +:+ newline)] in
  let w' := state_of (undo w) in
  (forall rest, alloc_outcomes w = true :: true :: false :: rest ->
     undo w = Normal false w' /\
     manager w' = m' /\ parent w' = parent w /\ ui w' = ui w ++ shown) /\
  (forall rest, alloc_outcomes w = true :: true :: true :: false :: rest ->
     undo w = Normal false w' /\
     manager w' = m' /\
     parent w'
     = mkParent (Some (S (length (frames w)))) (state_file_path s)
         (format_settings (parent w)) (is_modified (parent w)) /\
     frames w' !! S (length (frames w))
     = Some ((frames w ++ [frames w !!! l]) !!! state_df s) /\
     ui w' = ui w ++ shown).
Proof.
  intros Hl Hus c m' shown w'. subst c m' shown w'.
  open_world w. simpl in *. subst.
  split; intros rest ->; exec; crunch.
  - repeat split; by rewrite <- ?app_assoc.
  - repeat split; try by rewrite <- ?app_assoc.
    + rewrite length_app. simpl. do 2 f_equal. lia.
    + rewrite lookup_app_r by (rewrite length_app; simpl; lia).
      rewrite length_app. simpl.
      by replace (S (length fr) - (length fr + 1))%nat with 0%nat by lia.
Qed.

(** X5: [clear_history] never fails.  Unless the user answers Yes it
    changes neither the editor nor the dialog.  On Yes both stacks are
    emptied and [current_position] is -1, the document and every object
    are untouched, the dialog shows two empty lists and "Undo Available:
    0" / "Redo Available: 0", a success box is shown, and [undo()] and
    [redo()] then return [False]. *)
Theorem clear_history_forgets_the_history_only (s : Session) :
  let w := world s in
  let s' := state_of (clear_history s) in
  let w' := world s' in
  raised (clear_history s) = None /\
  (head (replies s) <> Some true -> w' = w /\ dialog s' = dialog s) /\
  (head (replies s) = Some true ->
   manager w' = mkManager [] [] (max_stack_size (manager w)) (-1) /\
   parent w' = parent w /\ frames w' = frames w /\ dicts w' = dicts w /\
   dialog s' = mkDialog [] [] "Undo Available: 0" "Redo Available: 0" /\
   last (ui w') = Some (InformationBox "Success" "History cleared!") /\
   value_of (undo w') = Some false /\ value_of (redo w') = Some false).
Proof.
  destruct s as [w d [|[] rest]]; simpl.
  - split; [done|]. split; [done|]. done.
  - split; [done|]. split; [done|]. intros _.
    open_world w. simpl. repeat split. by rewrite last_snoc.
  - split; [done|]. split; [done|]. done.
Qed.

Lemma three_edits_reachable : reachable three_edits.
Proof. by eexists [], _. Qed.

Lemma undo_to_item_undoes_index_entries_witness :
  let s' := state_of (undo_to_item 2 history_session) in
  map state_description (undo_stack (manager (world s'))) = ["Paste"] /\
  length (redo_stack (manager (world s'))) = 2%nat /\
  doc_table (document (world s')) = Some table_9_2.
Proof.
  cbv zeta.
  destruct (undo_to_item_undoes_index_entries history_session 2)
    as (_ & Hus & Hrs & _ & _ & Hdoc).
  - apply reachable_wf, three_edits_reachable.
  - constructor.
  - by eexists.
  - vm_compute. lia.
  - split; [rewrite Hus; vm_compute; reflexivity|].
    split; [rewrite Hrs; vm_compute; reflexivity|].
    rewrite (Hdoc 1%nat (mkState 2%nat "Fill Down" (Some "book.csv") 2%nat) eq_refl);
      vm_compute; reflexivity.
Defined.

Lemma undo_to_item_then_redo_to_item_round_trip_witness :
  let s2 := state_of (redo_to_item 1
                        (state_of (undo_to_item 2 history_session))) in
  document (world s2) = document (world history_session) /\
  doc_table (document (world history_session)) = Some table_9_2.
Proof.
  cbv zeta.
  destruct (undo_to_item_then_redo_to_item_round_trip history_session 1)
    as (_ & Hdoc & _).
  - apply reachable_wf, three_edits_reachable.
  - constructor.
  - by eexists.
  - vm_compute. lia.
  - split; [exact Hdoc | vm_compute; reflexivity].
Defined.

Lemma undo_and_redo_stacks_share_the_bound_witness :
  (length (undo_stack (manager three_edits))
   + length (redo_stack (manager three_edits)) <= 50)%nat.
Proof.
  apply (proj1 (undo_and_redo_stacks_share_the_bound three_edits
                  three_edits_reachable)).
Defined.

Lemma failed_snapshot_keeps_undo_entry_but_drops_redo_entry_witness :
  value_of (redo unloaded_with_redo) = Some false /\
  redo_stack (manager (state_of (redo unloaded_with_redo))) = [].
Proof.
  destruct (failed_snapshot_keeps_undo_entry_but_drops_redo_entry
              unloaded_with_redo (or_introl eq_refl)) as [_ H].
  destruct (H [] (mkState 2%nat "Current State" (Some "book.csv") 2%nat) eq_refl)
    as (Hv & Hrs & _).
  split; [exact Hv | exact Hrs].
Defined.

Lemma failed_restore_loses_the_undo_entry_witness :
  undo restore_out_of_memory
  = Normal false (state_of (undo restore_out_of_memory)) /\
  undo_stack (manager (state_of (undo restore_out_of_memory))) = [] /\
  parent (state_of (undo restore_out_of_memory)) = parent restore_out_of_memory.
Proof.
  destruct (failed_restore_loses_the_undo_entry restore_out_of_memory 0%nat []
              (mkState 1%nat "Edit" (Some "book.csv") 1%nat) eq_refl eq_refl)
    as [H _].
  destruct (H [] eq_refl) as (Hu & Hm & Hp & _).
  split; [exact Hu|]. split; [rewrite Hm; reflexivity | exact Hp].
Defined.

End HistoryFacts.

(** * Properties of the version store, continued: any disk, saving,
    settings *)

Module VersionsFacts.
Import Py Table AutoSave AutoSaveFacts Versions.

Lemma lookup_remove_unlocked (ps : list string) : forall (m : gmap string File) (p : string),
  remove_unlocked ps m !! p
  = match m !! p with
    | Some f => if bool_decide (p ∈ ps) && negb (locked f) then None else Some f
    | None => None
    end.
Proof.
  induction ps as [|q ps IH]; intros m p.
  - unfold remove_unlocked. cbn [foldl]. destruct (m !! p); [|done].
    by rewrite (bool_decide_eq_false_2 (p ∈ [])) by apply not_elem_of_nil.
  - unfold remove_unlocked in *. simpl. rewrite IH.
    destruct (decide (p = q)) as [->|Hne].
    + rewrite (bool_decide_eq_true_2 (q ∈ q :: ps)) by left.
      destruct (m !! q) as [f|] eqn:Hq; [|by rewrite Hq].
      destruct (locked f) eqn:Hl.
      * rewrite Hq, Hl. simpl. by rewrite andb_false_r.
      * by rewrite lookup_delete_eq.
    + assert (bool_decide (p ∈ q :: ps) = bool_decide (p ∈ ps)) as ->.
      { apply bool_decide_ext. rewrite elem_of_cons.
        split; [intros [?|?]; [congruence | done] | auto]. }
      destruct (m !! q) as [f|] eqn:Hq; [|done].
      destruct (locked f); [done|]. by rewrite lookup_delete_ne.
Qed.

Lemma upd_fs_ext (f g : gmap string File -> gmap string File) (w : World) :
  f (fs w) = g (fs w) -> upd_fs f w = upd_fs g w.
Proof. destruct w. simpl. unfold upd_fs. simpl. by intros ->. Qed.

(** The loop of [cleanup_old_versions], whatever the files and the
    limit. *)
Lemma remove_oldest_any (K : Z) (S : list (Z * string)) : forall w : World,
  state_of (remove_oldest K S w)
  = upd_fs (remove_unlocked (map snd (take (length S - Z.to_nat K) S))) w /\
  raised (remove_oldest K S w) = (if (K <? 0)%Z then Some IndexError else None).
Proof.
  induction S as [|[m0 p0] S IH]; intros w.
  - simpl. destruct (Z.gtb_spec (Z.of_nat 0) K) as [H|H]; simpl.
    + rewrite (proj2 (Z.ltb_lt K 0)) by lia. split; [by destruct w | done].
    + rewrite (proj2 (Z.ltb_ge K 0)) by lia. split; [by destruct w | done].
  - cbn [remove_oldest].
    destruct (Z.gtb_spec (Z.of_nat (length ((m0, p0) :: S))) K) as [Hgt|Hle];
      cbn [length] in *.
    + replace (Datatypes.S (length S) - Z.to_nat K)%nat
        with (Datatypes.S (length S - Z.to_nat K)) by lia.
      cbn [take map snd]. unfold bind.
      assert (exists w1, try_pass (os_remove p0) w = Normal tt w1 /\
                w1 = upd_fs (remove_unlocked [p0]) w) as (w1 & -> & ->).
      { unfold try_pass, os_remove, remove_unlocked. as_simpl.
        destruct (fs w !! p0) as [f|] eqn:Hf; simpl.
        - destruct (locked f); simpl; eexists; (split; [done|]); by destruct w.
        - eexists. split; [done|]. by destruct w. }
      destruct (IH (upd_fs (remove_unlocked [p0]) w)) as [-> ->].
      split; [|done]. by destruct w.
    + replace (Datatypes.S (length S) - Z.to_nat K)%nat with 0%nat by lia.
      simpl. rewrite (proj2 (Z.ltb_ge K 0)) by lia. split; [by destruct w | done].
Qed.


Lemma cleanup_any (base : string) (w : World) :
  let dir := version_dir (manager w) in
  let pre := base +:+ "_v" in
  let keep := keep_versions (manager w) in
  dir_ok dir ->
  let cleaned_up :=
    upd_fs (remove_unlocked (map snd (removed_by_cleanup dir pre keep (fs w)))) w in
  cleanup_old_versions base w
  = Normal tt
      (if (keep <? 0)%Z
       then emit (Printed ("Error cleaning old versions: " +:+ str IndexError))
              cleaned_up
       else cleaned_up).
Proof.
  intros dir pre keep Hd cleaned_up.
  unfold cleanup_old_versions, try_except, listdir, bind, gets.
  rewrite collect_versions_eq; [|done|intros e; apply map_to_list_lookup].
  change (map _ (omap _ (map_to_list (fs w))))
    with (versions_in dir pre (fs w)).
  fold keep.
  destruct (remove_oldest_any keep (sort tuple_leb (versions_in dir pre (fs w))) w)
    as [Hst Hr].
  change (take _ (sort tuple_leb (versions_in dir pre (fs w))))
    with (removed_by_cleanup dir pre keep (fs w)) in Hst.
  fold cleaned_up in Hst.
  destruct (remove_oldest keep _ w) as [[] w1|e w1]; simpl in *.
  - destruct (keep <? 0)%Z; [done|]. by subst.
  - destruct (keep <? 0)%Z; [|done]. injection Hr as ->. subst. done.
Qed.

(** X11: for a version directory that [os.path.join] extends with a
    separator, [cleanup_old_versions] never raises and changes neither
    parent nor manager.  It only removes files: a file is gone exactly
    when it is one of the oldest versions of that base name beyond
    [keep_versions], in the order (mtime, path), and is not locked; a
    locked one stays (the failed [os.remove] is ignored).  So no file that
    is not a version of that base name, and none of the [keep_versions]
    newest versions, is ever removed.  With a negative [keep_versions] the
    loop ends in "pop from empty list", which is printed. *)
Theorem cleanup_removes_only_old_unlocked_versions (base : string) (w : World) :
  let dir := version_dir (manager w) in
  let pre := base +:+ "_v" in
  let keep := keep_versions (manager w) in
  dir_ok dir ->
  let w' := state_of (cleanup_old_versions base w) in
  raised (cleanup_old_versions base w) = None /\
  parent w' = parent w /\ manager w' = manager w /\
  (forall p,
     fs w' !! p
     = match fs w !! p with
       | Some file => if cleaned dir pre keep (fs w) p file then None else Some file
       | None => None
       end) /\
  (forall p, version_name dir pre p = None -> fs w' !! p = fs w !! p) /\
  (forall y, y ∈ kept_by_cleanup dir pre keep (fs w) -> fs w' !! y.2 = fs w !! y.2) /\
  ui w'
  = (if (keep <? 0)%Z
     then ui w ++ [Printed "Error cleaning old versions: pop from empty list"]
     else ui w).
Proof.
  intros dir pre keep Hd w'. subst w'.
  rewrite (cleanup_any base w Hd). fold dir pre keep.
  assert (forall p,
     fs (if (keep <? 0)%Z
         then emit (Printed ("Error cleaning old versions: " +:+ str IndexError))
                (upd_fs (remove_unlocked
                           (map snd (removed_by_cleanup dir pre keep (fs w)))) w)
         else upd_fs (remove_unlocked
                        (map snd (removed_by_cleanup dir pre keep (fs w)))) w) !! p
     = match fs w !! p with
       | Some file => if cleaned dir pre keep (fs w) p file then None else Some file
       | None => None
       end) as Hlook.
  { intros p. destruct (keep <? 0)%Z; destruct w; simpl;
      apply lookup_remove_unlocked. }
  split; [done|].
  split; [by destruct (keep <? 0)%Z; destruct w|].
  split; [by destruct (keep <? 0)%Z; destruct w|].
  split; [exact Hlook|]. split; [|split].
  - intros p Hv. rewrite Hlook. destruct (fs w !! p) as [file|]; [|done].
    unfold cleaned. rewrite bool_decide_eq_false_2; [done|].
    intros Hin. apply list_elem_of_fmap in Hin as (x & -> & Hx).
    unfold removed_by_cleanup in Hx. cbv zeta in Hx.
    apply elem_of_take in Hx as (i & Hx & _).
    apply list_elem_of_lookup_2 in Hx. rewrite sorted_versions_perm in Hx.
    apply elem_of_versions_in in Hx as (file' & f & _ & Hv' & _). congruence.
  - intros y Hy. rewrite Hlook. destruct (fs w !! y.2) as [file|]; [|done].
    unfold cleaned. rewrite bool_decide_eq_false_2; [done|].
    unfold kept_by_cleanup in Hy. cbv zeta in Hy.
    apply elem_of_drop_by_key in Hy as [_ Hy]; [done|].
    apply NoDup_sorted_paths.
  - destruct (keep <? 0)%Z; by destruct w.
Qed.


(** ** [get_versions] *)

Lemma get_versions_members (tz : TimeZone) (file_path : string) (w : World)
    (r : VersionRecord) :
  let dir := version_dir (manager w) in
  let pre := (splitext (basename file_path)).1 +:+ "_v" in
  r ∈ sort newer_first (records_in tz dir pre (fs w)) <->
  exists file, fs w !! path r = Some file /\
    child_name dir (path r) = Some (filename r) /\
    startswith (filename r) pre = true /\
    modified r = tz (mtime file) /\ vsize r = size file.
Proof.
  intros dir pre. rewrite (sort_perm newer_first), elem_of_records_in.
  unfold version_name. split.
  - intros (file & Hf & Hv & Hm & Hs). exists file.
    destruct (child_name dir (path r)) as [g|]; [|done].
    destruct (startswith g pre) eqn:Hg; [|done]. injection Hv as ->. done.
  - intros (file & Hf & Hc & Hp & Hm & Hs). exists file.
    by rewrite Hc, Hp.
Qed.

(** X9: for a version directory that [os.path.join] extends with a
    separator, [get_versions] returns normally and changes nothing; its
    list holds one record per file of the directory whose name starts
    with the base name followed by "_v", with that file's name, path and
    size and the local date and time of its modification
    ([datetime.fromtimestamp], in the time zone of the process), no path
    twice.  The list is ordered by that local date and time, latest
    first: no record comes before one whose ['modified'] is later. *)
Theorem get_versions_lists_the_version_files (fromtimestamp : TimeZone)
    (file_path : string) (w : World) :
  let dir := version_dir (manager w) in
  let pre := (splitext (basename file_path)).1 +:+ "_v" in
  dir_ok dir ->
  exists rs,
    get_versions fromtimestamp file_path w = Normal rs w /\
    (forall r, r ∈ rs <->
       exists file, fs w !! path r = Some file /\
         child_name dir (path r) = Some (filename r) /\
         startswith (filename r) pre = true /\
         modified r = fromtimestamp (mtime file) /\ vsize r = size file) /\
    NoDup (map path rs) /\
    StronglySorted (fun a b => datetime_leb (modified b) (modified a) = true) rs.
Proof.
  intros dir pre Hd. eexists. split; [by apply get_versions_eq|].
  fold dir. change (version_prefix file_path) with pre.
  split; [|split].
  - intros r. apply get_versions_members.
  - rewrite (sort_perm newer_first). apply NoDup_records_paths.
  - apply sorted_newer_first.
Qed.

(** ** Names shared between documents *)

Lemma prefix_app_r (a b c : string) :
  String.prefix a b = true -> String.prefix a (b +:+ c) = true.
Proof.
  revert b. induction a as [|x a IH]; intros b H; [by destruct (b +:+ c)|].
  destruct b as [|y b]; [discriminate H|]. rewrite app_cons. rewrite prefix_cons in *.
  destruct (ascii_dec x y); [by apply IH | done].
Qed.


(** X10: the versions are told apart by the base name of the file only:
    a version written for [p2] is listed by [get_versions] for [p1] when
    both paths have the same base name (whatever their directories), or
    when the name of [p2] without extension starts with that of [p1]
    followed by "_v" (as "book_v2.csv" does for "book.csv"). *)
Theorem get_versions_lists_versions_of_longer_names (fromtimestamp : TimeZone)
    (p1 p2 : string) (now : DateTime) (w : World) (file : File) :
  let dir := version_dir (manager w) in
  let vp := join dir (version_filename p2 now) in
  dir_ok dir ->
  basename p1 = basename p2 \/
  startswith (splitext (basename p2)).1 ((splitext (basename p1)).1 +:+ "_v") = true ->
  fs w !! vp = Some file ->
  exists rs r,
    get_versions fromtimestamp p1 w = Normal rs w /\ r ∈ rs /\
    path r = vp /\ filename r = version_filename p2 now.
Proof.
  intros dir vp Hd Hshared Hfile.
  exists (sort newer_first
            (records_in fromtimestamp dir (version_prefix p1) (fs w))),
    (mkVersionRecord (version_filename p2 now) vp
       (fromtimestamp (mtime file)) (size file)).
  split; [by apply get_versions_eq|]. split; [|done].
  apply get_versions_members. simpl. exists file.
  split; [done|]. split.
  { apply child_name_join;
      [done | apply version_filename_no_slash | apply version_filename_nonempty]. }
  split; [|done].
  destruct Hshared as [Hb | Hp].
  - rewrite Hb. apply version_filename_startswith.
  - unfold startswith, version_filename in *. by apply prefix_app_r.
Qed.

(** ** Settings *)

(** X13: [update_settings] stores its three arguments in the manager,
    restarts or stops the timer, and writes them to the settings store
    such that [__init__], run on that store for the same home directory,
    builds the very same manager; parent and files are untouched. *)
Theorem update_settings_survives_a_restart (en : bool) (iv keep : Z)
    (home : string) (w : World) :
  version_dir (manager w) = join home ".excel_editor_versions" ->
  let w' := state_of (update_settings en iv keep w) in
  update_settings en iv keep w = Normal tt w' /\
  manager w'
  = mkManager en iv keep (version_dir (manager w))
      (if en then Some (iv * 60 * 1000) else None) /\
  init_manager home (settings w') = manager w' /\
  parent w' = parent w /\ fs w' = fs w.
Proof.
  intros Hdir w'. subst w'. destruct w as [p m f s d o u]. simpl in *.
  unfold update_settings. as_simpl. repeat split.
  unfold init_manager, setting_bool, setting_int. rewrite Hdir.
  rewrite lookup_insert_ne by done. rewrite lookup_insert_ne by done.
  rewrite lookup_insert_eq.
  rewrite lookup_insert_ne by done. rewrite lookup_insert_eq.
  rewrite lookup_insert_eq. done.
Qed.

(** ** Extensions *)

Lemma rfind_from_app (c : ascii) (a b : string) (i f : Z) :
  rfind_from c (a +:+ b) i f
  = rfind_from c b (i + Z.of_nat (String.length a)) (rfind_from c a i f).
Proof.
  revert i f. induction a as [|x a IH]; intros i f.
  - rewrite app_empty_l. simpl. f_equal. lia.
  - rewrite app_cons. simpl. rewrite IH. f_equal. lia.
Qed.

Lemma rfind_from_bound (c : ascii) (s : string) (i f : Z) :
  rfind_from c s i f = f \/
  i <= rfind_from c s i f < i + Z.of_nat (String.length s).
Proof.
  revert i f. induction s as [|a s IH]; intros i f; [by left|].
  simpl String.length. simpl rfind_from.
  destruct (IH (i + 1) (if Ascii.eqb a c then i else f)) as [H|H].
  - rewrite H. destruct (Ascii.eqb a c); [right; lia | by left].
  - right. lia.
Qed.

Lemma substring_split (n : nat) (s : string) :
  (n <= String.length s)%nat ->
  s = String.substring 0 n s +:+ String.substring n (String.length s - n) s.
Proof.
  revert n. induction s as [|a s IH]; intros [|n] Hn; simpl in *; try lia.
  - done.
  - by rewrite substring_full.
  - rewrite app_cons. f_equal. apply IH. lia.
Qed.

Lemma endswith_split (s x : string) :
  endswith s x = true -> exists a, s = a +:+ x.
Proof.
  unfold endswith. intros H. apply andb_true_iff in H as [Hlen Heq].
  apply Nat.leb_le in Hlen. apply String.eqb_eq in Heq.
  exists (String.substring 0 (String.length s - String.length x) s).
  pose proof (substring_split (String.length s - String.length x) s
                ltac:(lia)) as H.
  replace (String.length s - (String.length s - String.length x))%nat
    with (String.length x) in H by lia.
  by rewrite Heq in H.
Qed.

(** A path that ends in ".xlsx" has that extension, or none when its
    name is nothing but dots before the ".xlsx". *)
Lemma extension_xlsx (path : string) :
  endswith path ".xlsx" = true ->
  extension path = ".xlsx" \/ extension path = EmptyString.
Proof.
  intros H. apply endswith_split in H as (a & ->).
  unfold extension, splitext, rfind. rewrite !rfind_from_app. simpl rfind_from.
  replace (0 + Z.of_nat (String.length a) + 1 + 1 + 1 + 1 + 1 - 1 - 1 - 1 - 1 - 1)
    with (Z.of_nat (String.length a)) by lia.
  assert (forall z, (if Ascii.eqb "." "/" then z else rfind_from "/" a 0 (-1))
                    = rfind_from "/" a 0 (-1)) as E by done.
  cbn [Ascii.eqb Bool.eqb].
  destruct (Z.gtb_spec (0 + Z.of_nat (String.length a)) (rfind_from "/" a 0 (-1)))
    as [Hgt|Hle].
  - destruct (only_dots _ _ _); [by right | left]. simpl.
    replace (Z.to_nat (0 + Z.of_nat (String.length a))) with (String.length a)
      by lia.
    apply slice_from_app.
  - by right.
Qed.

Lemma openpyxl_writes_xlsx (path : string) :
  endswith path ".xlsx" = true -> excel_writer (Some "openpyxl") path = true.
Proof.
  intros H. unfold excel_writer, openpyxl_writer.
  by destruct (extension_xlsx path H) as [-> | ->].
Qed.

Lemma workbook_format_xlsx (path : string) :
  endswith path ".xlsx" = true -> extension path <> EmptyString ->
  workbook_format path = true.
Proof.
  intros H Hext. unfold workbook_format.
  destruct (extension_xlsx path H) as [E | E]; [|done].
  rewrite E. by vm_compute.
Qed.

(** ** Saving the bound file *)

Lemma write_file_ok (p : string) (c : Content) (st : Stat) (w : World) :
  p <> EmptyString -> writable (fs w) p ->
  write_file p c st w
  = Normal tt (upd_fs (<[p := mkFile (st_mtime st) (st_size st) c false]>) w).
Proof.
  intros Hne Hw. unfold write_file. apply String.eqb_neq in Hne. rewrite Hne.
  as_simpl. destruct (fs w !! p) as [f|] eqn:Hf; [|done].
  by rewrite (Hw f Hf).
Qed.

Lemma write_file_locked (p : string) (c : Content) (st : Stat) (w : World) (f : File) :
  p <> EmptyString -> fs w !! p = Some f -> locked f = true ->
  write_file p c st w = Raised PermissionError w.
Proof.
  intros Hne Hf Hl. unfold write_file. apply String.eqb_neq in Hne. rewrite Hne.
  as_simpl. by rewrite Hf, Hl.
Qed.

Lemma writable_insert (m : gmap string File) (p q : string) (f : File) :
  locked f = false -> writable m q -> writable (<[p := f]> m) q.
Proof.
  intros Hf Hw g. destruct (decide (p = q)) as [->|Hne].
  - rewrite lookup_insert_eq. by intros [= <-].
  - rewrite lookup_insert_ne by done. apply Hw.
Qed.

Lemma df_to_excel_ok (path : string) (idx : bool) (engine : option string)
    (st : Stat) (w : World) (d : DataFrame) :
  df (parent w) = Some d -> excel_writer engine path = true ->
  path <> EmptyString -> writable (fs w) path ->
  df_to_excel path idx engine st w
  = Normal tt
      (upd_fs (<[path := mkFile (st_mtime st) (st_size st) (Excel idx d) false]>) w).
Proof.
  intros Hd He Hne Hw. unfold df_to_excel, bind, gets. rewrite Hd, He.
  by apply write_file_ok.
Qed.

Lemma df_to_excel_refused (path : string) (idx : bool) (engine : option string)
    (st : Stat) (w : World) (d : DataFrame) :
  df (parent w) = Some d -> excel_writer engine path = false ->
  df_to_excel path idx engine st w
  = Raised (ValueError (no_writer engine path)) w.
Proof. intros Hd He. unfold df_to_excel, bind, gets. by rewrite Hd, He. Qed.

Lemma df_to_excel_locked (path : string) (idx : bool) (engine : option string)
    (st : Stat) (w : World) (d : DataFrame) (f : File) :
  df (parent w) = Some d -> excel_writer engine path = true ->
  path <> EmptyString -> fs w !! path = Some f -> locked f = true ->
  df_to_excel path idx engine st w = Raised PermissionError w.
Proof.
  intros Hd He Hne Hf Hl. unfold df_to_excel, bind, gets. rewrite Hd, He.
  by eapply write_file_locked.
Qed.

Lemma write_document_ok (path : string) (st : Stat) (w : World) (d : DataFrame) :
  df (parent w) = Some d -> path <> EmptyString -> savable w path = true ->
  writable (fs w) path ->
  write_document path (include_index_cb (parent w)) st w
  = Normal tt (upd_fs (<[path := saved_file w path d st]>) w).
Proof.
  intros Hd Hne Hs Hw. unfold write_document, saved_file, saved_content.
  unfold savable in Hs.
  destruct (endswith path ".csv"); simpl in Hs.
  - unfold df_to_csv, bind, gets. rewrite Hd. by apply write_file_ok.
  - apply andb_true_iff in Hs as [He Hs].
    unfold bind at 1. unfold gets at 1.
    destruct (wants_formatting w) eqn:Hfmt; simpl in Hs.
    + unfold bind at 1. rewrite (df_to_excel_ok _ _ _ _ _ d) by done.
      unfold bind at 1. unfold load_workbook. rewrite Hs.
      unfold bind at 1. unfold gets at 1.
      assert (fs (upd_fs (<[path := mkFile (st_mtime st) (st_size st)
                                     (Excel (include_index_cb (parent w)) d) false]>)
                    w) !! path
              = Some (mkFile (st_mtime st) (st_size st)
                        (Excel (include_index_cb (parent w)) d) false)) as ->.
      { destruct w. simpl. apply lookup_insert_eq. }
      unfold ret. unfold bind, gets. simpl. rewrite Hd.
      rewrite write_file_ok; [| done |].
      * destruct w. unfold upd_fs. simpl. by rewrite insert_insert_eq.
      * destruct w. simpl in *. by apply writable_insert.
    + by apply df_to_excel_ok.
Qed.

Lemma write_document_locked (path : string) (idx : bool) (st : Stat) (w : World)
    (d : DataFrame) (f : File) :
  df (parent w) = Some d -> path <> EmptyString ->
  written_by_save path = true ->
  fs w !! path = Some f -> locked f = true ->
  write_document path idx st w = Raised PermissionError w.
Proof.
  intros Hd Hne Hs Hf Hl. unfold write_document. unfold written_by_save in Hs.
  destruct (endswith path ".csv"); simpl in Hs.
  - unfold df_to_csv, bind, gets. rewrite Hd. by eapply write_file_locked.
  - unfold bind at 1. unfold gets at 1.
    destruct (wants_formatting w).
    + unfold bind at 1. by rewrite (df_to_excel_locked _ _ _ _ _ d f).
    + by apply (df_to_excel_locked _ _ _ _ _ d f).
Qed.

Lemma write_document_refused (path : string) (idx : bool) (st : Stat) (w : World)
    (d : DataFrame) :
  df (parent w) = Some d -> written_by_save path = false ->
  write_document path idx st w
  = Raised (ValueError (no_writer (Some "openpyxl") path)) w.
Proof.
  intros Hd Hs. unfold write_document. unfold written_by_save in Hs.
  apply orb_false_iff in Hs as [-> He].
  unfold bind at 1. unfold gets at 1.
  destruct (wants_formatting w).
  - unfold bind at 1. by rewrite (df_to_excel_refused _ _ _ _ _ d).
  - by apply (df_to_excel_refused _ _ _ _ _ d).
Qed.

Lemma write_document_not_loaded (path : string) (st : Stat) (w : World)
    (d : DataFrame) :
  df (parent w) = Some d -> path <> EmptyString ->
  written_by_save path = true -> savable w path = false ->
  writable (fs w) path ->
  exists e,
    is_Exception e = true /\
    write_document path (include_index_cb (parent w)) st w
    = Raised e (upd_fs (<[path := unformatted_file w d st]>) w).
Proof.
  intros Hd Hne Hwb Hs Hw. unfold write_document.
  unfold written_by_save in Hwb. unfold savable in Hs.
  destruct (endswith path ".csv"); simpl in Hwb, Hs; [done|].
  rewrite Hwb in Hs. simpl in Hs. apply orb_false_iff in Hs as [Hfmt Hwf].
  apply negb_false_iff in Hfmt.
  unfold bind at 1. unfold gets at 1. rewrite Hfmt.
  unfold bind at 1. rewrite (df_to_excel_ok _ _ _ _ _ d) by done.
  unfold bind at 1. unfold load_workbook. rewrite Hwf.
  eexists. split; [|reflexivity]. done.
Qed.

Lemma save_file_ok (w : World) (st : Stat) (p : string) (d : DataFrame) :
  df (parent w) = Some d -> current_file_path (parent w) = Some p ->
  p <> EmptyString -> savable w p = true -> writable (fs w) p ->
  save_file st w
  = Normal true
      (mkWorld (set_is_modified false (parent w)) (manager w)
         (<[p := saved_file w p d st]> (fs w)) (settings w) (dialogs w)
         (openpyxl_available w)
         (ui w ++ [StatusMessage "Saving file..." 0;
                   WindowTitle ("Excel Editor Pro- " +:+ basename p);
                   StatusMessage ("File saved: " +:+ basename p) 0])).
Proof.
  intros Hd Hp Hne Hs Hw.
  pose proof (write_document_ok p st (emit (StatusMessage "Saving file..." 0) w) d
                Hd Hne Hs Hw) as Hwrite.
  unfold save_file, try_except. unfold bind at 1. unfold gets at 1.
  rewrite Hd, Hp. unfold showMessage, setWindowTitle.
  unfold bind at 1. unfold modify at 1.
  unfold bind at 1.
  change (include_index_cb (parent w))
    with (include_index_cb (parent (emit (StatusMessage "Saving file..." 0) w))).
  rewrite Hwrite.
  destruct w. as_simpl. by rewrite <- !app_assoc.
Qed.

(** [save_file] when the write raises [e] and leaves the files [m]. *)
Lemma save_file_failed (w : World) (st : Stat) (p : string) (d : DataFrame)
    (e : exn) (m : gmap string File) :
  df (parent w) = Some d -> current_file_path (parent w) = Some p ->
  is_Exception e = true ->
  write_document p (include_index_cb (parent w)) st
    (emit (StatusMessage "Saving file..." 0) w)
  = Raised e (upd_fs (fun _ => m) (emit (StatusMessage "Saving file..." 0) w)) ->
  save_file st w
  = Normal false
      (mkWorld (parent w) (manager w) m (settings w) (dialogs w)
         (openpyxl_available w)
         (ui w ++ [StatusMessage "Saving file..." 0;
                   CriticalBox "Error" ("Error saving file: " +:+ str e)])).
Proof.
  intros Hd Hp He Hwrite.
  unfold save_file, try_except. unfold bind at 1. unfold gets at 1.
  rewrite Hd, Hp. unfold showMessage, setWindowTitle.
  unfold bind at 1. unfold modify at 1.
  unfold bind at 1. rewrite Hwrite, He.
  destruct w. as_simpl. unfold critical. as_simpl. by rewrite <- !app_assoc.
Qed.

Lemma upd_fs_same (w : World) : upd_fs (fun _ => fs w) w = w.
Proof. by destruct w. Qed.

Lemma save_file_locked (w : World) (st : Stat) (p : string) (d : DataFrame)
    (f : File) :
  df (parent w) = Some d -> current_file_path (parent w) = Some p ->
  p <> EmptyString -> written_by_save p = true ->
  fs w !! p = Some f -> locked f = true ->
  save_file st w
  = Normal false
      (mkWorld (parent w) (manager w) (fs w) (settings w) (dialogs w)
         (openpyxl_available w)
         (ui w ++ [StatusMessage "Saving file..." 0;
                   CriticalBox "Error" ("Error saving file: " +:+ str PermissionError)])).
Proof.
  intros Hd Hp Hne Hs Hf Hl.
  apply (save_file_failed w st p d PermissionError (fs w) Hd Hp eq_refl).
  rewrite (write_document_locked p _ st _ d f); [|done..].
  by destruct w.
Qed.

Lemma save_file_refused (w : World) (st : Stat) (p : string) (d : DataFrame) :
  df (parent w) = Some d -> current_file_path (parent w) = Some p ->
  written_by_save p = false ->
  save_file st w
  = Normal false
      (mkWorld (parent w) (manager w) (fs w) (settings w) (dialogs w)
         (openpyxl_available w)
         (ui w ++ [StatusMessage "Saving file..." 0;
                   CriticalBox "Error"
                     ("Error saving file: " +:+ no_writer (Some "openpyxl") p)])).
Proof.
  intros Hd Hp Hs.
  apply (save_file_failed w st p d (ValueError (no_writer (Some "openpyxl") p))
           (fs w) Hd Hp eq_refl).
  rewrite (write_document_refused p _ st _ d); [|done..].
  by destruct w.
Qed.

Lemma save_file_not_loaded (w : World) (st : Stat) (p : string) (d : DataFrame) :
  df (parent w) = Some d -> current_file_path (parent w) = Some p ->
  p <> EmptyString -> written_by_save p = true -> savable w p = false ->
  writable (fs w) p ->
  exists text,
    save_file st w
    = Normal false
        (mkWorld (parent w) (manager w) (<[p := unformatted_file w d st]> (fs w))
           (settings w) (dialogs w) (openpyxl_available w)
           (ui w ++ [StatusMessage "Saving file..." 0; CriticalBox "Error" text])).
Proof.
  intros Hd Hp Hne Hwb Hs Hw.
  destruct (write_document_not_loaded p st
              (emit (StatusMessage "Saving file..." 0) w) d Hd Hne Hwb Hs Hw)
    as (e & He & Hwrite).
  eexists.
  apply (save_file_failed w st p d e _ Hd Hp He).
  change (include_index_cb (parent w))
    with (include_index_cb (parent (emit (StatusMessage "Saving file..." 0) w))).
  rewrite Hwrite. by destruct w.
Qed.

(** X15: [save_file] on a loaded document bound to a non-empty path.

    - The path can be saved (it ends in ".csv", or the openpyxl writer
      of pandas takes its extension and, when the workbook is to be
      formatted, openpyxl loads it again) and the file can be written:
      it returns [True], the file holds the document (CSV for a ".csv"
      path, else a workbook, formatted when format settings exist and
      openpyxl is available), no other file changes and [is_modified] is
      cleared.
    - pandas has no writer for the extension (as for "notes.txt" or
      "Book.XLSX"), or the file is locked: it returns [False], shows an
      error box, and leaves the files and the parent, [is_modified]
      included, as they were.
    - The workbook is written but openpyxl does not load it for
      formatting: it returns [False] after an error box with the
      unformatted workbook on the disk, and the document stays as
      modified as it was.

    The manager is never touched. *)
Theorem save_file_writes_the_bound_file_or_reports (w : World) (st : Stat)
    (p : string) (d : DataFrame) :
  df (parent w) = Some d -> current_file_path (parent w) = Some p ->
  p <> EmptyString ->
  let w' := state_of (save_file st w) in
  (savable w p = true -> writable (fs w) p ->
   save_file st w = Normal true w' /\
   fs w' = <[p := saved_file w p d st]> (fs w) /\
   parent w' = set_is_modified false (parent w) /\
   ui w' = ui w ++ [StatusMessage "Saving file..." 0;
                    WindowTitle ("Excel Editor Pro- " +:+ basename p);
                    StatusMessage ("File saved: " +:+ basename p) 0]) /\
  (written_by_save p = false \/
   (exists f, fs w !! p = Some f /\ locked f = true) ->
   save_file st w = Normal false w' /\
   fs w' = fs w /\ parent w' = parent w /\
   exists text,
     ui w' = ui w ++ [StatusMessage "Saving file..." 0; CriticalBox "Error" text]) /\
  (written_by_save p = true -> savable w p = false -> writable (fs w) p ->
   save_file st w = Normal false w' /\
   fs w' = <[p := unformatted_file w d st]> (fs w) /\ parent w' = parent w /\
   exists text,
     ui w' = ui w ++ [StatusMessage "Saving file..." 0; CriticalBox "Error" text]) /\
  manager w' = manager w.
Proof.
  intros Hd Hp Hne w'. subst w'. split; [|split; [|split]].
  - intros Hs Hw. by rewrite (save_file_ok w st p d).
  - intros [Hs | (f & Hf & Hl)].
    + rewrite (save_file_refused w st p d) by done. simpl.
      repeat split. by eexists.
    + destruct (written_by_save p) eqn:Hs.
      * rewrite (save_file_locked w st p d f) by done. simpl.
        repeat split. by eexists.
      * rewrite (save_file_refused w st p d) by done. simpl.
        repeat split. by eexists.
  - intros Hwb Hs Hw.
    destruct (save_file_not_loaded w st p d Hd Hp Hne Hwb Hs Hw) as (text & ->).
    simpl. repeat split. by eexists.
  - destruct (written_by_save p) eqn:Hwb;
      [|by rewrite (save_file_refused w st p d)].
    destruct (fs w !! p) as [f|] eqn:Hf.
    + destruct (locked f) eqn:Hl; [by rewrite (save_file_locked w st p d f)|].
      assert (writable (fs w) p) as Hw by (intros g Hg; congruence).
      destruct (savable w p) eqn:Hs; [by rewrite (save_file_ok w st p d)|].
      by destruct (save_file_not_loaded w st p d Hd Hp Hne Hwb Hs Hw) as (text & ->).
    + assert (writable (fs w) p) as Hw by (intros g Hg; congruence).
      destruct (savable w p) eqn:Hs; [by rewrite (save_file_ok w st p d)|].
      by destruct (save_file_not_loaded w st p d Hd Hp Hne Hwb Hs Hw) as (text & ->).
Qed.


(** ** [save_as_file] *)

Lemma endswith_app_self (x y : string) : endswith (x +:+ y) y = true.
Proof.
  unfold endswith. rewrite length_app_string.
  rewrite (proj2 (Nat.leb_le _ _)) by lia. simpl.
  replace (String.length x + String.length y - String.length y)%nat
    with (String.length x) by lia.
  pose proof (slice_from_app x y) as H. unfold slice_from in H.
  rewrite length_app_string in H.
  replace (String.length x + String.length y - String.length x)%nat
    with (String.length y) in H by lia.
  rewrite H. apply String.eqb_refl.
Qed.

Lemma save_as_path_extension (a : string) :
  endswith (save_as_path a) ".csv" || endswith (save_as_path a) ".xlsx" = true.
Proof.
  unfold save_as_path. destruct (endswith a ".csv") eqn:E1; [by rewrite E1|].
  destruct (endswith a ".xlsx") eqn:E2; [by rewrite E2, orb_true_r|].
  by rewrite endswith_app_self, orb_true_r.
Qed.

(** pandas has a writer for every path that [save_as_file] makes up. *)
Lemma save_as_path_written (a : string) : written_by_save (save_as_path a) = true.
Proof.
  unfold written_by_save.
  destruct (endswith (save_as_path a) ".csv") eqn:E; [done|]. simpl.
  pose proof (save_as_path_extension a) as H. rewrite E in H. simpl in H.
  by apply openpyxl_writes_xlsx.
Qed.

Lemma save_as_path_savable (w : World) (a : string) :
  wants_formatting w = false \/ extension (save_as_path a) <> EmptyString ->
  savable w (save_as_path a) = true.
Proof.
  intros H. unfold savable.
  destruct (endswith (save_as_path a) ".csv") eqn:E; [done|].
  pose proof (save_as_path_extension a) as Hx. rewrite E in Hx. simpl in Hx.
  rewrite (openpyxl_writes_xlsx _ Hx). simpl.
  destruct H as [-> | H]; [done|].
  rewrite (workbook_format_xlsx _ Hx H). apply orb_true_r.
Qed.

Lemma write_file_raises (p : string) (c : Content) (st : Stat) (w : World) (e : exn) :
  raised (write_file p c st w) = Some e ->
  is_Exception e = true /\ state_of (write_file p c st w) = w.
Proof.
  unfold write_file. destruct (String.eqb p EmptyString); [by intros [= <-]|].
  as_simpl. destruct (fs w !! p) as [f|]; [|done].
  destruct (locked f); [by intros [= <-] | done].
Qed.

Lemma df_to_excel_raises (path : string) (idx : bool) (engine : option string)
    (st : Stat) (w : World) (e : exn) :
  raised (df_to_excel path idx engine st w) = Some e -> is_Exception e = true.
Proof.
  unfold df_to_excel, bind, gets.
  destruct (df (parent w)); [|by intros [= <-]].
  destruct (excel_writer engine path); [|by intros [= <-]].
  intros H. by apply write_file_raises in H as [? _].
Qed.

Lemma write_document_raises (path : string) (idx : bool) (st : Stat) (w : World)
    (e : exn) :
  raised (write_document path idx st w) = Some e -> is_Exception e = true.
Proof.
  unfold write_document, df_to_csv.
  destruct (endswith path ".csv").
  - unfold bind, gets. destruct (df (parent w)); [|by intros [= <-]].
    intros H. by apply write_file_raises in H as [? _].
  - unfold bind at 1. unfold gets at 1. destruct (wants_formatting w).
    + unfold bind at 1.
      destruct (df_to_excel path idx (Some "openpyxl") st w) as [[] w1|e1 w1] eqn:Hw1.
      * unfold bind at 1. unfold load_workbook.
        destruct (workbook_format path); [|by intros [= <-]].
        unfold bind at 1. unfold gets at 1.
        destruct (fs w1 !! path); [|by intros [= <-]].
        unfold ret, bind, gets. destruct (df (parent w1)); [|by intros [= <-]].
        intros H. by apply write_file_raises in H as [? _].
      * intros [= <-]. apply (df_to_excel_raises path idx (Some "openpyxl") st w).
        by rewrite Hw1.
    + apply df_to_excel_raises.
Qed.

Lemma save_as_file_never_raises (st : Stat) (w : World) :
  raised (save_as_file st w) = None.
Proof.
  unfold save_as_file, try_except, getSaveFileName, showMessage, setWindowTitle,
    information, critical.
  as_simpl. destruct (df (parent w)); [|done].
  destruct (dialogs w) as [|a rest]; [done|].
  destruct (String.eqb a EmptyString); simpl; [done|].
  match goal with
  | |- context [write_document ?p ?i ?s ?w0] =>
      pose proof (write_document_raises p i s w0) as Hr;
      destruct (write_document p i s w0) as [[] w1|e w1]
  end.
  - done.
  - simpl in Hr. by rewrite (Hr e eq_refl).
Qed.

Lemma save_as_file_ok (w : World) (st : Stat) (a : string) (rest : list string)
    (d : DataFrame) :
  df (parent w) = Some d -> dialogs w = a :: rest -> a <> EmptyString ->
  savable w (save_as_path a) = true ->
  writable (fs w) (save_as_path a) ->
  save_as_file st w
  = Normal true
      (mkWorld
         (set_is_modified false
            (set_current_file_path (Some (save_as_path a)) (parent w)))
         (manager w)
         (<[save_as_path a := saved_file w (save_as_path a) d st]> (fs w))
         (settings w) rest (openpyxl_available w)
         (ui w ++ [StatusMessage "Saving file..." 0;
                   WindowTitle ("Excel Editor Pro - " +:+ basename (save_as_path a));
                   StatusMessage ("File saved: " +:+ basename (save_as_path a)) 0;
                   RecentFile (save_as_path a);
                   InformationBox "Success" "File saved successfully!"])).
Proof.
  intros Hd Hdl Hne Hs Hw.
  assert (save_as_path a <> EmptyString) as Hpne.
  { unfold save_as_path.
    destruct (endswith a ".csv"); [done|]. destruct (endswith a ".xlsx"); [done|].
    intros Hempty. apply app_eq_empty in Hempty. discriminate. }
  destruct w as [pa m f se dl o u]. simpl in *. subst dl.
  pose proof (write_document_ok (save_as_path a) st
                (mkWorld pa m f se rest o (u ++ [StatusMessage "Saving file..." 0]))
                d Hd Hpne Hs Hw) as Hwrite.
  simpl in Hwrite.
  unfold save_as_file, try_except, getSaveFileName, showMessage, setWindowTitle,
    information, critical.
  as_simpl. rewrite Hd. apply String.eqb_neq in Hne. simpl. rewrite Hne. simpl.
  fold (save_as_path a). rewrite Hwrite. as_simpl.
  unfold saved_file, saved_content, wants_formatting. simpl.
  rewrite ?Hd, <- !app_assoc. reflexivity.
Qed.

Lemma save_as_file_not_loaded (w : World) (st : Stat) (a : string)
    (rest : list string) (d : DataFrame) :
  df (parent w) = Some d -> dialogs w = a :: rest -> a <> EmptyString ->
  savable w (save_as_path a) = false ->
  writable (fs w) (save_as_path a) ->
  exists text,
    save_as_file st w
    = Normal false
        (mkWorld (parent w) (manager w)
           (<[save_as_path a := unformatted_file w d st]> (fs w))
           (settings w) rest (openpyxl_available w)
           (ui w ++ [StatusMessage "Saving file..." 0; CriticalBox "Error" text])).
Proof.
  intros Hd Hdl Hne Hs Hw.
  assert (save_as_path a <> EmptyString) as Hpne.
  { unfold save_as_path.
    destruct (endswith a ".csv"); [done|]. destruct (endswith a ".xlsx"); [done|].
    intros Hempty. apply app_eq_empty in Hempty. discriminate. }
  destruct w as [pa m f se dl o u]. simpl in *. subst dl.
  destruct (write_document_not_loaded (save_as_path a) st
              (mkWorld pa m f se rest o (u ++ [StatusMessage "Saving file..." 0]))
              d Hd Hpne (save_as_path_written a) Hs Hw) as (e & He & Hwrite).
  simpl in Hwrite.
  unfold save_as_file, try_except, getSaveFileName, showMessage, setWindowTitle,
    information, critical.
  as_simpl. rewrite Hd. apply String.eqb_neq in Hne. simpl. rewrite Hne. simpl.
  fold (save_as_path a). rewrite Hwrite, He. as_simpl.
  unfold unformatted_file. simpl. rewrite <- !app_assoc. by eexists.
Qed.

(** X16: [save_as_file] on a loaded document.  When the dialog is
    cancelled it returns [False] and nothing but the dialog changes.  For
    an answer [a] the target is [a] itself when [a] ends in ".csv" or
    ".xlsx" and [a + ".xlsx"] otherwise: it always ends in ".csv" or
    ".xlsx", and pandas always has a writer for it.  When the target can
    be written, [save_as_file] returns [True], leaves the document there,
    binds that path and clears [is_modified], provided the target can be
    saved: it always can when no formatting is wanted, or when the target
    has an extension.  The one target that cannot is a name of dots only
    before ".xlsx" on a document with format settings: the workbook is
    written, openpyxl does not load it again, and [save_as_file] returns
    [False] with the path not bound.  [save_file] on a document not yet
    bound to a path is [save_as_file]. *)
Theorem save_as_file_binds_a_csv_or_xlsx_path (w : World) (st : Stat) (d : DataFrame) :
  df (parent w) = Some d ->
  let w' := state_of (save_as_file st w) in
  (head (dialogs w) = None \/ head (dialogs w) = Some EmptyString ->
   save_as_file st w = Normal false (set_dialogs (tail (dialogs w)) w)) /\
  (forall a, head (dialogs w) = Some a -> a <> EmptyString ->
   let target := save_as_path a in
   (endswith target ".csv" || endswith target ".xlsx" = true /\
    written_by_save target = true /\
    (wants_formatting w = false \/ extension target <> EmptyString ->
     savable w target = true)) /\
   (writable (fs w) target -> savable w target = true ->
    save_as_file st w = Normal true w' /\
    current_file_path (parent w') = Some target /\
    is_modified (parent w') = false /\
    fs w' = <[target := saved_file w target d st]> (fs w)) /\
   (writable (fs w) target -> savable w target = false ->
    save_as_file st w = Normal false w' /\
    parent w' = parent w /\
    fs w' = <[target := unformatted_file w d st]> (fs w))) /\
  (current_file_path (parent w) = None -> save_file st w = save_as_file st w).
Proof.
  intros Hd w'. subst w'. split; [|split].
  - intros Hc. unfold save_as_file, try_except. unfold bind at 1. unfold gets at 1.
    rewrite Hd. unfold bind at 1. unfold getSaveFileName, bind at 1, gets at 1.
    destruct (dialogs w) as [|a rest] eqn:Hdl; simpl in *.
    + by destruct w; simpl in *; subst.
    + destruct Hc as [Hc|Hc]; [done|]. injection Hc as ->. by destruct w.
  - intros a Ha Hne target. destruct (dialogs w) as [|a' rest] eqn:Hdl; [done|].
    simpl in Ha. injection Ha as ->. split; [|split].
    + split; [apply save_as_path_extension|].
      split; [apply save_as_path_written | apply save_as_path_savable].
    + intros Hw Hs. by rewrite (save_as_file_ok w st a rest d).
    + intros Hw Hs.
      by destruct (save_as_file_not_loaded w st a rest d Hd Hdl Hne Hs Hw)
        as (text & ->).
  - intros Hp. unfold save_file, try_except. unfold bind at 1. unfold gets at 1.
    rewrite Hd, Hp. pose proof (save_as_file_never_raises st w) as Hr.
    by destruct (save_as_file st w).
Qed.


(** ** [save_version] and [perform_auto_save], whatever the disk holds *)

Lemma save_version_shape (now : DateTime) (st : Stat) (w : World) :
  dir_ok (version_dir (manager w)) ->
  exists r msgs,
    save_version now st w = Normal tt r /\
    same_editor w r /\ ui r = ui w ++ msgs /\
    (fs r = fs w \/
     exists vp file ps,
       locked file = false /\ writable (fs w) vp /\
       fs r = remove_unlocked ps (<[vp := file]> (fs w))).
Proof.
  intros Hdir.
  assert (forall e, exists r msgs,
            print e w = Normal tt r /\ same_editor w r /\ ui r = ui w ++ msgs /\
            (fs r = fs w \/
             exists vp file ps,
               locked file = false /\ writable (fs w) vp /\
               fs r = remove_unlocked ps (<[vp := file]> (fs w)))) as Hprint.
  { intros e. exists (emit (Printed e) w), [Printed e]. destruct w.
    split; [done|]. split; [done|]. split; [done|]. by left. }
  assert (exists r msgs,
            Normal tt w = Normal tt r /\ same_editor w r /\ ui r = ui w ++ msgs /\
            (fs r = fs w \/
             exists vp file ps,
               locked file = false /\ writable (fs w) vp /\
               fs r = remove_unlocked ps (<[vp := file]> (fs w)))) as Hnop.
  { exists w, []. rewrite app_nil_r.
    split; [done|]. split; [done|]. split; [done|]. by left. }
  unfold save_version, try_except. unfold bind at 1. unfold gets at 1.
  destruct (current_file_path (parent w)) as [p|] eqn:Hp; [|exact Hnop].
  destruct (truthy (Some p)); [|exact Hnop].
  unfold bind at 1. unfold gets at 1.
  set (dir := version_dir (manager w)) in *.
  set (vp := join dir (version_filename p now)).
  set (idx := include_index_cb (parent w)).
  assert (vp <> EmptyString) as Hvne by (by apply version_path_nonempty).
  assert ((exists e, is_Exception e = true /\
             (if endswith p ".csv" then df_to_csv vp idx st
              else df_to_excel vp idx None st) w = Raised e w) \/
          (exists c,
             (if endswith p ".csv" then df_to_csv vp idx st
              else df_to_excel vp idx None st) w = write_file vp c st w))
    as Hwrite.
  { destruct (df (parent w)) as [d|] eqn:Hd; destruct (endswith p ".csv");
      unfold df_to_csv, df_to_excel, bind, gets; rewrite Hd.
    - right. by eexists.
    - destruct (excel_writer None vp); [right; by eexists|].
      left. eexists. split; [|reflexivity]. done.
    - left. eexists. split; [|reflexivity]. done.
    - left. eexists. split; [|reflexivity]. done. }
  unfold bind at 1.
  destruct Hwrite as [(e & He & ->) | (c & ->)];
    [simpl; rewrite He; apply Hprint|].
  assert (forall file, locked file = false -> writable (fs w) vp ->
    exists r msgs,
      match
        cleanup_old_versions (splitext (basename p)).1 (upd_fs (<[vp := file]>) w)
      with
      | Normal a0 s' => Normal a0 s'
      | Raised e s' =>
          if is_Exception e
          then print ("Error saving version: " +:+ str e) s'
          else Raised e s'
      end = Normal tt r /\
      same_editor w r /\ ui r = ui w ++ msgs /\
      (fs r = fs w \/
       exists vp file ps,
         locked file = false /\ writable (fs w) vp /\
         fs r = remove_unlocked ps (<[vp := file]> (fs w)))) as Hclean.
  { intros file Hfile Hwr.
    set (w0 := upd_fs (<[vp := file]>) w).
    assert (dir_ok (version_dir (manager w0))) as Hdir0 by (by destruct w).
    rewrite (cleanup_any _ w0 Hdir0).
    eexists. exists (if (keep_versions (manager w0) <? 0)%Z
                     then [Printed ("Error cleaning old versions: " +:+ str IndexError)]
                     else []).
    split; [done|].
    split; [by destruct (_ <? _)%Z; destruct w|].
    split; [destruct (_ <? _)%Z; destruct w; simpl; by rewrite ?app_nil_r|].
    right. eexists vp, file, _. split; [done|]. split; [done|].
    by destruct (_ <? _)%Z; destruct w. }
  destruct (fs w !! vp) as [f|] eqn:Hf.
  - destruct (locked f) eqn:Hl.
    + rewrite (write_file_locked vp _ st w f) by done. apply Hprint.
    + rewrite write_file_ok; [|done|intros g Hg; congruence].
      apply Hclean; [done|]. intros g Hg. congruence.
  - rewrite write_file_ok; [|done|intros g Hg; congruence].
    apply Hclean; [done|]. intros g Hg. congruence.
Qed.

Lemma save_version_any (now : DateTime) (st : Stat) (w : World) :
  dir_ok (version_dir (manager w)) ->
  exists w1 msgs,
    save_version now st w = Normal tt w1 /\
    same_editor w w1 /\ ui w1 = ui w ++ msgs /\
    (forall q, writable (fs w) q -> writable (fs w1) q) /\
    (forall q f, fs w !! q = Some f -> locked f = true -> fs w1 !! q = Some f).
Proof.
  intros Hdir.
  destruct (save_version_shape now st w Hdir) as (r & msgs & Hr & Hsame & Hui & Hfs).
  exists r, msgs. split; [done|]. split; [done|]. split; [done|].
  destruct Hfs as [-> | (vp & file & ps & Hfile & Hwr & ->)]; [done|].
  split.
  - intros q Hw g. rewrite lookup_remove_unlocked.
    destruct (decide (q = vp)) as [->|Hne].
    + rewrite lookup_insert_eq. case_match; [done|]. by intros [= <-].
    + rewrite lookup_insert_ne by done.
      destruct (fs w !! q) as [g'|] eqn:Hg'; [|done].
      case_match; [done|]. intros [= <-]. by apply (Hw g').
  - intros q g Hg Hlg. rewrite lookup_remove_unlocked.
    destruct (decide (q = vp)) as [->|Hne].
    + specialize (Hwr g Hg). congruence.
    + rewrite lookup_insert_ne, Hg, Hlg by done. by rewrite andb_false_r.
Qed.


Lemma perform_auto_save_clean (w : World) (now : DateTime) (s1 s2 : Stat) :
  is_modified (parent w) = false -> perform_auto_save now s1 s2 w = Normal tt w.
Proof.
  intros H. unfold perform_auto_save, try_except, bind, gets. simpl.
  by rewrite H, andb_false_r.
Qed.

Lemma savable_written (w : World) (p : string) :
  savable w p = true -> written_by_save p = true.
Proof.
  unfold savable, written_by_save. destruct (endswith p ".csv"); [done|].
  simpl. by intros [? _]%andb_true_iff.
Qed.

(** X17: [perform_auto_save] on a modified document bound to a
    non-empty path never raises and always ends with the status message
    "Auto-saved", whatever happened to the files.

    - When the bound path can be saved and its file can be written, the
      file holds the document afterwards and [is_modified] is cleared,
      even if the version could not be saved, and the next ticks do
      nothing.
    - When the bound path cannot be saved (pandas has no writer for its
      extension, as for "notes.txt", or openpyxl does not load the
      workbook for formatting) or its file is locked, the document stays
      modified: the next tick tries again.  A locked file is left as it
      was.  When pandas has no writer or the file is locked, [save_file]
      changes no file; when pandas has no writer for the version either,
      the tick changes no file at all. *)
Theorem perform_auto_save_saves_or_leaves_modified (w : World) (now : DateTime)
    (s1 s2 : Stat) (p : string) (d : DataFrame) :
  df (parent w) = Some d -> is_modified (parent w) = true ->
  current_file_path (parent w) = Some p -> p <> EmptyString ->
  dir_ok (version_dir (manager w)) ->
  let w' := state_of (perform_auto_save now s1 s2 w) in
  let vp := join (version_dir (manager w)) (version_filename p now) in
  let locked_file := exists f, fs w !! p = Some f /\ locked f = true in
  perform_auto_save now s1 s2 w = Normal tt w' /\
  last (ui w') = Some (StatusMessage "Auto-saved" 2000) /\
  (savable w p = true -> writable (fs w) p ->
   fs w' !! p = Some (saved_file w p d s2) /\
   is_modified (parent w') = false /\
   forall now' s1' s2', perform_auto_save now' s1' s2' w' = Normal tt w') /\
  (savable w p = false \/ locked_file -> is_modified (parent w') = true) /\
  (written_by_save p = false \/ locked_file ->
   fs w' = fs (state_of (save_version now s1 w))) /\
  (forall f, fs w !! p = Some f -> locked f = true -> fs w' !! p = Some f) /\
  (version_writer p vp = false -> written_by_save p = false -> fs w' = fs w).
Proof.
  intros Hd Hm Hp Hne Hdir w' vp locked_file.
  destruct (save_version_any now s1 w Hdir)
    as (w1 & msgs & Hsv & (Hpar & Hman & _ & _ & Hopen) & _ & Hwr & Hlk).
  assert (df (parent w1) = Some d) as Hd1 by (by rewrite Hpar).
  assert (current_file_path (parent w1) = Some p) as Hp1 by (by rewrite Hpar).
  assert (savable w1 p = savable w p) as Hsav.
  { unfold savable, wants_formatting. by rewrite Hpar, Hopen. }
  assert (state_of (save_version now s1 w) = w1) as Hw1 by (by rewrite Hsv).
  assert (forall b w2, save_file s2 w1 = Normal b w2 ->
            perform_auto_save now s1 s2 w
            = Normal tt (emit (StatusMessage "Auto-saved" 2000) w2)) as Hpas.
  { intros b w2 Hsf.
    unfold perform_auto_save, try_except. unfold bind at 1. unfold gets at 1.
    rewrite Hd, Hm, Hp. unfold truthy. apply String.eqb_neq in Hne as Hne'.
    rewrite Hne'. rewrite bool_decide_eq_true_2 by done. simpl.
    unfold bind at 1. rewrite Hsv. unfold bind at 1. by rewrite Hsf. }
  assert (version_writer p vp = false -> fs w1 = fs w) as Hrefused.
  { intros Hv. rewrite <- Hw1, (save_version_refused w now s1 p d) by done.
    by destruct w. }
  assert (locked_file -> exists f, fs w1 !! p = Some f /\ locked f = true) as Hl1.
  { intros (f & Hf & Hl). exists f. split; [by apply Hlk | done]. }
  subst w'. rewrite Hw1.
  destruct (written_by_save p) eqn:Hwb.
  - destruct (fs w1 !! p) as [f|] eqn:Hf; [destruct (locked f) eqn:Hl|].
    + (* the bound file is locked *)
      rewrite (Hpas _ _ (save_file_locked w1 s2 p d f Hd1 Hp1 Hne Hwb Hf Hl)).
      simpl. split; [done|]. split; [by rewrite last_snoc|].
      split; [|split; [|split; [|split]]].
      * intros _ Hw. specialize (Hwr p Hw f Hf). congruence.
      * intros _. by rewrite Hpar.
      * done.
      * intros f0 Hf0 Hl0. by apply Hlk.
      * done.
    + (* the bound file can be written *)
      assert (writable (fs w1) p) as Hw1' by (intros g Hg; congruence).
      assert (locked_file -> False) as Hnl.
      { intros H. destruct (Hl1 H) as (g & Hg & Hlg). congruence. }
      destruct (savable w p) eqn:Hs.
      * rewrite (Hpas _ _ (save_file_ok w1 s2 p d Hd1 Hp1 Hne
                             ltac:(by rewrite Hsav) Hw1')).
        simpl. split; [done|]. split; [by rewrite last_snoc|].
        split; [|split; [|split; [|split]]]; try done.
        -- intros _ _.
           assert (saved_file w1 p d s2 = saved_file w p d s2) as ->.
           { unfold saved_file, saved_content, wants_formatting.
             by rewrite Hpar, Hopen. }
           split; [by rewrite lookup_insert_eq|]. split; [done|].
           intros now' s1' s2'. by apply perform_auto_save_clean.
        -- intros [?|H]; [done | by destruct (Hnl H)].
        -- intros [?|H]; [done | by destruct (Hnl H)].
        -- intros f0 Hf0 Hl0. destruct Hnl. by exists f0.
      * destruct (save_file_not_loaded w1 s2 p d Hd1 Hp1 Hne Hwb
                    ltac:(by rewrite Hsav) Hw1') as (text & Hsf).
        rewrite (Hpas _ _ Hsf).
        simpl. split; [done|]. split; [by rewrite last_snoc|].
        split; [|split; [|split; [|split]]]; try done.
        -- intros _. by rewrite Hpar.
        -- intros [?|H]; [done | by destruct (Hnl H)].
        -- intros f0 Hf0 Hl0. destruct Hnl. by exists f0.
    + assert (writable (fs w1) p) as Hw1' by (intros g Hg; congruence).
      assert (locked_file -> False) as Hnl.
      { intros H. destruct (Hl1 H) as (g & Hg & Hlg). congruence. }
      destruct (savable w p) eqn:Hs.
      * rewrite (Hpas _ _ (save_file_ok w1 s2 p d Hd1 Hp1 Hne
                             ltac:(by rewrite Hsav) Hw1')).
        simpl. split; [done|]. split; [by rewrite last_snoc|].
        split; [|split; [|split; [|split]]]; try done.
        -- intros _ _.
           assert (saved_file w1 p d s2 = saved_file w p d s2) as ->.
           { unfold saved_file, saved_content, wants_formatting.
             by rewrite Hpar, Hopen. }
           split; [by rewrite lookup_insert_eq|]. split; [done|].
           intros now' s1' s2'. by apply perform_auto_save_clean.
        -- intros [?|H]; [done | by destruct (Hnl H)].
        -- intros [?|H]; [done | by destruct (Hnl H)].
        -- intros f0 Hf0 Hl0. destruct Hnl. by exists f0.
      * destruct (save_file_not_loaded w1 s2 p d Hd1 Hp1 Hne Hwb
                    ltac:(by rewrite Hsav) Hw1') as (text & Hsf).
        rewrite (Hpas _ _ Hsf).
        simpl. split; [done|]. split; [by rewrite last_snoc|].
        split; [|split; [|split; [|split]]]; try done.
        -- intros _. by rewrite Hpar.
        -- intros [?|H]; [done | by destruct (Hnl H)].
        -- intros f0 Hf0 Hl0. destruct Hnl. by exists f0.
  - (* pandas has no writer for the bound path *)
    rewrite (Hpas _ _ (save_file_refused w1 s2 p d Hd1 Hp1 Hwb)).
    simpl. split; [done|]. split; [by rewrite last_snoc|].
    split; [|split; [|split; [|split]]].
    + intros Hs. apply savable_written in Hs. congruence.
    + intros _. by rewrite Hpar.
    + done.
    + intros f0 Hf0 Hl0. by apply Hlk.
    + intros Hv _. by apply Hrefused.
Qed.


(** ** No retention *)

Lemma save_version_writes_then_cleans (w : World) (now : DateTime) (st : Stat)
    (p : string) (d : DataFrame) :
  let dir := version_dir (manager w) in
  let vp := join dir (version_filename p now) in
  current_file_path (parent w) = Some p -> p <> EmptyString ->
  df (parent w) = Some d -> dir_ok dir -> version_writer p vp = true ->
  writable (fs w) vp ->
  save_version now st w
  = cleanup_old_versions (splitext (basename p)).1
      (upd_fs (<[vp := version_file p (include_index_cb (parent w)) d st]>) w).
Proof.
  intros dir vp Hp Hne Hd Hdir Hwr Hw.
  unfold save_version, try_except. unfold bind at 1. unfold gets at 1.
  rewrite Hp. unfold truthy. apply String.eqb_neq in Hne. rewrite Hne. simpl.
  unfold bind at 1. unfold gets at 1. fold dir. fold vp.
  set (newfile := version_file p (include_index_cb (parent w)) d st).
  assert ((if endswith p ".csv"
           then df_to_csv vp (include_index_cb (parent w)) st
           else df_to_excel vp (include_index_cb (parent w)) None st) w
          = Normal tt (upd_fs (<[vp := newfile]>) w)) as Hwrite.
  { pose proof (version_path_nonempty dir p now Hdir) as Hvne. fold vp in Hvne.
    unfold version_writer in Hwr.
    unfold newfile, version_file.
    destruct (endswith p ".csv"); simpl in Hwr.
    - unfold df_to_csv, bind, gets. rewrite Hd. by apply write_file_ok.
    - by apply df_to_excel_ok. }
  unfold bind at 1. rewrite Hwrite.
  assert (dir_ok (version_dir (manager (upd_fs (<[vp := newfile]>) w)))) as Hdir0
    by (by destruct w).
  by rewrite (cleanup_any _ _ Hdir0).
Qed.

(** X12: with [keep_versions <= 0] and no locked version, a
    [save_version] that writes its file removes every version of that
    base name, the one it has just written included: [get_versions]
    returns the empty list afterwards, and other files are untouched.
    With a negative [keep_versions] the cleanup ends in "pop from empty
    list", printed last.  When pandas has no writer for the version,
    nothing is written and nothing is cleaned up: the files are left as
    they were and the error is printed. *)
Theorem save_version_keeps_nothing_without_retention (fromtimestamp : TimeZone)
    (w : World) (now : DateTime) (st : Stat) (p : string) (d : DataFrame) :
  let dir := version_dir (manager w) in
  let pre := version_prefix p in
  let vp := join dir (version_filename p now) in
  current_file_path (parent w) = Some p -> p <> EmptyString ->
  df (parent w) = Some d -> dir_ok dir ->
  keep_versions (manager w) <= 0 ->
  deletions_succeed dir pre (fs w) ->
  let w' := state_of (save_version now st w) in
  (version_writer p vp = true ->
   versions_in dir pre (fs w') = [] /\
   get_versions fromtimestamp p w' = Normal [] w' /\
   (forall q, version_name dir pre q = None -> fs w' !! q = fs w !! q) /\
   (keep_versions (manager w) < 0 ->
    last (ui w')
    = Some (Printed "Error cleaning old versions: pop from empty list"))) /\
  (version_writer p vp = false ->
   fs w' = fs w /\
   ui w' = ui w ++ [Printed ("Error saving version: " +:+ no_writer None vp)]).
Proof.
  intros dir pre vp Hp Hne Hd Hdir HK Hdel w'. split; cycle 1.
  { intros Hv. unfold w'. rewrite (save_version_refused w now st p d) by done.
    by destruct w. }
  intros Hv.
  set (newfile := version_file p (include_index_cb (parent w)) d st).
  set (w0 := upd_fs (<[vp := newfile]>) w).
  assert (writable (fs w) vp) as Hwr.
  { intros f Hf. eapply Hdel; [exact Hf|]. by apply version_path_is_version. }
  assert (w' = state_of (cleanup_old_versions (splitext (basename p)).1 w0)) as Hw'.
  { unfold w'. by rewrite (save_version_writes_then_cleans w now st p d). }
  assert (dir_ok (version_dir (manager w0))) as Hdir0 by (by destruct w).
  rewrite (cleanup_any _ w0 Hdir0) in Hw'. cbv zeta in Hw'.
  assert (version_dir (manager w0) = dir) as Edir by (by destruct w).
  assert (keep_versions (manager w0) = keep_versions (manager w)) as Ekeep
    by (by destruct w).
  assert (fs w0 = <[vp := newfile]> (fs w)) as Efs0 by (by destruct w).
  rewrite Edir, Ekeep in Hw'.
  change ((splitext (basename p)).1 +:+ "_v") with pre in Hw'.
  set (removed := map snd (removed_by_cleanup dir pre (keep_versions (manager w))
                             (fs w0))) in *.
  assert (fs w' = remove_unlocked removed (fs w0)) as Hfs.
  { rewrite Hw'. by destruct (_ <? _)%Z; destruct w. }
  assert (manager w' = manager w) as Hman.
  { rewrite Hw'. by destruct (_ <? _)%Z; destruct w. }
  assert (deletions_succeed dir pre (fs w0)) as Hdel0.
  { rewrite Efs0. by apply deletions_succeed_insert. }
  assert (versions_in dir pre (fs w') = []) as Hempty.
  { apply elem_of_nil_inv. intros x Hx.
    apply elem_of_versions_in in Hx as (file & f & Hl & Hv' & Hm).
    rewrite Hfs, lookup_remove_unlocked in Hl.
    destruct (fs w0 !! x.2) as [file0|] eqn:Hf0; [|done].
    rewrite (Hdel0 _ _ _ Hf0 Hv') in Hl. simpl in Hl. rewrite andb_true_r in Hl.
    rewrite bool_decide_eq_true_2 in Hl; [done|].
    unfold removed, removed_by_cleanup. cbv zeta.
    replace (Z.to_nat (keep_versions (manager w))) with 0%nat by lia.
    rewrite Nat.sub_0_r, firstn_all. apply list_elem_of_fmap.
    exists (mtime file0, x.2). split; [done|].
    rewrite sorted_versions_perm. apply elem_of_versions_in.
    exists file0, f. by simpl. }
  split; [done|]. split.
  { rewrite get_versions_eq by (by rewrite Hman).
    rewrite Hman. fold dir. fold pre.
    assert (records_in fromtimestamp dir pre (fs w') = []) as ->; [|done].
    unfold versions_in in Hempty. apply fmap_nil_inv in Hempty.
    unfold records_in. by rewrite Hempty. }
  split.
  - intros q Hq. rewrite Hfs, lookup_remove_unlocked.
    assert (fs w0 !! q = fs w !! q) as ->.
    { rewrite Efs0. apply lookup_insert_ne. intros <-.
      unfold vp, pre in Hq. by rewrite version_path_is_version in Hq. }
    destruct (fs w !! q) as [file|]; [|done].
    rewrite bool_decide_eq_false_2; [done|].
    intros Hin. apply list_elem_of_fmap in Hin as (x & -> & Hx).
    unfold removed_by_cleanup in Hx. cbv zeta in Hx.
    apply elem_of_take in Hx as (i & Hx & _).
    apply list_elem_of_lookup_2 in Hx. rewrite sorted_versions_perm in Hx.
    apply elem_of_versions_in in Hx as (file' & f & _ & Hv' & _). congruence.
  - intros Hneg. rewrite Hw'. rewrite (proj2 (Z.ltb_lt _ _)) by lia.
    destruct w. simpl. by rewrite last_snoc.
Qed.

(** ** Example sessions *)

Lemma dir_ok_home : dir_ok "/home/u/.excel_editor_versions".
Proof. split; [discriminate | reflexivity]. Qed.

Lemma after_five_saves_dir_ok : dir_ok (version_dir (manager after_five_saves)).
Proof. exact dir_ok_home. Qed.

(** X9 across a change of the clocks: the version written before the
    clocks were set back shows the later local time and is listed first,
    though it is the older file. *)
Lemma get_versions_lists_the_version_files_witness :
  exists rs,
    get_versions (set_back_at set_back) "/home/u/book.csv" around_set_back
    = Normal rs around_set_back /\
    map path rs = [version_before; version_after] /\
    StronglySorted (fun a b => datetime_leb (modified b) (modified a) = true) rs.
Proof.
  destruct (get_versions_lists_the_version_files (set_back_at set_back)
              "/home/u/book.csv" around_set_back dir_ok_home)
    as (rs & Hg & _ & _ & Hs).
  exists rs. split; [exact Hg|]. split; [|exact Hs].
  assert (value_of (get_versions (set_back_at set_back) "/home/u/book.csv"
                      around_set_back) = Some rs) as Hv by (by rewrite Hg).
  vm_compute in Hv. injection Hv as <-. vm_compute. reflexivity.
Defined.

Lemma get_versions_lists_versions_of_longer_names_witness :
  exists rs r,
    get_versions utc "/home/u/book.csv" copy_saved = Normal rs copy_saved /\
    r ∈ rs /\ filename r = "book_v2_v20240307_090500.csv".
Proof.
  destruct (get_versions_lists_versions_of_longer_names utc
              "/home/u/book.csv" "/home/u/book_v2.csv"
              (mkDateTime 2024 3 7 9 5 0 0) copy_saved
              (mkFile 1709802300000000 100 (Csv false book) false))
    as (rs & r & Hg & Hin & _ & Hf).
  - exact dir_ok_home.
  - right. vm_compute. reflexivity.
  - vm_compute. reflexivity.
  - exists rs, r. split; [exact Hg|]. split; [exact Hin|].
    rewrite Hf. vm_compute. reflexivity.
Defined.

Lemma cleanup_removes_only_old_unlocked_versions_witness :
  let w' := state_of (cleanup_old_versions "book" oldest_locked) in
  is_Some (fs w' !! version_1) /\ fs w' !! version_2 = None /\
  is_Some (fs w' !! version_3).
Proof.
  cbv zeta.
  destruct (cleanup_removes_only_old_unlocked_versions "book" oldest_locked
              dir_ok_home) as (_ & _ & _ & Hlook & _).
  rewrite !Hlook. vm_compute. repeat split; by eexists.
Defined.

(** X12 with [keep_versions = 0]: a version of "book.csv" is written
    and removed again; no version of "notes.txt" is written at all. *)
Lemma save_version_keeps_nothing_without_retention_witness :
  (let w' := state_of (save_version (mkDateTime 2024 3 7 9 5 0 0)
                         (mkStat 1709802300000000 100) (editing 0)) in
   get_versions utc "/home/u/book.csv" w' = Normal [] w') /\
  (let w' := state_of (save_version (mkDateTime 2024 3 7 9 5 0 0)
                         (mkStat 1709802300000000 100) (editing_notes 0)) in
   fs w' = fs (editing_notes 0)).
Proof.
  cbv zeta. split.
  - apply (proj1 (save_version_keeps_nothing_without_retention utc (editing 0)
                    (mkDateTime 2024 3 7 9 5 0 0) (mkStat 1709802300000000 100)
                    "/home/u/book.csv" book eq_refl ltac:(discriminate) eq_refl
                    dir_ok_home ltac:(vm_compute; discriminate)
                    ltac:(intros q f file Hq; vm_compute in Hq; discriminate Hq))).
    vm_compute. reflexivity.
  - apply (proj2 (save_version_keeps_nothing_without_retention utc (editing_notes 0)
                    (mkDateTime 2024 3 7 9 5 0 0) (mkStat 1709802300000000 100)
                    "/home/u/notes.txt" book eq_refl ltac:(discriminate) eq_refl
                    dir_ok_home ltac:(vm_compute; discriminate)
                    ltac:(intros q f file Hq; vm_compute in Hq; discriminate Hq))).
    vm_compute. reflexivity.
Defined.

Lemma update_settings_survives_a_restart_witness :
  let w' := state_of (update_settings false 15 7 (editing 3)) in
  init_manager "/home/u" (settings w') = manager w' /\
  keep_versions (manager w') = 7.
Proof.
  cbv zeta.
  destruct (update_settings_survives_a_restart false 15 7 "/home/u" (editing 3)
              eq_refl) as (_ & Hm & Hinit & _).
  split; [exact Hinit|]. by rewrite Hm.
Defined.

(** X15 on "book.csv", which is saved, and on "notes.txt", for which
    pandas has no writer. *)
Lemma save_file_writes_the_bound_file_or_reports_witness :
  (value_of (save_file (mkStat 2000 64) (editing 3)) = Some true /\
   is_modified (parent (state_of (save_file (mkStat 2000 64) (editing 3))))
   = false) /\
  (save_file (mkStat 2000 64) (editing_notes 3)
   = Normal false (state_of (save_file (mkStat 2000 64) (editing_notes 3))) /\
   fs (state_of (save_file (mkStat 2000 64) (editing_notes 3)))
   = fs (editing_notes 3) /\
   parent (state_of (save_file (mkStat 2000 64) (editing_notes 3)))
   = parent (editing_notes 3)).
Proof.
  split.
  - destruct (save_file_writes_the_bound_file_or_reports (editing 3) (mkStat 2000 64)
                "/home/u/book.csv" book eq_refl eq_refl) as (Hok & _).
    + discriminate.
    + destruct Hok as (Hv & _ & Hp & _).
      * vm_compute. reflexivity.
      * intros f Hf. vm_compute in Hf. discriminate Hf.
      * split; [by rewrite Hv | by rewrite Hp].
  - destruct (save_file_writes_the_bound_file_or_reports (editing_notes 3)
                (mkStat 2000 64) "/home/u/notes.txt" book eq_refl eq_refl)
      as (_ & Hno & _).
    + discriminate.
    + destruct Hno as (Hv & Hfs & Hp & _).
      * left. vm_compute. reflexivity.
      * split; [exact Hv|]. split; [exact Hfs | exact Hp].
Defined.

Lemma save_as_file_binds_a_csv_or_xlsx_path_witness :
  let w' := state_of (save_as_file (mkStat 2000 64) saving_as_report) in
  current_file_path (parent w') = Some "/home/u/report.xlsx" /\
  is_modified (parent w') = false.
Proof.
  cbv zeta.
  destruct (save_as_file_binds_a_csv_or_xlsx_path saving_as_report (mkStat 2000 64)
              book eq_refl) as (_ & Hok & _).
  destruct (Hok "/home/u/report" eq_refl) as (_ & Hsaved & _).
  - discriminate.
  - destruct Hsaved as (_ & Hp & Hm & _).
    + intros f Hf. vm_compute in Hf. discriminate Hf.
    + vm_compute. reflexivity.
    + split; [rewrite Hp; vm_compute; reflexivity | exact Hm].
Defined.

(** X17 on "book.csv", which is saved, and on "notes.txt", which stays
    modified with no file changed. *)
Lemma perform_auto_save_saves_or_leaves_modified_witness :
  (let w' := state_of (perform_auto_save (mkDateTime 2024 3 7 9 5 0 0)
                         (mkStat 1709802300000000 100)
                         (mkStat 1709802300500000 64) (editing 3)) in
   is_Some (fs w' !! "/home/u/book.csv") /\
   is_modified (parent w') = false /\
   last (ui w') = Some (StatusMessage "Auto-saved" 2000)) /\
  (let w' := state_of (perform_auto_save (mkDateTime 2024 3 7 9 5 0 0)
                         (mkStat 1709802300000000 100)
                         (mkStat 1709802300500000 64) (editing_notes 3)) in
   fs w' = fs (editing_notes 3) /\
   is_modified (parent w') = true /\
   last (ui w') = Some (StatusMessage "Auto-saved" 2000)).
Proof.
  cbv zeta. split.
  - destruct (perform_auto_save_saves_or_leaves_modified (editing 3)
                (mkDateTime 2024 3 7 9 5 0 0) (mkStat 1709802300000000 100)
                (mkStat 1709802300500000 64)
                "/home/u/book.csv" book eq_refl eq_refl eq_refl)
      as (_ & Hlast & Hok & _).
    + discriminate.
    + exact dir_ok_home.
    + destruct Hok as (Hf & Hm & _).
      * vm_compute. reflexivity.
      * intros f Hf. vm_compute in Hf. discriminate Hf.
      * split; [by eexists|]. split; [exact Hm | exact Hlast].
  - destruct (perform_auto_save_saves_or_leaves_modified (editing_notes 3)
                (mkDateTime 2024 3 7 9 5 0 0) (mkStat 1709802300000000 100)
                (mkStat 1709802300500000 64)
                "/home/u/notes.txt" book eq_refl eq_refl eq_refl)
      as (_ & Hlast & _ & Hmod & _ & _ & Hfs).
    + discriminate.
    + exact dir_ok_home.
    + split; [|split; [|exact Hlast]].
      * apply Hfs; vm_compute; reflexivity.
      * apply Hmod. left. vm_compute. reflexivity.
Defined.

End VersionsFacts.

(** * Properties of the version history dialog *)

Module VersionHistoryFacts.
Import Py Table AutoSave AutoSaveFacts Versions VersionsFacts VersionHistory.

Lemma add_versions_eq (versions : list VersionRecord) : forall s : Session,
  add_versions versions s
  = Normal tt (mkSession (world s) (version_list s ++ map Entry versions) (replies s)).
Proof.
  induction versions as [|v rest IH]; intros s.
  - simpl. rewrite app_nil_r. by destruct s.
  - simpl. unfold bind, modify. rewrite IH. unfold add_item. simpl.
    by rewrite <- app_assoc.
Qed.

Lemma load_versions_eq (tz : TimeZone) (s : Session) (p : string) :
  current_file_path (parent (world s)) = Some p -> p <> EmptyString ->
  dir_ok (version_dir (manager (world s))) ->
  exists versions,
    get_versions tz p (world s) = Normal versions (world s) /\
    load_versions tz s
    = Normal tt (mkSession (world s) (rows_of versions) (replies s)).
Proof.
  intros Hp Hne Hdir. eexists. split; [by apply get_versions_eq|].
  unfold load_versions. unfold bind at 1. unfold modify at 1.
  unfold bind at 1. unfold gets at 1. simpl. rewrite Hp.
  apply String.eqb_neq in Hne. rewrite Hne. simpl.
  unfold bind, on_world. simpl. rewrite get_versions_eq by done.
  destruct (sort newer_first _) as [|v rest] eqn:E; [done|].
  by rewrite add_versions_eq.
Qed.

Lemma delete_version_declined (tz : TimeZone) (w : World) (vl : list Row)
    (rp : list bool) (i : nat) (r : VersionRecord) :
  vl !! i = Some (Entry r) -> head rp <> Some true ->
  delete_version tz (Some i) (mkSession w vl rp)
  = Normal tt (mkSession w vl (tail rp)).
Proof.
  intros Hrow Hrep. unfold delete_version, question, current_version.
  as_simpl. rewrite Hrow. by destruct rp as [|[] rest].
Qed.

Lemma delete_version_failed (tz : TimeZone) (w : World) (vl : list Row)
    (rest : list bool) (i : nat) (r : VersionRecord) :
  vl !! i = Some (Entry r) ->
  fs w !! path r = None \/ (exists f, fs w !! path r = Some f /\ locked f = true) ->
  exists text,
    delete_version tz (Some i) (mkSession w vl (true :: rest))
    = Normal tt (mkSession (emit (CriticalBox "Error" text) w) vl rest).
Proof.
  intros Hrow Hf. unfold delete_version, question, current_version, try_except,
    on_world, os_remove, critical.
  as_simpl. rewrite Hrow. simpl.
  destruct Hf as [Hf | (f & Hf & Hl)]; rewrite Hf; simpl; [|rewrite Hl; simpl];
    by eexists.
Qed.

Lemma delete_version_done (tz : TimeZone) (w : World) (vl : list Row)
    (rest : list bool) (i : nat) (r : VersionRecord) (p : string) (f : File) :
  current_file_path (parent w) = Some p -> p <> EmptyString ->
  dir_ok (version_dir (manager w)) ->
  vl !! i = Some (Entry r) -> fs w !! path r = Some f -> locked f = false ->
  exists new,
    get_versions tz p (upd_fs (delete (path r)) w)
    = Normal new (upd_fs (delete (path r)) w) /\
    delete_version tz (Some i) (mkSession w vl (true :: rest))
    = Normal tt
        (mkSession
           (emit (InformationBox "Success" "Version deleted successfully!")
              (upd_fs (delete (path r)) w))
           (rows_of new) rest).
Proof.
  intros Hp Hne Hdir Hrow Hf Hl.
  set (w1 := upd_fs (delete (path r)) w).
  destruct (load_versions_eq tz (mkSession w1 vl rest) p) as (new & Hnew & Hload);
    [by destruct w..|].
  exists new. split; [done|].
  unfold delete_version, question, current_version, try_except,
    on_world, os_remove, information.
  as_simpl. rewrite Hrow. simpl. rewrite Hf, Hl. simpl.
  unfold w1, upd_fs in Hload. simpl in Hload. rewrite Hload. done.
Qed.

(** X18: [delete_version] on a row that stands for a version never
    raises.  Unless the user answers Yes, editor and list are unchanged.
    On Yes, when the file exists and is not locked it is removed and
    nothing else is, the list is reloaded and shows what [get_versions]
    listed before without that version, in the order of [get_versions]
    (by local date and time of modification, latest first), and a success
    box is shown; when the file is missing or locked, files and list are
    unchanged and an error box is shown. *)
Theorem delete_version_takes_the_version_off_the_list (fromtimestamp : TimeZone)
    (s : Session) (i : nat) (r : VersionRecord) (p : string) :
  let w := world s in
  current_file_path (parent w) = Some p -> p <> EmptyString ->
  dir_ok (version_dir (manager w)) ->
  version_list s !! i = Some (Entry r) ->
  let s' := state_of (delete_version fromtimestamp (Some i) s) in
  raised (delete_version fromtimestamp (Some i) s) = None /\
  (head (replies s) <> Some true ->
   world s' = w /\ version_list s' = version_list s) /\
  (head (replies s) = Some true ->
   (forall f, fs w !! path r = Some f -> locked f = false ->
    fs (world s') = delete (path r) (fs w) /\
    (exists old new,
       get_versions fromtimestamp p w = Normal old w /\
       version_list s' = rows_of new /\
       (forall v, v ∈ new <-> v ∈ old /\ path v <> path r) /\
       StronglySorted
         (fun a b => datetime_leb (modified b) (modified a) = true) new) /\
    last (ui (world s'))
    = Some (InformationBox "Success" "Version deleted successfully!")) /\
   (fs w !! path r = None \/
    (exists f, fs w !! path r = Some f /\ locked f = true) ->
    fs (world s') = fs w /\ version_list s' = version_list s /\
    exists text, last (ui (world s')) = Some (CriticalBox "Error" text))).
Proof.
  intros w Hp Hne Hdir Hrow s'. subst s' w. destruct s as [w vl rp]. simpl in *.
  destruct (decide (head rp = Some true)) as [Hyes|Hno].
  - destruct rp as [|b rest]; [done|]. simpl in Hyes. injection Hyes as ->.
    assert (fs w !! path r = None \/
            (exists f, fs w !! path r = Some f /\ locked f = true) \/
            (exists f, fs w !! path r = Some f /\ locked f = false)) as Hcases.
    { destruct (fs w !! path r) as [f|]; [|by left].
      right. destruct (locked f) eqn:Hl; [left | right]; by exists f. }
    destruct Hcases as [Hf | [Hf | (f & Hf & Hl)]].
    + destruct (delete_version_failed fromtimestamp w vl rest i r Hrow
                  (or_introl Hf)) as (text & ->).
      simpl. split; [done|]. split; [done|]. intros _. split.
      * intros f Hf'. congruence.
      * intros _. split; [done|]. split; [done|]. exists text.
        by rewrite last_snoc.
    + destruct (delete_version_failed fromtimestamp w vl rest i r Hrow
                  (or_intror Hf)) as (text & ->).
      simpl. split; [done|]. split; [done|]. intros _. split.
      * intros f Hf' Hl. destruct Hf as (g & Hg & Hlg). congruence.
      * intros _. split; [done|]. split; [done|]. exists text.
        by rewrite last_snoc.
    + destruct (delete_version_done fromtimestamp w vl rest i r p f Hp Hne Hdir
                  Hrow Hf Hl) as (new & Hnew & ->).
      simpl. split; [done|]. split; [done|]. intros _. split.
      * intros f' _ _. split; [done|]. split; [|by rewrite last_snoc].
        set (w1 := upd_fs (delete (path r)) w) in *.
        assert (dir_ok (version_dir (manager w1))) as Hdir1 by (by destruct w).
        rewrite (get_versions_eq fromtimestamp p w1 Hdir1) in Hnew.
        injection Hnew as <-.
        eexists _, _. split; [by apply get_versions_eq|]. split; [done|].
        split; [|apply sorted_newer_first].
        intros v. unfold version_prefix.
        pose proof (get_versions_members fromtimestamp p w1 v) as Hm1.
        cbv zeta in Hm1.
        change (version_dir (manager w1)) with (version_dir (manager w)) in Hm1.
        change (fs w1) with (delete (path r) (fs w)) in Hm1.
        rewrite Hm1, (get_versions_members fromtimestamp p w v).
        split.
        -- intros (file & Hl' & Hrest).
           apply lookup_delete_Some in Hl' as [Hneq Hl']. split; [|done].
           by exists file.
        -- intros [(file & Hl' & Hrest) Hneq]. exists file. split; [|done].
           by apply lookup_delete_Some.
      * intros [Hnone | (g & Hg & Hlg)]; congruence.
  - rewrite (delete_version_declined fromtimestamp w vl rp i r Hrow Hno). simpl.
    split; [done|]. split; [done|]. done.
Qed.

Lemma delete_version_takes_the_version_off_the_list_witness :
  let s' := state_of (delete_version utc (Some 0%nat) history_of_book) in
  fs (world s') !! "/home/u/.excel_editor_versions/book_v20240307_090504.csv"
  = None /\
  last (ui (world s'))
  = Some (InformationBox "Success" "Version deleted successfully!").
Proof.
  cbv zeta.
  destruct (delete_version_takes_the_version_off_the_list utc history_of_book 0%nat
              (mkVersionRecord "book_v20240307_090504.csv"
                 "/home/u/.excel_editor_versions/book_v20240307_090504.csv"
                 (mkDateTime 2024 3 7 9 5 4 0) 100)
              "/home/u/book.csv") as (_ & _ & Hyes).
  - vm_compute. reflexivity.
  - discriminate.
  - exact dir_ok_home.
  - vm_compute. reflexivity.
  - destruct (Hyes eq_refl) as [Hdone _].
    destruct (Hdone (mkFile 1709802304000000 100 (Csv false book) false))
      as (Hfs & _ & Hlast).
    + vm_compute. reflexivity.
    + reflexivity.
    + split; [|exact Hlast]. rewrite Hfs. apply lookup_delete_eq.
Defined.

End VersionHistoryFacts.

(** * Properties of the settings dialog *)

Module AutoSaveSettingsFacts.
Import Py Table AutoSave AutoSaveFacts AutoSaveSettings.

Lemma spin_range (lo hi v : Z) : lo <= hi -> lo <= spin lo hi v <= hi.
Proof. unfold spin. lia. Qed.

Lemma spin_id (lo hi v : Z) : lo <= v <= hi -> spin lo hi v = v.
Proof. unfold spin. lia. Qed.

Lemma apply_inputs_range (l : list Input) : forall d : Dialog,
  1 <= interval_spinbox d <= 60 -> 1 <= versions_spinbox d <= 100 ->
  1 <= interval_spinbox (apply_inputs l d) <= 60 /\
  1 <= versions_spinbox (apply_inputs l d) <= 100.
Proof.
  induction l as [|i l IH]; intros d H1 H2; [done|].
  simpl. apply IH; destruct i; simpl; try done; apply spin_range; lia.
Qed.

(** X14: whatever the manager holds and whatever the user enters,
    opening the settings dialog and pressing Save leaves an interval
    within 1..60 minutes and a [keep_versions] within 1..100, a timer that
    runs with that interval exactly when auto-save is enabled, and the
    same three values in the settings store; version directory, parent and
    files are untouched.  Saving without an input keeps settings that were
    within range. *)
Theorem edited_settings_are_within_range (l : list Input) (w : World) :
  let w' := state_of (edit_settings l w) in
  let m' := manager w' in
  edit_settings l w = Normal tt w' /\
  1 <= interval m' <= 60 /\ 1 <= keep_versions m' <= 100 /\
  timer m' = (if enabled m' then Some (interval m' * 60 * 1000) else None) /\
  version_dir m' = version_dir (manager w) /\
  settings w' !! "auto_save/enabled" = Some (QBool (enabled m')) /\
  settings w' !! "auto_save/interval" = Some (QInt (interval m')) /\
  settings w' !! "auto_save/keep_versions" = Some (QInt (keep_versions m')) /\
  parent w' = parent w /\ fs w' = fs w /\
  (l = [] -> 1 <= interval (manager w) <= 60 ->
   1 <= keep_versions (manager w) <= 100 ->
   enabled m' = enabled (manager w) /\ interval m' = interval (manager w) /\
   keep_versions m' = keep_versions (manager w)).
Proof.
  intros w' m'. subst m' w'.
  destruct (apply_inputs_range l (init_ui (manager w))) as [H1 H2];
    [apply spin_range; lia..|].
  destruct w as [p m f s d o u].
  unfold edit_settings, save_settings, update_settings. as_simpl.
  split; [done|]. split; [done|]. split; [done|]. split; [done|].
  split; [done|]. split.
  { rewrite lookup_insert_ne by done. rewrite lookup_insert_ne by done.
    by rewrite lookup_insert_eq. }
  split. { rewrite lookup_insert_ne by done. by rewrite lookup_insert_eq. }
  split; [by rewrite lookup_insert_eq|]. split; [done|]. split; [done|].
  intros -> Hi Hk. simpl. by rewrite !spin_id.
Qed.

End AutoSaveSettingsFacts.
